(** * The bisection driver of pkg/bisect/bisect.go

    A shallow embedding of the driver (Run, runImpl, env.bisect and the
    functions they call) and the properties of its specification.

    The driver is sequential Go code that owns a mutable session state
    ([env]) and calls external collaborators: the VCS adapter
    (vcs.Repo, vcs.Bisecter, vcs.ConfigMinimizer), the builder, the test
    runner (instance.Env) and the tracer.  The collaborators are Go
    interfaces; here they are the methods of a type class over an abstract
    world [W].  Every function of the driver is a state transformer on
    [state], which holds the world, the session state, the heap of
    [testResult] objects (the code shares them through pointers) and the
    list of collaborator calls made so far. *)

From Stdlib Require Import ZArith Lia Ascii.
From stdpp Require Import gmap strings list fin_maps pretty.

Local Open Scope Z_scope.

(** ** Data of the collaborating packages *)

(** A Go []byte. *)
Definition bytes := list Byte.byte.

(** Modelled from the spec: vcs.BisectResult, declared in pkg/vcs, the
    three-valued verdict good, bad or skip.  The constant 0 that the
    predicates return next to an error is taken to be BisectBad; the
    driver does not read it. *)
Inductive BisectResult := BisectBad | BisectSkip | BisectGood.

#[global] Instance BisectResult_eq_dec : EqDecision BisectResult.
Proof. solve_decision. Defined.

(** Modelled from the spec: vcs.Commit, declared in pkg/vcs; a commit
    carries its hash, title, parents and recipient lists. *)
Record Commit := mkCommit {
  Hash : string;
  Title : string;
  Parents : list string;
  RecipientsTo : list string;
  RecipientsCc : list string;
}.

(** Modelled from the spec: report.Report, declared in pkg/report; a parsed
    report with its title, formatted report text and raw output. *)
Record Report := mkReport {
  rTitle : string;
  rReport : bytes;
  rOutput : bytes;
}.

(** Modelled from the spec: hash.Sig, declared in pkg/hash, the stable
    content hash of a configuration blob. *)
Definition Sig := string.

(** Go error values.  [InfraError] is the type declared in bisect.go (lines
    114-120); [Errorf] is an error that the driver builds with fmt.Errorf,
    with its message.  *osutil.VerboseError and *build.KernelError are the
    two error types that env.test tells apart by a type assertion, with the
    fields it reads and the text of their Error() method; [OtherError] is
    any other error of a collaborator.  [NilDeref] stands for the run-time
    panic of a nil pointer dereference (of res.Commit in runImpl, when
    Bisect returns no commit); it is passed on like an error. *)
Inductive error :=
| InfraError (title : string)
| Errorf (msg : string)
| VerboseError (title : string) (output : bytes) (text : string)
| KernelError (report : bytes) (output : bytes) (text : string)
| OtherError (text : string)
| NilDeref.

(** The Error() method. *)
Definition Error (e : error) : string :=
  match e with
  | InfraError title => title
  | Errorf msg => msg
  | VerboseError _ _ text => text
  | KernelError _ _ text => text
  | OtherError text => text
  | NilDeref => "runtime error: invalid memory address or nil pointer dereference"
  end.

(** A Go (T, error) result in which exactly one side is set. *)
Inductive result (A : Type) :=
| Ok (a : A)
| Err (e : error).
Arguments Ok {A} a.
Arguments Err {A} e.

(** Modelled from the spec: instance.EnvTestResult, declared in
    pkg/instance, by the Error field of one trial.  A nil error is a clean
    success; *instance.TestError carries the flags infra and boot, the
    output and an optional report; *instance.CrashError carries the parsed
    report, which the driver dereferences; any other error is unclassified.
    [text] is what the Error() method of the error returns. *)
Inductive EnvTestResult :=
| TrialOK
| TestError (infra boot : bool) (output : bytes) (rep : option Report) (text : string)
| CrashError (rep : Report) (text : string)
| TrialOtherError (text : string).

(** Modelled from the spec: vcs.BisectEnv (the compiler and the kernel
    config that EnvForCommit selects) and build.ImageDetails (the compiler
    identity and the signature of the built image), declared in pkg/vcs
    and pkg/build. *)
Record BisectEnv := mkBisectEnv { Compiler : string; beKernelConfig : bytes }.
Record ImageDetails := mkImageDetails { CompilerID : string; Signature : string }.

(** Modelled from the spec: instance.BuildKernelConfig, declared in
    pkg/instance, with the fields that env.build sets. *)
Record BuildKernelConfig := mkBuildKernelConfig {
  CompilerBin : string;
  LinkerBin : string;
  CcacheBin : string;
  UserspaceDir : string;
  CmdlineFile : string;
  SysctlFile : string;
  bkKernelConfig : bytes;
}.

(** ** Configuration (bisect.go, lines 21-66) *)

Record KernelConfig := mkKernelConfig {
  kRepo : string;
  kBranch : string;
  kCommit : string;
  kCommitTitle : string;
  kCmdline : string;
  kSysctl : string;
  kConfig : bytes;
  kBaselineConfig : bytes;
  kUserspace : string;
}.

Record SyzkallerConfig := mkSyzkallerConfig {
  sRepo : string;
  sCommit : string;
  sDescriptions : string;
}.

Record ReproConfig := mkReproConfig {
  rOpts : bytes;
  rSyz : bytes;
  rC : bytes;
}.

(** Modelled from the spec: mgrconfig.Config, declared in pkg/mgrconfig,
    with the fields that the driver reads or writes. *)
Record ManagerConfig := mkManagerConfig {
  TargetOS : string;
  TargetVMArch : string;
  mType : string;
  KernelSrc : string;
  SysTarget : string;
  Cover : bool;
}.

(** The tracer is the call list of the state; the two semaphores are only
    handed to instance.NewEnv and are left out. *)
Record Config := mkConfig {
  Fix : bool;
  DefaultCompiler : string;
  CompilerType : string;
  Linker : string;
  BinDir : string;
  Ccache : string;
  Timeout : Z;
  Kernel : KernelConfig;
  Syzkaller : SyzkallerConfig;
  Repro : ReproConfig;
  Manager : ManagerConfig;
}.

Definition MaxNumTests : Z := 20.

(** The Result of a bisection (lines 105-112). *)
Record Result := mkResult {
  Commits : list Commit;
  resReport : option Report;
  resCommit : option Commit;
  resConfig : bytes;
  NoopChange : bool;
  IsRelease : bool;
}.

(** A testResult (lines 495-500); the code handles them through pointers. *)
Record testResult := mkTestResult {
  verdict : BisectResult;
  com : option Commit;
  rep : option Report;
  kernelSign : string;
}.

#[global] Instance testResult_inhabited : Inhabited testResult :=
  populate (mkTestResult BisectSkip None None "").

(** A *testResult: an index into the heap of the state. *)
Definition ptr := nat.

(** ** Formatting *)

(** fmt.Sprintf restricted to what the driver uses: each verb (a percent
    sign and the character after it) is replaced by the next argument,
    already rendered as a string. *)
Fixpoint Sprintf (format : string) (args : list string) : string :=
  match format with
  | EmptyString => EmptyString
  | String c EmptyString => String c EmptyString
  | String c (String d rest as tl) =>
      if Ascii.eqb c "%"%char
      then match args with
           | a :: args' => a +:+ Sprintf rest args'
           | [] => "%!" +:+ String d "(MISSING)" +:+ Sprintf rest []
           end
      else String c (Sprintf tl args)
  end.

(** string(b) for a []byte b. *)
Definition string_of_bytes (b : bytes) : string := String.string_of_list_byte b.

(** 64-bit two's complement wrap-around of a Go int. *)
Definition wrap_int (z : Z) : Z := (z + 2 ^ 63) mod 2 ^ 64 - 2 ^ 63.

(** ** The collaborators *)

(** One entry for each call the driver makes on a collaborator. *)
Inductive Call :=
| CLog (format : string) (args : list string)
| CSaveFile (name : string) (data : bytes)
| CNewRepo (os vmType src : string)
| CNewEnv (mgr : ManagerConfig)
| CCheckoutBranch (repo branch : string)
| CHeadCommit
| CSwitchCommit (hash : string)
| CContains (hash : string)
| CGetCommitByTitle (title : string)
| CPrepareBisect
| CPreviousReleaseTags (hash compilerType : string)
| CBisect (bad good : string)
| CIsRelease (hash : string)
| CEnvForCommit (defaultCompiler compilerType binDir hash : string) (config : bytes)
| CMinimize (target : string) (original baseline : bytes)
| CClean (os arch vmType src : string)
| CBuildSyzkaller (repo commit : string)
| CBuildKernel (cfg : BuildKernelConfig)
| CTest (numVMs : Z) (syz opts c : bytes).

(** What vcs.Bisecter.Bisect and vcs.ConfigMinimizer.Minimize do with the
    predicate they are given: they finish with a result, or move the world
    on (check out a revision), call the predicate with a query and go on
    from its answer and the world it left.  [W] is the state of everything
    outside the driver. *)
Inductive Strategy (W Q R : Type) : Type :=
| Finish (w : W) (r : result R)
| Query (w : W) (q : Q) (k : BisectResult -> option error -> W -> Strategy W Q R).
Arguments Finish {W Q R} w r.
Arguments Query {W Q R} w q k.

Class Collaborators (W : Type) := {
  (* osutil, os, time, hash, fmt *)
  osutil_IsExist : string -> W -> bool;
  os_Hostname : W -> result string;
  time_Now : W -> Z;
  fmt_Time : Z -> string;
  fmt_Duration : Z -> string;
  hash_Hash : bytes -> Sig;
  (* vcs.NewRepo, instance.NewEnv *)
  vcs_NewRepo : string -> string -> string -> W -> option error * W;
  instance_NewEnv : ManagerConfig -> W -> option error * W;
  (* vcs.Repo *)
  repo_CheckoutBranch : string -> string -> W -> result Commit * W;
  repo_HeadCommit : W -> result Commit * W;
  repo_SwitchCommit : string -> W -> result Commit * W;
  repo_Contains : string -> W -> result bool * W;
  repo_GetCommitByTitle : string -> W -> result (option Commit) * W;
  (* the type assertions repo.(vcs.Bisecter), repo.(vcs.ConfigMinimizer) *)
  repo_isBisecter : W -> bool;
  repo_isConfigMinimizer : W -> bool;
  (* vcs.Bisecter *)
  bisecter_PrepareBisect : W -> option error * W;
  bisecter_PreviousReleaseTags : string -> string -> W -> result (list string) * W;
  bisecter_Bisect : string -> string -> W -> Strategy W unit (list Commit);
  bisecter_IsRelease : string -> W -> (bool * option error) * W;
  bisecter_EnvForCommit :
    string -> string -> string -> string -> bytes -> W -> result BisectEnv * W;
  (* vcs.ConfigMinimizer *)
  minimizer_Minimize : string -> bytes -> bytes -> W -> Strategy W bytes bytes;
  (* build.Clean, instance.Env *)
  build_Clean : string -> string -> string -> string -> W -> option error * W;
  inst_BuildSyzkaller : string -> string -> W -> result string * W;
  inst_BuildKernel : BuildKernelConfig -> W -> (ImageDetails * option error) * W;
  inst_Test : Z -> bytes -> bytes -> bytes -> W -> result (list EnvTestResult) * W;
}.

Section Driver.

Context {W : Type} `{!Collaborators W}.

(** ** The state *)

(** The fields of [env] (lines 68-82) with the configuration it points to,
    the two maps that the closures of env.bisect and env.minimizeConfig
    capture, the heap and the calls made so far (the latest first). *)
Record state := mkState {
  world : W;
  cfg : Config;
  commit : option Commit;
  head : option Commit;
  kernelConfig : bytes;
  numTests : Z;
  startTime : Z;
  buildTime : Z;
  testTime : Z;
  flaky : bool;
  results : gmap string ptr;
  testResults : gmap Sig ptr;
  heap : list testResult;
  calls : list Call;
}.

Definition set_world (w : W) (s : state) : state :=
  mkState w (cfg s) (commit s) (head s) (kernelConfig s) (numTests s) (startTime s)
    (buildTime s) (testTime s) (flaky s) (results s) (testResults s) (heap s) (calls s).
Definition set_cfg (c : Config) (s : state) : state :=
  mkState (world s) c (commit s) (head s) (kernelConfig s) (numTests s) (startTime s)
    (buildTime s) (testTime s) (flaky s) (results s) (testResults s) (heap s) (calls s).
Definition set_commit (c : option Commit) (s : state) : state :=
  mkState (world s) (cfg s) c (head s) (kernelConfig s) (numTests s) (startTime s)
    (buildTime s) (testTime s) (flaky s) (results s) (testResults s) (heap s) (calls s).
Definition set_head (c : option Commit) (s : state) : state :=
  mkState (world s) (cfg s) (commit s) c (kernelConfig s) (numTests s) (startTime s)
    (buildTime s) (testTime s) (flaky s) (results s) (testResults s) (heap s) (calls s).
Definition set_kernelConfig (c : bytes) (s : state) : state :=
  mkState (world s) (cfg s) (commit s) (head s) c (numTests s) (startTime s)
    (buildTime s) (testTime s) (flaky s) (results s) (testResults s) (heap s) (calls s).
Definition set_numTests (n : Z) (s : state) : state :=
  mkState (world s) (cfg s) (commit s) (head s) (kernelConfig s) n (startTime s)
    (buildTime s) (testTime s) (flaky s) (results s) (testResults s) (heap s) (calls s).
Definition set_buildTime (t : Z) (s : state) : state :=
  mkState (world s) (cfg s) (commit s) (head s) (kernelConfig s) (numTests s) (startTime s)
    t (testTime s) (flaky s) (results s) (testResults s) (heap s) (calls s).
Definition set_testTime (t : Z) (s : state) : state :=
  mkState (world s) (cfg s) (commit s) (head s) (kernelConfig s) (numTests s) (startTime s)
    (buildTime s) t (flaky s) (results s) (testResults s) (heap s) (calls s).
Definition set_flaky (b : bool) (s : state) : state :=
  mkState (world s) (cfg s) (commit s) (head s) (kernelConfig s) (numTests s) (startTime s)
    (buildTime s) (testTime s) b (results s) (testResults s) (heap s) (calls s).
Definition set_results (m : gmap string ptr) (s : state) : state :=
  mkState (world s) (cfg s) (commit s) (head s) (kernelConfig s) (numTests s) (startTime s)
    (buildTime s) (testTime s) (flaky s) m (testResults s) (heap s) (calls s).
Definition set_testResults (m : gmap Sig ptr) (s : state) : state :=
  mkState (world s) (cfg s) (commit s) (head s) (kernelConfig s) (numTests s) (startTime s)
    (buildTime s) (testTime s) (flaky s) (results s) m (heap s) (calls s).
Definition set_heap (h : list testResult) (s : state) : state :=
  mkState (world s) (cfg s) (commit s) (head s) (kernelConfig s) (numTests s) (startTime s)
    (buildTime s) (testTime s) (flaky s) (results s) (testResults s) h (calls s).
Definition set_calls (l : list Call) (s : state) : state :=
  mkState (world s) (cfg s) (commit s) (head s) (kernelConfig s) (numTests s) (startTime s)
    (buildTime s) (testTime s) (flaky s) (results s) (testResults s) (heap s) l.

(** ** The monad of the driver *)

Definition M (A : Type) : Type := state -> A * state.

Definition ret {A} (a : A) : M A := fun s => (a, s).

Definition bind {A B} (m : M A) (k : A -> M B) : M B :=
  fun s => let r := m s in k (fst r) (snd r).

Notation "'let*' x ':=' m 'in' k" := (bind m (fun x => k))
  (at level 10, x pattern, m at level 100, k at level 200).
Notation "m ';;' k" := (bind m (fun _ => k))
  (at level 100, k at level 200, right associativity).

Definition get {A} (f : state -> A) : M A := fun s => (f s, s).
Definition modify (f : state -> state) : M unit := fun s => (tt, f s).

(** A call on a collaborator: it is recorded, and the world moves on. *)
Definition call {A} (c : Call) (f : W -> A * W) : M A :=
  fun s => let r := f (world s) in
           (fst r, set_calls (c :: calls s) (set_world (snd r) s)).

(** env.log (line 691) and env.saveDebugFile (line 671). *)
Definition log (format : string) (args : list string) : M unit :=
  modify (fun s => set_calls (CLog format args :: calls s) s).

Definition saveDebugFile (hash : string) (idx : Z) (data : bytes) : M unit :=
  modify (fun s =>
    set_calls (CSaveFile (Sprintf "%v.%v" [hash; pretty idx]) data :: calls s) s).

(** time.Now() and time.Since(t). *)
Definition now : M Z := get (fun s => time_Now (world s)).
Definition since (t : Z) : M Z := get (fun s => time_Now (world s) - t).

(** ** The heap of testResult objects *)

(** res := &testResult{...} *)
Definition alloc (r : testResult) : M ptr :=
  fun s => (length (heap s), set_heap (heap s ++ [r]) s).

(** *p *)
Definition load (p : ptr) : M testResult := get (fun s => heap s !!! p).

(** p.verdict = v and p.rep = r *)
Definition store_verdict (p : ptr) (v : BisectResult) : M unit :=
  modify (fun s =>
    set_heap (alter (fun r => mkTestResult v (com r) (rep r) (kernelSign r)) p (heap s)) s).

Definition store_rep (p : ptr) (r' : option Report) : M unit :=
  modify (fun s =>
    set_heap (alter (fun r => mkTestResult (verdict r) (com r) r' (kernelSign r)) p (heap s)) s).

(** The %v rendering of a possibly nil error. *)
Definition fmt_err (e : option error) : string :=
  match e with
  | Some e => Error e
  | None => "<nil>"
  end.

(** ** env.processResults (lines 619-669) *)

(** The named results bad, good, infra and rep, and the local verdicts.
    The three counters never exceed the number of trials, so their
    increments cannot overflow. *)
Record tally := mkTally {
  bad : Z;
  good : Z;
  infra : Z;
  trep : option Report;
  verdicts : list string;
}.

(** The body of the loop over the trials, for trial [i]. *)
Definition processResult (current : Commit) (i : Z) (res : EnvTestResult) (t : tally)
    : M tally :=
  match res with
  | TrialOK =>
      ret (mkTally (bad t) (good t + 1) (infra t) (trep t) (verdicts t ++ ["OK"]))
  | TestError isInfra isBoot output report text =>
      let t' :=
        if isInfra then
          mkTally (bad t) (good t) (infra t + 1) (trep t)
            (verdicts t ++ [Sprintf "infra problem: %v" [text]])
        else if isBoot then
          mkTally (bad t) (good t) (infra t) (trep t)
            (verdicts t ++ [Sprintf "boot failed: %v" [text]])
        else
          mkTally (bad t) (good t) (infra t) (trep t)
            (verdicts t ++ [Sprintf "basic kernel testing failed: %v" [text]]) in
      let output' := match report with
                     | Some r => rOutput r
                     | None => output
                     end in
      saveDebugFile (Hash current) i output' ;;
      ret t'
  | CrashError r text =>
      let t' := mkTally (bad t + 1) (good t) (infra t) (Some r)
                  (verdicts t ++ [Sprintf "crashed: %v" [text]]) in
      let output := if decide (length (rReport r) = 0%nat) then rOutput r else rReport r in
      saveDebugFile (Hash current) i output ;;
      ret t'
  | TrialOtherError text =>
      ret (mkTally (bad t) (good t) (infra t + 1) (trep t)
             (verdicts t ++ [Sprintf "failed: %v" [text]]))
  end.

Fixpoint processLoop (current : Commit) (i : Z) (results : list EnvTestResult) (t : tally)
    : M tally :=
  match results with
  | [] => ret t
  | res :: rest =>
      let* t' := processResult current i res t in
      processLoop current (i + 1) rest t'
  end.

Fixpoint logRuns (i : Z) (vs : list string) : M unit :=
  match vs with
  | [] => ret tt
  | v :: rest => log "run #%v: %v" [pretty i; v] ;; logRuns (i + 1) rest
  end.

Definition processResults (current : Commit) (results : list EnvTestResult) : M tally :=
  let* t := processLoop current 0 results (mkTally 0 0 0 None []) in
  let unique : gset string := list_to_set (verdicts t) in
  (if decide (size unique = 1%nat)
   then log "all runs: %v" [verdicts t !!! 0%nat]
   else logRuns 0 (verdicts t)) ;;
  ret t.

(** ** env.build (lines 502-537) *)

Definition build : M (option Commit * string * option error) :=
  let* r := call CHeadCommit repo_HeadCommit in
  match r with
  | Err err => ret (None, "", Some err)
  | Ok current =>
      let* c := get cfg in
      let* kc := get kernelConfig in
      let* r := call (CEnvForCommit (DefaultCompiler c) (CompilerType c) (BinDir c)
                        (Hash current) kc)
                  (bisecter_EnvForCommit (DefaultCompiler c) (CompilerType c) (BinDir c)
                     (Hash current) kc) in
      match r with
      | Err err => ret (Some current, "", Some err)
      | Ok bisectEnv =>
          log "testing commit %v %v" [Hash current; CompilerType c] ;;
          let* buildStart := now in
          let mgr := Manager c in
          let* e := call (CClean (TargetOS mgr) (TargetVMArch mgr) (mType mgr) (KernelSrc mgr))
                      (build_Clean (TargetOS mgr) (TargetVMArch mgr) (mType mgr)
                         (KernelSrc mgr)) in
          match e with
          | Some err =>
              ret (Some current, "",
                   Some (Errorf (Sprintf "kernel clean failed: %v" [Error err])))
          | None =>
              let kern := Kernel c in
              let bk := mkBuildKernelConfig (Compiler bisectEnv) (Linker c) (Ccache c)
                          (kUserspace kern) (kCmdline kern) (kSysctl kern)
                          (beKernelConfig bisectEnv) in
              let* b := call (CBuildKernel bk) (inst_BuildKernel bk) in
              let imageDetails := fst b in
              let err := snd b in
              (if decide (CompilerID imageDetails = "") then ret tt
               else log "compiler: %v" [CompilerID imageDetails]) ;;
              (if decide (Signature imageDetails = "") then ret tt
               else log "kernel signature: %v" [Signature imageDetails]) ;;
              let* d := since buildStart in
              modify (fun s => set_buildTime (buildTime s + d) s) ;;
              ret (Some current, Signature imageDetails, err)
          end
      end
  end.

(** ** env.test (lines 542-617) *)

(** The code returns (res, err); every caller drops res when err is set, so
    the result is [Err err] then, and [Ok res] with the pointer otherwise. *)
Definition test : M (result ptr) :=
  let* c := get cfg in
  let* st := get startTime in
  let* elapsed := since st in
  if negb (Timeout c =? 0) && (elapsed >? Timeout c) then
    ret (Err (Errorf (Sprintf "bisection is taking too long (>%v), aborting"
                        [fmt_Duration (Timeout c)])))
  else
    let* b := build in
    let current := fst (fst b) in
    let kernelSign := snd (fst b) in
    let err := snd b in
    let* res := alloc (mkTestResult BisectSkip current None kernelSign) in
    match current with
    | None => ret (Err (Errorf (Sprintf "couldn't get repo HEAD: %v" [fmt_err err])))
    | Some current =>
        match err with
        | Some err =>
            let errInfo := Sprintf "failed building %v: " [Hash current] in
            let* errInfo :=
              match err with
              | VerboseError title output _ =>
                  saveDebugFile (Hash current) 0 output ;;
                  ret (errInfo +:+ title)
              | KernelError report output _ =>
                  saveDebugFile (Hash current) 0 output ;;
                  ret (errInfo +:+ string_of_bytes report)
              | _ =>
                  log "%v" [Error err] ;;
                  ret (errInfo +:+ Error err)
              end in
            log "%s" [errInfo] ;;
            store_rep res (Some (mkReport errInfo [] [])) ;;
            ret (Ok res)
        | None =>
            let numTests0 := Z.quot MaxNumTests 2 in
            let* fl := get flaky in
            let* nt := get numTests in
            let numTests1 := if fl || (nt =? 0) then numTests0 * 2 else numTests0 in
            modify (set_numTests (wrap_int (nt + 1))) ;;
            let* testStart := now in
            let* r := call (CTest numTests1 (rSyz (Repro c)) (rOpts (Repro c)) (rC (Repro c)))
                        (inst_Test numTests1 (rSyz (Repro c)) (rOpts (Repro c))
                           (rC (Repro c))) in
            let* d := since testStart in
            modify (fun s => set_testTime (testTime s + d) s) ;;
            match r with
            | Err err =>
                let problem := Sprintf "repro testing failure: %v" [Error err] in
                log problem [] ;;
                ret (Err (InfraError problem))
            | Ok results =>
                let* t := processResults current results in
                store_rep res (trep t) ;;
                store_verdict res BisectSkip ;;
                if infra t >? Z.quot (Z.of_nat (length results)) 2 then
                  ret (Err (InfraError "more than 50% of runs failed with an infra error"))
                else
                  (if negb (bad t =? 0) then
                     store_verdict res BisectBad ;;
                     let* fl := get flaky in
                     if negb fl && (bad t <? good t) then
                       log "reproducer seems to be flaky" [] ;;
                       modify (set_flaky true)
                     else ret tt
                   else if negb (good t =? 0) then
                     store_verdict res BisectGood
                   else
                     store_rep res
                       (Some (mkReport (Sprintf "failed testing reproducer on %v"
                                          [Hash current]) [] []))) ;;
                  ret (Ok res)
            end
        end
    end.

(** The newline of a Go string literal. *)
Definition nl : string := String "010"%char EmptyString.

(** ** env.identifyRewrittenCommit (lines 318-352) *)

(** The code returns the pair (hash, err) and sets the hash also when it
    returns an error. *)
Definition identifyRewrittenCommit : M (string * option error) :=
  let* c := get cfg in
  let k := Kernel c in
  let* r := call (CCheckoutBranch (kRepo k) (kBranch k))
              (repo_CheckoutBranch (kRepo k) (kBranch k)) in
  match r with
  | Err err => ret (kCommit k, Some err)
  | Ok _ =>
      let* r := call (CContains (kCommit k)) (repo_Contains (kCommit k)) in
      match r with
      | Err err => ret (kCommit k, Some err)
      | Ok true => ret (kCommit k, None)
      | Ok false =>
          if decide (kCommitTitle k = "") then
            ret (kCommit k,
                 Some (Errorf (Sprintf
                   "commit %v not reachable in branch '%v' and no commit title available"
                   [kCommit k; kBranch k])))
          else
            let* r := call (CGetCommitByTitle (kCommitTitle k))
                        (repo_GetCommitByTitle (kCommitTitle k)) in
            match r with
            | Err err => ret (kCommit k, Some err)
            | Ok None =>
                ret (kCommit k,
                     Some (Errorf (Sprintf "commit %v not reachable in branch '%v'"
                                     [kCommit k; kBranch k])))
            | Ok (Some commit') =>
                log ("rewritten commit %v reidentified by title '%v'" +:+ nl)
                  [Hash commit'; kCommitTitle k] ;;
                ret (Hash commit', None)
            end
      end
  end.

(** ** Predicates handed to the bisecter and the minimizer *)

(** Bisect and Minimize run their strategy, calling [pred] at each query. *)
Fixpoint runStrategy {Q R : Type} (pred : Q -> M (BisectResult * option error))
    (st : Strategy W Q R) : M (result R) :=
  match st with
  | Finish w r => modify (set_world w) ;; ret r
  | Query w q k =>
      modify (set_world w) ;;
      let* a := pred q in
      let* w' := get world in
      runStrategy pred (k (fst a) (snd a) w')
  end.

(** ** env.minimizeConfig (lines 354-373) *)

(** The closure predMinimize; testResults is the map it captures. *)
Definition predMinimize (test_ : bytes) : M (BisectResult * option error) :=
  modify (set_kernelConfig test_) ;;
  let* r := test in
  match r with
  | Err err => ret (BisectBad, Some err)
  | Ok testRes =>
      modify (fun s => set_testResults (<[hash_Hash test_ := testRes]> (testResults s)) s) ;;
      let* tr := load testRes in
      ret (verdict tr, None)
  end.

(** The call env.minimizer.Minimize(..., predMinimize) of line 366. *)
Definition Minimize : M (result bytes) :=
  let* c := get cfg in
  let* st := call (CMinimize (SysTarget (Manager c)) (kConfig (Kernel c))
                     (kBaselineConfig (Kernel c)))
               (fun w => (minimizer_Minimize (SysTarget (Manager c)) (kConfig (Kernel c))
                            (kBaselineConfig (Kernel c)) w, w)) in
  runStrategy predMinimize st.

Definition minimizeConfig : M (result (option ptr)) :=
  modify (set_testResults ∅) ;;
  let* r := Minimize in
  match r with
  | Err err => ret (Err err)
  | Ok minConfig =>
      modify (set_kernelConfig minConfig) ;;
      let* m := get testResults in
      ret (Ok (m !! hash_Hash minConfig))
  end.

(** ** env.detectNoopChange (lines 375-402) *)

(** The caller has checked that results[com.Hash] is set. *)
Definition detectNoopChange (com' : Commit) : M (bool * option error) :=
  let* m := get results in
  match m !! Hash com' with
  | None => ret (false, Some NilDeref)
  | Some testRes =>
      let* tr := load testRes in
      if bool_decide (kernelSign tr = "") || negb (length (Parents com') =? 1)%nat then
        ret (false, None)
      else
        let parent := Parents com' !!! 0%nat in
        let* parentRes :=
          match m !! parent with
          | Some p => ret (Ok p)
          | None =>
              log "parent commit %v wasn't tested" [parent] ;;
              let* r := call (CSwitchCommit parent) (repo_SwitchCommit parent) in
              match r with
              | Err err => ret (Err err)
              | Ok _ =>
                  let* b := build in
                  match snd b with
                  | Some err => ret (Err err)
                  | None =>
                      let* p := alloc (mkTestResult BisectBad None None (snd (fst b))) in
                      ret (Ok p)
                  end
              end
          end in
        match parentRes with
        | Err err => ret (false, Some err)
        | Ok parentRes =>
            let* pr := load parentRes in
            log "culprit signature: %v" [kernelSign tr] ;;
            log "parent  signature: %v" [kernelSign pr] ;;
            ret (bool_decide (kernelSign tr = kernelSign pr), None)
        end
  end.

(** ** The range finder (lines 404-493) *)

(** What commitRangeForFix and commitRangeForCause return. *)
Record range := mkRange {
  rgBad : option Commit;
  rgGood : option Commit;
  rgResults : list ptr;
  rgErr : option error;
}.

Definition commitRangeForFix : M range :=
  let* h := get head in
  match h with
  | None => ret (mkRange None None [] (Some NilDeref))
  | Some hd =>
      log "testing current HEAD %v" [Hash hd] ;;
      let* r := call (CSwitchCommit (Hash hd)) (repo_SwitchCommit (Hash hd)) in
      match r with
      | Err err => ret (mkRange None None [] (Some err))
      | Ok _ =>
          let* r := test in
          match r with
          | Err err => ret (mkRange None None [] (Some err))
          | Ok res =>
              let* tr := load res in
              let* cm := get commit in
              if bool_decide (verdict tr ≠ BisectGood)
              then ret (mkRange h None [res] None)
              else ret (mkRange h cm [res] None)
          end
      end
  end.

(** The loop over the tags, with the locals lastBad and results. *)
Fixpoint causeLoop (tags : list string) (lastBad : option Commit) (results' : list ptr)
    : M range :=
  match tags with
  | [] => ret (mkRange lastBad None results' None)
  | tag :: rest =>
      log "testing release %v" [tag] ;;
      let* r := call (CSwitchCommit tag) (repo_SwitchCommit tag) in
      match r with
      | Err err => ret (mkRange None None [] (Some err))
      | Ok com' =>
          let* r := test in
          match r with
          | Err err => ret (mkRange None None [] (Some err))
          | Ok res =>
              let results'' := results' ++ [res] in
              let* tr := load res in
              if bool_decide (verdict tr = BisectGood) then
                ret (mkRange lastBad (Some com') results'' None)
              else
                causeLoop rest
                  (if bool_decide (verdict tr = BisectBad) then Some com' else lastBad)
                  results''
          end
      end
  end.

Definition commitRangeForCause : M range :=
  let* c := get cfg in
  let* r := call (CPreviousReleaseTags (kCommit (Kernel c)) (CompilerType c))
              (bisecter_PreviousReleaseTags (kCommit (Kernel c)) (CompilerType c)) in
  match r with
  | Err err => ret (mkRange None None [] (Some err))
  | Ok tags =>
      if decide (length tags = 0%nat) then
        ret (mkRange None None [] (Some (Errorf "no release tags before this commit")))
      else
        let* lastBad := get commit in
        causeLoop tags lastBad []
  end.

Definition validateCommitRange (bad' good' : option Commit) (results' : list ptr)
    : M (option Result * option error) :=
  match last results' with
  | None => ret (None, Some (Errorf "commitRange returned no results"))
  | Some finalResult =>
      let* fr := load finalResult in
      if bool_decide (verdict fr = BisectBad) then
        log "crash still not fixed/happens on the oldest tested release" [] ;;
        let* kc := get kernelConfig in
        ret (Some (mkResult [] (rep fr) bad' kc false false), None)
      else if bool_decide (verdict fr = BisectSkip) then
        let* c := get cfg in
        if Fix c then
          log "HEAD had kernel build, boot or test errors" [] ;;
          let* kc := get kernelConfig in
          ret (Some (mkResult [] (rep fr) bad' kc false false), None)
        else
          ret (None,
               Some (Errorf "oldest tested release had kernel build, boot or test errors"))
      else ret (None, None)
  end.

(** commitRange returns (bad, good, results1, fatalResult, err): the range
    with its error, and the fatal result. *)
Definition commitRange : M (range * option Result) :=
  let* c := get cfg in
  let* r := (if Fix c then commitRangeForFix else commitRangeForCause) in
  match rgErr r with
  | Some err => ret (r, None)
  | None =>
      let* v := validateCommitRange (rgBad r) (rgGood r) (rgResults r) in
      ret (mkRange (rgBad r) (rgGood r) (rgResults r) (snd v), fst v)
  end.

(** ** env.bisect (lines 220-316) *)

(** cfg.Kernel.Commit = h and cfg.Manager.Cover = b on the shared Config. *)
Definition set_kernelCommit (h : string) (c : Config) : Config :=
  let k := Kernel c in
  mkConfig (Fix c) (DefaultCompiler c) (CompilerType c) (Linker c) (BinDir c) (Ccache c)
    (Timeout c)
    (mkKernelConfig (kRepo k) (kBranch k) h (kCommitTitle k) (kCmdline k) (kSysctl k)
       (kConfig k) (kBaselineConfig k) (kUserspace k))
    (Syzkaller c) (Repro c) (Manager c).

Definition set_cover (b : bool) (c : Config) : Config :=
  let m := Manager c in
  mkConfig (Fix c) (DefaultCompiler c) (CompilerType c) (Linker c) (BinDir c) (Ccache c)
    (Timeout c) (Kernel c) (Syzkaller c) (Repro c)
    (mkManagerConfig (TargetOS m) (TargetVMArch m) (mType m) (KernelSrc m) (SysTarget m) b).

(** The closure pred (lines 274-288); results is the map it captures. *)
Definition pred (_ : unit) : M (BisectResult * option error) :=
  let* r := test in
  match r with
  | Err err => ret (BisectBad, Some err)
  | Ok testRes1 =>
      let* c := get cfg in
      (if Fix c then
         let* tr := load testRes1 in
         if bool_decide (verdict tr = BisectBad) then store_verdict testRes1 BisectGood
         else if bool_decide (verdict tr = BisectGood) then store_verdict testRes1 BisectBad
         else ret tt
       else ret tt) ;;
      let* tr := load testRes1 in
      match com tr with
      | None => ret (BisectBad, Some NilDeref)
      | Some cm =>
          modify (fun s => set_results (<[Hash cm := testRes1]> (results s)) s) ;;
          let* tr := load testRes1 in
          ret (verdict tr, None)
      end
  end.

(** The loop of lines 271-273 over the results of the range finder. *)
Fixpoint storeResults (results1 : list ptr) : M (option error) :=
  match results1 with
  | [] => ret None
  | res :: rest =>
      let* tr := load res in
      match com tr with
      | None => ret (Some NilDeref)
      | Some cm =>
          modify (fun s => set_results (<[Hash cm := res]> (results s)) s) ;;
          storeResults rest
      end
  end.

(** Lines 293-315: the Result for the commits that Bisect returned. *)
Definition classify (commits : list Commit) : M (option Result * option error) :=
  let* kc := get kernelConfig in
  match commits with
  | [com'] =>
      let* m := get results in
      match m !! Hash com' with
      | None => ret (None, Some (Errorf "no result for culprit commit"))
      | Some testRes =>
          let* tr := load testRes in
          let* ir := call (CIsRelease (Hash com')) (bisecter_IsRelease (Hash com')) in
          match snd ir with
          | Some err => log "failed to detect release: %v" [Error err]
          | None => ret tt
          end ;;
          let* nc := detectNoopChange com' in
          match snd nc with
          | Some err => log "failed to detect noop change: %v" [Error err]
          | None => ret tt
          end ;;
          ret (Some (mkResult commits (rep tr) None kc (fst nc) (fst ir)), None)
      end
  | _ => ret (Some (mkResult commits None None kc false false), None)
  end.

(** The call env.bisecter.Bisect(bad.Hash, good.Hash, cfg.Trace, pred) of
    line 289. *)
Definition Bisect (bad' good' : string) : M (result (list Commit)) :=
  let* st := call (CBisect bad' good') (fun w => (bisecter_Bisect bad' good' w, w)) in
  runStrategy pred st.

(** Lines 265-315: the range, the map of results, the bisecter. *)
Definition bisectSearch (testRes : ptr) : M (option Result * option error) :=
  let* cr := commitRange in
  let r := fst cr in
  let fatalResult := snd cr in
  match fatalResult, rgErr r with
  | Some _, _ | _, Some _ => ret (fatalResult, rgErr r)
  | None, None =>
      let* c := get cfg in
      modify (set_results {[ kCommit (Kernel c) := testRes ]}) ;;
      let* e := storeResults (rgResults r) in
      match e with
      | Some err => ret (None, Some err)
      | None =>
          match rgBad r, rgGood r with
          | Some bad', Some good' =>
              let* r := Bisect (Hash bad') (Hash good') in
              match r with
              | Err err => ret (None, Some err)
              | Ok commits => classify commits
              end
          | _, _ => ret (None, Some NilDeref)
          end
      end
  end.

(** Lines 255-263: the minimization, which may replace the starting result. *)
Definition bisectAfterGate (testRes : ptr) : M (option Result * option error) :=
  let* c := get cfg in
  if decide (length (kBaselineConfig (Kernel c)) = 0%nat) then bisectSearch testRes
  else
    let* r := minimizeConfig in
    match r with
    | Err err => ret (None, Some err)
    | Ok (Some testRes1) => bisectSearch testRes1
    | Ok None => bisectSearch testRes
    end.

(** Lines 221-247: everything before the test at the starting commit. *)
Definition bisectSetup : M (option error) :=
  let* e := call CPrepareBisect bisecter_PrepareBisect in
  match e with
  | Some err => ret (Some err)
  | None =>
      let* c := get cfg in
      let mgr := Manager c in
      let* e := call (CClean (TargetOS mgr) (TargetVMArch mgr) (mType mgr) (KernelSrc mgr))
                  (build_Clean (TargetOS mgr) (TargetVMArch mgr) (mType mgr)
                     (KernelSrc mgr)) in
      match e with
      | Some err => ret (Some (Errorf (Sprintf "kernel clean failed: %v" [Error err])))
      | None =>
          log "building syzkaller on %v" [sCommit (Syzkaller c)] ;;
          let* r := call (CBuildSyzkaller (sRepo (Syzkaller c)) (sCommit (Syzkaller c)))
                      (inst_BuildSyzkaller (sRepo (Syzkaller c)) (sCommit (Syzkaller c))) in
          match r with
          | Err err => ret (Some err)
          | Ok _ =>
              let* ic := identifyRewrittenCommit in
              modify (fun s => set_cfg (set_kernelCommit (fst ic) (cfg s)) s) ;;
              match snd ic with
              | Some err => ret (Some err)
              | None =>
                  let* c := get cfg in
                  let* r := call (CSwitchCommit (kCommit (Kernel c)))
                              (repo_SwitchCommit (kCommit (Kernel c))) in
                  match r with
                  | Err err => ret (Some err)
                  | Ok com' =>
                      log ("ensuring issue is reproducible on original commit %v" +:+ nl)
                        [kCommit (Kernel c)] ;;
                      modify (set_commit (Some com')) ;;
                      modify (set_kernelConfig (kConfig (Kernel c))) ;;
                      ret None
                  end
              end
          end
      end
  end.

Definition bisect : M (option Result * option error) :=
  let* e := bisectSetup in
  match e with
  | Some err => ret (None, Some err)
  | None =>
      let* r := test in
      match r with
      | Err err => ret (None, Some err)
      | Ok testRes =>
          let* tr := load testRes in
          if bool_decide (verdict tr ≠ BisectBad) then
            ret (None, Some (Errorf "the crash wasn't reproduced on the original commit"))
          else bisectAfterGate testRes
      end
  end.

(** ** runImpl (lines 143-218) *)

(** env := &env{cfg, repo, bisecter, minimizer, inst, startTime: time.Now()} *)
Definition newEnv (t : Z) (s : state) : state :=
  mkState (world s) (cfg s) None None [] 0 t 0 0 false ∅ ∅ (heap s) (calls s).

Fixpoint logCommits (l : list Commit) : M unit :=
  match l with
  | [] => ret tt
  | c :: rest => log "%v" [Hash c] ;; logCommits rest
  end.

(** Lines 166-217, between the registration of the deferred SwitchCommit and
    its execution; the three cases of the result are len(res.Commits) == 0,
    == 1 and > 1. *)
Definition runImplBody (hd : Commit) : M (option Result * option error) :=
  modify (set_head (Some hd)) ;;
  let* w := get world in
  let hostname := match os_Hostname w with
                  | Ok h => h
                  | Err _ => "unnamed host"
                  end in
  let* st := get startTime in
  log "%s starts bisection %s" [hostname; fmt_Time st] ;;
  let* c := get cfg in
  (if Fix c then log "bisecting fixing commit since %v" [kCommit (Kernel c)]
   else log "bisecting cause commit starting from %v" [kCommit (Kernel c)]) ;;
  let* start := now in
  let* b := bisect in
  let res := fst b in
  let err := snd b in
  let* fl := get flaky in
  (if fl then log "Reproducer flagged being flaky" [] else ret tt) ;;
  let* nt := get numTests in
  let* total := since start in
  let* bt := get buildTime in
  let* tt' := get testTime in
  log "revisions tested: %v, total time: %v (build: %v, test: %v)"
    [pretty nt; fmt_Duration total; fmt_Duration bt; fmt_Duration tt'] ;;
  match err with
  | Some err => log "error: %v" [Error err] ;; ret (None, Some err)
  | None =>
      match res with
      | None => ret (None, Some NilDeref)
      | Some res' =>
          let what := if Fix c then "good" else "bad" in
          match Commits res' with
          | [] =>
              (if Fix c
               then log "crash still not fixed on HEAD or HEAD had kernel test errors" []
               else log
                 "oldest tested release already had the bug or it had kernel test errors" []) ;;
              match resCommit res' with
              | None => ret (None, Some NilDeref)
              | Some rc =>
                  log "commit msg: %v" [Title rc] ;;
                  match resReport res' with
                  | Some rp => log ("crash: %v" +:+ nl +:+ "%s")
                                 [rTitle rp; string_of_bytes (rReport rp)]
                  | None => ret tt
                  end ;;
                  ret (Some res', None)
              end
          | [com'] =>
              log "first %v commit: %v %v" [what; Hash com'; Title com'] ;;
              log "recipients (to): %q" [String.concat " " (RecipientsTo com')] ;;
              log "recipients (cc): %q" [String.concat " " (RecipientsCc com')] ;;
              match resReport res' with
              | Some rp => log ("crash: %v" +:+ nl +:+ "%s")
                             [rTitle rp; string_of_bytes (rReport rp)]
              | None => ret tt
              end ;;
              ret (Some res', None)
          | _ =>
              log "bisection is inconclusive, the first %v commit could be any of:" [what] ;;
              logCommits (Commits res') ;;
              ret (Some res', None)
          end
      end
  end.

Definition runImpl : M (option Result * option error) :=
  let* c := get cfg in
  let* w := get world in
  if negb (repo_isBisecter w) then
    ret (None, Some (Errorf (Sprintf "bisection is not implemented for %v"
                               [TargetOS (Manager c)])))
  else if negb (repo_isConfigMinimizer w)
          && negb (length (kBaselineConfig (Kernel c)) =? 0)%nat then
    ret (None, Some (Errorf (Sprintf "config minimization is not implemented for %v"
                               [TargetOS (Manager c)])))
  else
    let* t := now in
    modify (newEnv t) ;;
    let* r := call CHeadCommit repo_HeadCommit in
    match r with
    | Err err => ret (None, Some err)
    | Ok hd =>
        let* out := runImplBody hd in
        call (CSwitchCommit (Hash hd)) (repo_SwitchCommit (Hash hd)) ;;
        ret out
    end.

(** ** checkConfig (lines 675-689) and Run (lines 124-141) *)

Definition checkConfig : M (option error) :=
  let* c := get cfg in
  let* w := get world in
  let k := Kernel c in
  if negb (osutil_IsExist (BinDir c) w) then
    ret (Some (Errorf (Sprintf "bin dir %v does not exist" [BinDir c])))
  else if negb (bool_decide (kUserspace k = "")) && negb (osutil_IsExist (kUserspace k) w) then
    ret (Some (Errorf (Sprintf "userspace dir %v does not exist" [kUserspace k])))
  else if negb (bool_decide (kSysctl k = "")) && negb (osutil_IsExist (kSysctl k) w) then
    ret (Some (Errorf (Sprintf "sysctl file %v does not exist" [kSysctl k])))
  else if negb (bool_decide (kCmdline k = "")) && negb (osutil_IsExist (kCmdline k) w) then
    ret (Some (Errorf (Sprintf "cmdline file %v does not exist" [kCmdline k])))
  else ret None.

Definition Run : M (option Result * option error) :=
  let* e := checkConfig in
  match e with
  | Some err => ret (None, Some err)
  | None =>
      modify (fun s => set_cfg (set_cover false (cfg s)) s) ;;
      let* c := get cfg in
      let mgr := Manager c in
      let* e := call (CNewRepo (TargetOS mgr) (mType mgr) (KernelSrc mgr))
                  (vcs_NewRepo (TargetOS mgr) (mType mgr) (KernelSrc mgr)) in
      match e with
      | Some err => ret (None, Some err)
      | None =>
          let* e := call (CNewEnv mgr) (instance_NewEnv mgr) in
          match e with
          | Some err => ret (None, Some err)
          | None =>
              let* r := call (CCheckoutBranch (kRepo (Kernel c)) (kBranch (Kernel c)))
                          (repo_CheckoutBranch (kRepo (Kernel c)) (kBranch (Kernel c))) in
              match r with
              | Err err => ret (None, Some (InfraError (Sprintf "%v" [Error err])))
              | Ok _ => runImpl
              end
          end
      end
  end.

End Driver.

(** ** A scripted world

    A world in which every collaborator answers from a table: used to run
    the driver on concrete inputs. *)

Module Script.

Record World := mkWorld {
  wHead : string;                               (* the revision checked out *)
  wBuilt : bytes;                               (* the config of the last build *)
  wClock : Z;
  wPaths : list string;                         (* the paths that exist *)
  wBranch : result Commit;                      (* the answer of CheckoutBranch *)
  wReachable : list string;                     (* the hashes on the branch *)
  wTitles : list (string * Commit);             (* commits by title *)
  wTags : result (list string);                 (* the previous release tags *)
  wBuildError : string -> option error;         (* the build error of a revision *)
  wTrials : string -> bytes -> Z -> result (list EnvTestResult);
                                                (* the trials at a revision and config *)
  wProbes : list string;                        (* the revisions Bisect probes *)
  wCulprits : list Commit;                      (* what Bisect returns *)
  wCandidates : list bytes;                     (* the configs Minimize tries *)
  wMinConfig : bytes;                           (* what Minimize returns *)
}.

Definition set_wHead (h : string) (w : World) : World :=
  mkWorld h (wBuilt w) (wClock w) (wPaths w) (wBranch w) (wReachable w) (wTitles w) (wTags w)
    (wBuildError w) (wTrials w) (wProbes w) (wCulprits w) (wCandidates w) (wMinConfig w).

Definition set_wBuilt (b : bytes) (w : World) : World :=
  mkWorld (wHead w) b (wClock w) (wPaths w) (wBranch w) (wReachable w) (wTitles w) (wTags w)
    (wBuildError w) (wTrials w) (wProbes w) (wCulprits w) (wCandidates w) (wMinConfig w).

Definition commitOf (h : string) : Commit := mkCommit h ("title of " +:+ h) [] [] [].

(** Bisect probes the scripted revisions in turn, gives up on the first
    error of the predicate and returns the scripted commits. *)
Fixpoint probeAll (probes : list string) (culprits : list Commit) (w : World)
    : Strategy World unit (list Commit) :=
  match probes with
  | [] => Finish w (Ok culprits)
  | h :: rest =>
      Query (set_wHead h w) tt
        (fun _ e w' => match e with
                       | Some err => Finish w' (Err err)
                       | None => probeAll rest culprits w'
                       end)
  end.

(** Minimize tries the scripted candidates in turn and returns the scripted
    config. *)
Fixpoint tryAll (candidates : list bytes) (minConfig : bytes) (w : World)
    : Strategy World bytes bytes :=
  match candidates with
  | [] => Finish w (Ok minConfig)
  | c :: rest =>
      Query w c
        (fun _ e w' => match e with
                       | Some err => Finish w' (Err err)
                       | None => tryAll rest minConfig w'
                       end)
  end.

#[global] Instance collaborators : Collaborators World := {|
  osutil_IsExist p w := bool_decide (p ∈ wPaths w);
  os_Hostname w := Ok "host";
  time_Now w := wClock w;
  fmt_Time t := pretty t;
  fmt_Duration t := pretty t;
  hash_Hash b := String.string_of_list_byte b;
  vcs_NewRepo _ _ _ w := (None, w);
  instance_NewEnv _ w := (None, w);
  repo_CheckoutBranch _ _ w :=
    (wBranch w, match wBranch w with Ok c => set_wHead (Hash c) w | Err _ => w end);
  repo_HeadCommit w := (Ok (commitOf (wHead w)), w);
  repo_SwitchCommit h w := (Ok (commitOf h), set_wHead h w);
  repo_Contains h w := (Ok (bool_decide (h ∈ wReachable w)), w);
  repo_GetCommitByTitle t w :=
    (Ok ((fun p => snd (snd p)) <$> list_find (fun p => fst p = t) (wTitles w)), w);
  repo_isBisecter _ := true;
  repo_isConfigMinimizer _ := true;
  bisecter_PrepareBisect w := (None, w);
  bisecter_PreviousReleaseTags _ _ w := (wTags w, w);
  bisecter_Bisect _ _ w := probeAll (wProbes w) (wCulprits w) w;
  bisecter_IsRelease _ w := ((false, None), w);
  bisecter_EnvForCommit _ _ _ _ config w := (Ok (mkBisectEnv "gcc" config), w);
  minimizer_Minimize _ _ _ w := tryAll (wCandidates w) (wMinConfig w) w;
  build_Clean _ _ _ _ w := (None, w);
  inst_BuildSyzkaller _ _ w := (Ok "", w);
  inst_BuildKernel bk w :=
    ((mkImageDetails "gcc" ("sig-" +:+ wHead w), wBuildError w (wHead w)),
     set_wBuilt (bkKernelConfig bk) w);
  inst_Test n _ _ _ w := (wTrials w (wHead w) (wBuilt w) n, w);
|}.

End Script.

(** ** A scripted world with faults

    The scripted world in which, in addition, the repository may lack the
    capabilities of a Bisecter or a ConfigMinimizer and HeadCommit may
    fail. *)

Module Faulty.
Import Script.

Record Faults := mkFaults {
  notBisecter : bool;                 (* repo.(vcs.Bisecter) fails *)
  notMinimizer : bool;                (* repo.(vcs.ConfigMinimizer) fails *)
  headError : option error;           (* the error of HeadCommit *)
}.

Record FWorld := mkFWorld { base : World; faults : Faults }.

Definition lift {A : Type} (f : Faults) (r : A * World) : A * FWorld :=
  (fst r, mkFWorld (snd r) f).

Fixpoint liftStrategy {Q R : Type} (f : Faults) (st : Strategy World Q R)
    : Strategy FWorld Q R :=
  match st with
  | Finish w r => Finish (mkFWorld w f) r
  | Query w q k => Query (mkFWorld w f) q (fun v e w' => liftStrategy f (k v e (base w')))
  end.

#[global] Instance faulty : Collaborators FWorld := {|
  osutil_IsExist p w := osutil_IsExist p (base w);
  os_Hostname w := os_Hostname (base w);
  time_Now w := time_Now (base w);
  fmt_Time t := pretty t;
  fmt_Duration t := pretty t;
  hash_Hash b := String.string_of_list_byte b;
  vcs_NewRepo os vm src w := lift (faults w) (vcs_NewRepo os vm src (base w));
  instance_NewEnv mgr w := lift (faults w) (instance_NewEnv mgr (base w));
  repo_CheckoutBranch r b w := lift (faults w) (repo_CheckoutBranch r b (base w));
  repo_HeadCommit w :=
    match headError (faults w) with
    | Some err => (Err err, w)
    | None => lift (faults w) (repo_HeadCommit (base w))
    end;
  repo_SwitchCommit h w := lift (faults w) (repo_SwitchCommit h (base w));
  repo_Contains h w := lift (faults w) (repo_Contains h (base w));
  repo_GetCommitByTitle t w := lift (faults w) (repo_GetCommitByTitle t (base w));
  repo_isBisecter w := negb (notBisecter (faults w));
  repo_isConfigMinimizer w := negb (notMinimizer (faults w));
  bisecter_PrepareBisect w := lift (faults w) (bisecter_PrepareBisect (base w));
  bisecter_PreviousReleaseTags h c w :=
    lift (faults w) (bisecter_PreviousReleaseTags h c (base w));
  bisecter_Bisect b g w := liftStrategy (faults w) (bisecter_Bisect b g (base w));
  bisecter_IsRelease h w := lift (faults w) (bisecter_IsRelease h (base w));
  bisecter_EnvForCommit dc ct bd h config w :=
    lift (faults w) (bisecter_EnvForCommit dc ct bd h config (base w));
  minimizer_Minimize t o b w := liftStrategy (faults w) (minimizer_Minimize t o b (base w));
  build_Clean os arch vm src w := lift (faults w) (build_Clean os arch vm src (base w));
  inst_BuildSyzkaller r c w := lift (faults w) (inst_BuildSyzkaller r c (base w));
  inst_BuildKernel bk w := lift (faults w) (inst_BuildKernel bk (base w));
  inst_Test n syz opts c w := lift (faults w) (inst_Test n syz opts c (base w));
|}.

End Faulty.

(** ** Definitions of the specification *)

(** The classes of a trial (section 4.6): a crash, a clean success, an
    infra failure (a test error flagged infra, or any other error). *)
Definition isCrash (r : EnvTestResult) : bool :=
  match r with
  | CrashError _ _ => true
  | _ => false
  end.

Definition isClean (r : EnvTestResult) : bool :=
  match r with
  | TrialOK => true
  | _ => false
  end.

Definition isInfra (r : EnvTestResult) : bool :=
  match r with
  | TestError true _ _ _ _ => true
  | TrialOtherError _ => true
  | _ => false
  end.

Definition countIf (f : EnvTestResult -> bool) (rs : list EnvTestResult) : Z :=
  Z.of_nat (length (List.filter f rs)).

(** The reports of the crashed trials, in the order of the trials. *)
Definition crashReports (rs : list EnvTestResult) : list Report :=
  omap (fun r => match r with
                 | CrashError rp _ => Some rp
                 | _ => None
                 end) rs.

(** The verdict of section 4.5, steps 7 to 9. *)
Definition specVerdict (rs : list EnvTestResult) : BisectResult :=
  if 0 <? countIf isCrash rs then BisectBad
  else if 0 <? countIf isClean rs then BisectGood
  else BisectSkip.

(** The report of section 4.5, steps 7 to 9: the last crash report, or the
    synthetic report when no trial crashed or succeeded. *)
Definition specRep (cur : Commit) (rs : list EnvTestResult) : option Report :=
  if (0 <? countIf isCrash rs) || (0 <? countIf isClean rs) then last (crashReports rs)
  else Some (mkReport (Sprintf "failed testing reproducer on %v" [Hash cur]) [] []).

(** The trial count of section 4.5, step 4. *)
Definition trialCount (flaky' : bool) (numTests' : Z) : Z :=
  if flaky' || (numTests' =? 0) then 2 * (MaxNumTests / 2) else MaxNumTests / 2.

(** The swap of good and bad for fix bisection. *)
Definition swapVerdict (v : BisectResult) : BisectResult :=
  match v with
  | BisectBad => BisectGood
  | BisectGood => BisectBad
  | BisectSkip => BisectSkip
  end.

Definition polarity (fix' : bool) (v : BisectResult) : BisectResult :=
  if fix' then swapVerdict v else v.

(** Calls on the tracer. *)
Definition tracerCall (c : Call) : Prop :=
  match c with
  | CLog _ _ | CSaveFile _ _ => True
  | _ => False
  end.

(** The range of section 4.4 from the outcomes of the tags that were
    tested, in order: the bad endpoint is the last revision that got a bad
    verdict, or the starting commit; the good endpoint is the first tag
    with a good verdict. *)
Definition lastBadRevision (start : option Commit) (outs : list (Commit * BisectResult))
    : option Commit :=
  match last (filter (fun o => snd o = BisectBad) outs) with
  | Some o => Some (fst o)
  | None => start
  end.

Definition firstGoodTag (outs : list (Commit * BisectResult)) : option Commit :=
  (fun x => fst (snd x)) <$> list_find (fun o => snd o = BisectGood) outs.

Definition notGood (o : Commit * BisectResult) : Prop := snd o ≠ BisectGood.

(** A trial that failed to boot or failed the basic kernel test: a test
    error that is not flagged infra. *)
Definition isKernelFailure (r : EnvTestResult) : bool :=
  match r with
  | TestError false _ _ _ _ => true
  | _ => false
  end.

(** The debug files of env.processResults: one for each trial that ended
    in a test error or in a crash, named by the hash of the revision and
    the index of the trial; it holds the report of the crash (its raw
    output when the report is empty), or the output of the test error (the
    raw output of its report when it has one). *)
Definition debugData (r : EnvTestResult) : option bytes :=
  match r with
  | TestError _ _ output None _ => Some output
  | TestError _ _ _ (Some rp) _ => Some (rOutput rp)
  | CrashError rp _ => Some (if decide (length (rReport rp) = 0%nat) then rOutput rp
                             else rReport rp)
  | _ => None
  end.

Fixpoint debugFiles (hash : string) (i : Z) (rs : list EnvTestResult) : list Call :=
  match rs with
  | [] => []
  | r :: rest =>
      match debugData r with
      | Some data => [CSaveFile (Sprintf "%v.%v" [hash; pretty i]) data]
      | None => []
      end ++ debugFiles hash (i + 1) rest
  end.

Definition isSaveFile (c : Call) : bool :=
  match c with
  | CSaveFile _ _ => true
  | _ => false
  end.

(** The calls of env.build, of env.test and of env.detectNoopChange. *)
Definition buildCall (c : Call) : bool :=
  match c with
  | CLog _ _ | CSaveFile _ _ | CHeadCommit | CEnvForCommit _ _ _ _ _ | CClean _ _ _ _
  | CBuildKernel _ => true
  | _ => false
  end.

Definition testCall (c : Call) : bool :=
  match c with
  | CTest _ _ _ _ => true
  | _ => buildCall c
  end.

Definition noopCall (c : Call) : bool :=
  match c with
  | CSwitchCommit _ => true
  | _ => buildCall c
  end.

(** The calls of the search of env.bisect (lines 265-315). *)
Definition searchCall (c : Call) : bool :=
  match c with
  | CSwitchCommit _ | CPreviousReleaseTags _ _ | CBisect _ _ | CIsRelease _ => true
  | _ => testCall c
  end.

(** The calls of env.bisect before the test at the starting commit, and the
    calls of env.bisect when there is no baseline config. *)
Definition setupCall (c : Call) : bool :=
  match c with
  | CLog _ _ | CPrepareBisect | CClean _ _ _ _ | CBuildSyzkaller _ _ | CCheckoutBranch _ _
  | CContains _ | CGetCommitByTitle _ | CSwitchCommit _ => true
  | _ => false
  end.

Definition bisectCall (c : Call) : bool :=
  match c with
  | CPrepareBisect | CBuildSyzkaller _ _ | CCheckoutBranch _ _ | CContains _
  | CGetCommitByTitle _ => true
  | _ => searchCall c
  end.

(** Exactly one of a result and an error is set. *)
Definition exactlyOne {A B : Type} (r : option A * option B) : Prop :=
  match r with
  | (Some _, None) | (None, Some _) => True
  | _ => False
  end.

Section Specification.

Context {W : Type} `{!Collaborators W}.
Implicit Types s : @state W.

(** The wall-clock budget is exhausted (section 4.5, step 1). *)
Definition timedOut s : bool :=
  negb (Timeout (cfg s) =? 0) && (time_Now (world s) - startTime s >? Timeout (cfg s)).

(** The invocation of env.test in state [s] reaches the tally: the budget
    is not exhausted, the build of the revision [cur] succeeds and the test
    runner returns the trials [rs]. *)
Definition runsTrials s (cur : Commit) (rs : list EnvTestResult) : Prop :=
  timedOut s = false /\
  exists sign s1,
    build s = ((Some cur, sign, None), s1) /\
    fst (inst_Test (trialCount (flaky s) (numTests s)) (rSyz (Repro (cfg s)))
           (rOpts (Repro (cfg s))) (rC (Repro (cfg s))) (world s1)) = Ok rs.

(** The state in which runImpl, with the head [hd], calls env.bisect: the
    head is recorded and the two opening lines are logged. *)
Definition sessionStart (hd : Commit) s : state :=
  let hostname := match os_Hostname (world s) with
                  | Ok h => h
                  | Err _ => "unnamed host"
                  end in
  set_calls
    (CLog (if Fix (cfg s) then "bisecting fixing commit since %v"
           else "bisecting cause commit starting from %v") [kCommit (Kernel (cfg s))]
     :: CLog "%s starts bisection %s" [hostname; fmt_Time (startTime s)] :: calls s)
    (set_head (Some hd) s).

(** One step of the walk over the release tags: check the tag out, test. *)
Definition probe (tag : string) s : result (Commit * ptr) * state :=
  let s0 := set_calls (CLog "testing release %v" [tag] :: calls s) s in
  let r := call (CSwitchCommit tag) (repo_SwitchCommit tag) s0 in
  match fst r with
  | Err err => (Err err, snd r)
  | Ok c =>
      let t := test (snd r) in
      match fst t with
      | Err err => (Err err, snd t)
      | Ok p => (Ok (c, p), snd t)
      end
  end.

(** [walked s tags outs ps s']: from [s], the tags are checked out and
    tested in order without an error, with the outcomes [outs] (the
    revision and the verdict of each) and the results [ps], ending in [s']. *)
Inductive walked : state -> list string -> list (Commit * BisectResult) -> list ptr ->
                   state -> Prop :=
| walked_nil s : walked s [] [] [] s
| walked_cons s tag tags c p s1 outs ps s2 :
    probe tag s = (Ok (c, p), s1) ->
    walked s1 tags outs ps s2 ->
    walked s (tag :: tags) ((c, verdict (heap s1 !!! p)) :: outs) (p :: ps) s2.

(** The walk stops at the first good tag: either no tested tag is good and
    all tags were tested, or the last tested tag is the only good one. *)
Definition stopsAtFirstGood (tags tested : list string) (outs : list (Commit * BisectResult))
    : Prop :=
  (Forall notGood outs /\ tested = tags) \/
  (exists pre c, outs = pre ++ [(c, BisectGood)] /\ Forall notGood pre /\
                 tested `prefix_of` tags).

(** Properties of a state that every step of a computation maintains. *)
Definition stable (R : relation state) {A : Type} (m : M A) : Prop :=
  forall s, R s (snd (m s)).

(** The flaky flag stays set. *)
Definition flakyKept : relation state :=
  fun s s' => flaky s = true -> flaky s' = true.

(** What the test harness, the range finder and the bisecter's predicate
    leave unchanged: the configuration, the active kernel config, the
    starting commit, the head and the start time. *)
Definition sessionKept : relation state :=
  fun s s' =>
    cfg s' = cfg s /\ kernelConfig s' = kernelConfig s /\ commit s' = commit s /\
    head s' = head s /\ startTime s' = startTime s.

(** The configuration is unchanged. *)
Definition cfgKept : relation state :=
  fun s s' => cfg s' = cfg s.

(** The results on the heap are unchanged; new ones may follow them. *)
Definition heapGrows : relation state :=
  fun s s' => heap s `prefix_of` heap s'.

(** The number of calls of inst.Test in a list of calls. *)
Definition countTests (l : list Call) : nat :=
  length (List.filter (fun c => match c with
                                | CTest _ _ _ _ => true
                                | _ => false
                                end) l).

(** numTests counts the calls of the test runner: by the calls made from
    [s] to [s'], numTests was incremented once for each call of inst.Test. *)
Definition testsCounted : relation state :=
  fun s s' =>
    exists l, calls s' = l ++ calls s /\
              numTests s' = Nat.iter (countTests l) (fun n => wrap_int (n + 1)) (numTests s).

(** The three invariants that every step of env.bisect maintains. *)
Inductive invariant := FlakyKept | HeapGrows | TestsCounted.

Definition holds (k : invariant) : relation state :=
  match k with
  | FlakyKept => flakyKept
  | HeapGrows => heapGrows
  | TestsCounted => testsCounted
  end.

(** Everything but the world, the build time and the calls is unchanged. *)
Definition buildFrame : relation state :=
  fun s s' =>
    cfg s' = cfg s /\ commit s' = commit s /\ head s' = head s /\
    kernelConfig s' = kernelConfig s /\ numTests s' = numTests s /\
    startTime s' = startTime s /\ testTime s' = testTime s /\ flaky s' = flaky s /\
    results s' = results s /\ testResults s' = testResults s /\ heap s' = heap s.

(** From [s] to [s'] only calls that [allowed] admits were made. *)
Definition footprint (allowed : Call -> bool) : relation state :=
  fun s s' => exists l, calls s' = l ++ calls s /\ Forall (fun c => allowed c = true) l.

(** Of the configuration, only Kernel.Commit has changed. *)
Definition configTouched : relation state :=
  fun s s' => exists h, cfg s' = set_kernelCommit h (cfg s).

(** The two maps of results are unchanged. *)
Definition mapsKept : relation state :=
  fun s s' => results s' = results s /\ testResults s' = testResults s.

(** No revision was tested: the counters, the flag, the results and the
    heap are unchanged. *)
Definition untested : relation state :=
  fun s s' =>
    numTests s' = numTests s /\ flaky s' = flaky s /\ heap s' = heap s /\
    results s' = results s /\ testResults s' = testResults s /\
    buildTime s' = buildTime s /\ testTime s' = testTime s.

End Specification.

(** ** Concrete inputs *)

Module Inputs.
Import Script.

Definition crash : EnvTestResult :=
  CrashError (mkReport "KASAN: use-after-free" [] []) "crash".
Definition infraFailure : EnvTestResult := TestError true false [] None "ssh timeout".

Definition kernel0 : KernelConfig :=
  mkKernelConfig "repo" "master" "r3" "" "" "" [Byte.x01; Byte.x02] [] "".

Definition manager0 : ManagerConfig :=
  mkManagerConfig "linux" "amd64" "qemu" "src" "linux/amd64" true.

(** A cause bisection from the commit r3, without a baseline config. *)
Definition causeConfig : Config :=
  mkConfig false "gcc" "gcc" "" "bin" "" 0 kernel0 (mkSyzkallerConfig "" "" "")
    (mkReproConfig [] [] []) manager0.

(** A fix bisection from the commit r3. *)
Definition fixConfig : Config :=
  mkConfig true "gcc" "gcc" "" "bin" "" 0 kernel0 (mkSyzkallerConfig "" "" "")
    (mkReproConfig [] [] []) manager0.

(** A cause bisection with a commit title and with the baseline config 01. *)
Definition titledConfig : Config :=
  mkConfig false "gcc" "gcc" "" "bin" "" 0
    (mkKernelConfig "repo" "master" "r3" "mm: fix a leak" "" "" [Byte.x01; Byte.x02] [] "")
    (mkSyzkallerConfig "" "" "") (mkReproConfig [] [] []) manager0.

Definition baselineConfig : Config :=
  mkConfig false "gcc" "gcc" "" "bin" "" 0
    (mkKernelConfig "repo" "master" "r3" "" "" "" [Byte.x01; Byte.x02] [Byte.x01] "")
    (mkSyzkallerConfig "" "" "") (mkReproConfig [] [] []) manager0.

(** The world with the revision r3 checked out and on the branch, whose
    head is r5, in which every build succeeds. *)
Definition worldWith (trials : string -> bytes -> Z -> result (list EnvTestResult))
    (tags : list string) : World :=
  mkWorld "r3" [] 0 ["bin"] (Ok (commitOf "r5")) ["r3"] [] (Ok tags) (fun _ => None) trials
    ["r4"] [commitOf "r4"] [[Byte.x01]] [Byte.x01].

Definition stateOf (w : World) (c : Config) : state :=
  mkState w c None None [] 0 0 0 0 false ∅ ∅ [] [].

(** Trials: the crash reproduces at r3 (one crash, two clean runs) and at
    the tags t2 and r4, and nowhere else. *)
Definition flakyTrials : list EnvTestResult := [crash; TrialOK; TrialOK].

Definition causeTrials (h : string) (_ : bytes) (_ : Z) : result (list EnvTestResult) :=
  Ok (if bool_decide (h = "r3") then flakyTrials
      else if bool_decide (h = "t2") || bool_decide (h = "r4") then [crash]
      else [TrialOK]).

Definition causeState : state := stateOf (worldWith causeTrials ["t2"; "t1"]) causeConfig.
Definition fixState : state := stateOf (worldWith causeTrials ["t2"; "t1"]) fixConfig.
Definition titledState : state := stateOf (worldWith causeTrials ["t2"; "t1"]) titledConfig.

(** The state of the range finder: the starting commit is r3. *)
Definition rangeState : state := set_commit (Some (commitOf "r3")) causeState.

(** No release tags. *)
Definition noTagsState : state :=
  set_commit (Some (commitOf "r3")) (stateOf (worldWith causeTrials []) causeConfig).

(** Trials: two infra failures and a crash. *)
Definition infraTrials : list EnvTestResult := [infraFailure; infraFailure; crash].
Definition infraState : state :=
  stateOf (worldWith (fun _ _ _ => Ok infraTrials) ["t2"; "t1"]) causeConfig.

(** Trials: two clean runs and no crash. *)
Definition cleanTrials : list EnvTestResult := [TrialOK; TrialOK].
Definition cleanState : state :=
  stateOf (worldWith (fun _ _ _ => Ok cleanTrials) ["t2"; "t1"]) causeConfig.

(** Trials that depend on the kernel config: the crash reproduces with the
    full config (two bytes) only, not with the config 01 that Minimize
    tries and returns. *)
Definition configTrials (_ : string) (config : bytes) (_ : Z) : result (list EnvTestResult) :=
  Ok (if (length config <? 2)%nat then [TrialOK] else [crash]).

Definition baselineState : state :=
  stateOf (worldWith configTrials ["t2"; "t1"]) baselineConfig.

(** The checkout of the branch fails. *)
Definition brokenBranchState : state :=
  stateOf (mkWorld "r3" [] 0 ["bin"] (Err (OtherError "fetch failed")) ["r3"] []
             (Ok ["t2"; "t1"]) (fun _ => None) causeTrials [] [] [] [])
    causeConfig.

(** A state in which the only result, of the head r5, has the verdict skip. *)
Definition buildReport : Report := mkReport "failed building r5: link error" [] [].

Definition skipState (c : Config) : state :=
  mkState (worldWith causeTrials ["t2"; "t1"]) c (Some (commitOf "r3"))
    (Some (commitOf "r5")) [Byte.x01; Byte.x02] 1 0 0 0 false ∅ ∅
    [mkTestResult BisectSkip (Some (commitOf "r5")) (Some buildReport) ""] [].

(** *** Inputs in the world with faults and further inputs *)

Import Faulty.

(** A session with a budget of 5 that started at time 0, at time 10. *)
Definition budgetConfig : Config :=
  mkConfig false "gcc" "gcc" "" "bin" "" 5 kernel0 (mkSyzkallerConfig "" "" "")
    (mkReproConfig [] [] []) manager0.

Definition lateState : state :=
  stateOf (mkWorld "r3" [] 10 ["bin"] (Ok (commitOf "r5")) ["r3"] [] (Ok ["t2"; "t1"])
             (fun _ => None) causeTrials ["r4"] [commitOf "r4"] [[Byte.x01]] [Byte.x01])
    budgetConfig.

(** The build of r3 fails with a kernel error whose report is ld. *)
Definition linkError : error := KernelError [Byte.x6c; Byte.x64] [] "kernel build failed".

Definition brokenBuildState : state :=
  stateOf (mkWorld "r3" [] 0 ["bin"] (Ok (commitOf "r5")) ["r3"] [] (Ok ["t2"; "t1"])
             (fun h => if bool_decide (h = "r3") then Some linkError else None)
             causeTrials ["r4"] [commitOf "r4"] [[Byte.x01]] [Byte.x01])
    causeConfig.

(** The test runner fails. *)
Definition noVMs : error := OtherError "no VMs".

Definition brokenRunnerState : state :=
  stateOf (worldWith (fun _ _ _ => Err noVMs) ["t2"; "t1"]) causeConfig.

(** HeadCommit fails; the repository is not a Bisecter. *)
Definition headlessState : state :=
  mkState (mkFWorld (worldWith causeTrials ["t2"; "t1"])
             (mkFaults false false (Some (OtherError "not a git repository"))))
    causeConfig None None [] 0 0 0 0 false ∅ ∅ [] [].

Definition plainRepoState : state :=
  mkState (mkFWorld (worldWith causeTrials ["t2"; "t1"]) (mkFaults true false None))
    causeConfig None None [] 0 0 0 0 false ∅ ∅ [] [].

(** The range finder in fix mode: the head is r5, the starting commit r3. *)
Definition fixRangeState : state :=
  set_head (Some (commitOf "r5")) (set_commit (Some (commitOf "r3")) fixState).

(** The range finder in fix mode when the head r5 still crashes. *)
Definition fixBadState : state :=
  set_head (Some (commitOf "r5"))
    (set_commit (Some (commitOf "r3"))
       (stateOf (worldWith (fun _ _ _ => Ok [crash]) ["t2"; "t1"]) fixConfig)).

(** The test runner fails at the tag t1. *)
Definition abortTrials (h : string) (c : bytes) (n : Z) : result (list EnvTestResult) :=
  if bool_decide (h = "t1") then Err noVMs else causeTrials h c n.

Definition abortState : state :=
  set_commit (Some (commitOf "r3")) (stateOf (worldWith abortTrials ["t2"; "t1"]) causeConfig).

(** The commit r3 is not on the branch; the commit r7 has the stored title. *)
Definition rebasedWorld : World :=
  mkWorld "r3" [] 0 ["bin"] (Ok (commitOf "r5")) [] [("mm: fix a leak", commitOf "r7")]
    (Ok ["t2"; "t1"]) (fun _ => None) causeTrials ["r4"] [commitOf "r4"] [[Byte.x01]]
    [Byte.x01].

Definition rebasedState : state := stateOf rebasedWorld titledConfig.
Definition untitledState : state := stateOf rebasedWorld causeConfig.

(** The culprit c1 with the one parent p1, both tested, with the same
    kernel signature. *)
Definition culprit : Commit := mkCommit "c1" "mm: add a comment" ["p1"] [] [].

Definition noopState : state :=
  mkState (worldWith causeTrials ["t2"; "t1"]) causeConfig (Some (commitOf "r3"))
    (Some (commitOf "r5")) [Byte.x01; Byte.x02] 2 0 0 0 false
    {[ "c1" := 0%nat; "p1" := 1%nat ]} ∅
    [mkTestResult BisectBad (Some culprit) (Some (mkReport "KASAN: use-after-free" [] []))
       "sig-A";
     mkTestResult BisectGood (Some (commitOf "p1")) None "sig-A"] [].

(** Bisect returns no commit. *)
Definition noCulpritState : state :=
  stateOf (mkWorld "r3" [] 0 ["bin"] (Ok (commitOf "r5")) ["r3"] [] (Ok ["t2"; "t1"])
             (fun _ => None) causeTrials ["r4"] [] [[Byte.x01]] [Byte.x01])
    causeConfig.

(** Minimize tries no candidate and returns the config 01. *)
Definition untriedState : state :=
  stateOf (mkWorld "r3" [] 0 ["bin"] (Ok (commitOf "r5")) ["r3"] [] (Ok ["t2"; "t1"])
             (fun _ => None) causeTrials ["r4"] [commitOf "r4"] [] [Byte.x01])
    baselineConfig.

End Inputs.

(** ** Properties *)

Section Properties.

Context {W : Type} `{!Collaborators W}.
Implicit Types s : @state W.

#[local] Arguments Sprintf : simpl never.

(** Symbolic execution of the primitive steps of the monad. *)
Ltac exec :=
  repeat (progress (
    cbv beta zeta delta [bind ret get modify since now alloc load call log saveDebugFile
                         store_rep store_verdict];
    cbn [fst snd world cfg commit head kernelConfig numTests startTime buildTime testTime
         flaky results testResults heap calls
         set_world set_cfg set_commit set_head set_kernelConfig set_numTests set_buildTime
         set_testTime set_flaky set_results set_testResults set_heap set_calls])).

Lemma set_calls_id s : set_calls (calls s) s = s.
Proof. by destruct s. Qed.

Lemma bind_eq {A B} (m : M A) (k : A -> M B) s :
  bind m k s = k (fst (m s)) (snd (m s)).
Proof. reflexivity. Qed.

Lemma Sprintf_v (a : string) : Sprintf "%v" [a] = a.
Proof.
  change (Sprintf "%v" [a]) with (a +:+ "").
  induction a as [|c a IH]; [reflexivity|].
  change (String c a +:+ "") with (String c (a +:+ "")). by rewrite IH.
Qed.

(** *** The tally *)

Lemma countIf_cons f r rs : countIf f (r :: rs) = countIf f [r] + countIf f rs.
Proof. unfold countIf. cbn. destruct (f r); cbn; lia. Qed.

Lemma countIf_nonneg f rs : 0 <= countIf f rs.
Proof. unfold countIf. lia. Qed.

Lemma last_crash_cons r rs o :
  from_option Some (from_option Some o (last (crashReports [r]))) (last (crashReports rs))
  = from_option Some o (last (crashReports (r :: rs))).
Proof.
  unfold crashReports. cbn. destruct r; cbn; try reflexivity.
  destruct (omap _ rs) as [|x l] eqn:E; cbn; [reflexivity|].
  rewrite last_cons. by destruct (last l).
Qed.

Lemma crashReports_last rs :
  0 < countIf isCrash rs -> exists rp, last (crashReports rs) = Some rp.
Proof.
  induction rs as [|r rs IH]; [unfold countIf; cbn; lia|].
  rewrite countIf_cons. intros Hc.
  destruct r; unfold crashReports in *; cbn in *;
    try (apply IH; unfold countIf in *; cbn in *; lia).
  rewrite last_cons. destruct (last _); eauto.
Qed.

Lemma processResult_spec cur i r t s :
  exists v l,
    processResult cur i r t s =
      (mkTally (bad t + countIf isCrash [r]) (good t + countIf isClean [r])
         (infra t + countIf isInfra [r])
         (from_option Some (trep t) (last (crashReports [r])))
         (verdicts t ++ [v]),
       set_calls (l ++ calls s) s)
    /\ Forall tracerCall l.
Proof.
  destruct r as [|inf boot out rp txt|rp txt|txt].
  - eexists _, []. split; [|constructor]. cbn. rewrite set_calls_id.
    unfold ret, countIf; cbn. by rewrite !Z.add_0_r.
  - destruct inf, boot; (eexists _, [_]; split;
      [unfold countIf; cbn; rewrite !Z.add_0_r; reflexivity | repeat constructor]).
  - eexists _, [_]. split;
      [unfold countIf; cbn; rewrite !Z.add_0_r; reflexivity | repeat constructor].
  - eexists _, []. split; [|constructor]. cbn. rewrite set_calls_id.
    unfold ret, countIf; cbn. by rewrite !Z.add_0_r.
Qed.

Lemma processLoop_spec cur rs : forall i t s,
  exists vs l,
    processLoop cur i rs t s =
      (mkTally (bad t + countIf isCrash rs) (good t + countIf isClean rs)
         (infra t + countIf isInfra rs)
         (from_option Some (trep t) (last (crashReports rs)))
         (verdicts t ++ vs),
       set_calls (l ++ calls s) s)
    /\ Forall tracerCall l.
Proof.
  induction rs as [|r rs IH]; intros i t s.
  - exists [], []. split; [|constructor]. cbn. rewrite set_calls_id, app_nil_r.
    unfold ret, countIf; cbn. rewrite !Z.add_0_r. by destruct t.
  - destruct (processResult_spec cur i r t s) as (v & l1 & E1 & F1).
    cbn [processLoop]. rewrite bind_eq, E1. cbn [fst snd].
    edestruct IH as (vs & l2 & E2 & F2). rewrite E2. clear E2.
    exists (v :: vs), (l2 ++ l1). split; [|by apply Forall_app].
    cbn [bad good infra trep verdicts].
    rewrite (countIf_cons isCrash r rs), (countIf_cons isClean r rs),
      (countIf_cons isInfra r rs).
    rewrite !Z.add_assoc, <- !app_assoc, last_crash_cons. f_equal.
Qed.

Lemma logRuns_spec vs : forall i s,
  exists l, logRuns i vs s = (tt, set_calls (l ++ calls s) s) /\ Forall tracerCall l.
Proof.
  induction vs as [|v vs IH]; intros i s.
  - exists []. split; [|constructor]. cbn. by rewrite set_calls_id.
  - cbn [logRuns]. rewrite bind_eq. exec.
    edestruct IH as (l & E & F). rewrite E. clear E. exec.
    exists (l ++ [CLog "run #%v: %v" [pretty i; v]]). split.
    + by rewrite <- app_assoc.
    + apply Forall_app. split; [done|]. by repeat constructor.
Qed.

Lemma processResults_spec cur rs s :
  exists vs l,
    processResults cur rs s =
      (mkTally (countIf isCrash rs) (countIf isClean rs) (countIf isInfra rs)
         (last (crashReports rs)) vs,
       set_calls (l ++ calls s) s)
    /\ Forall tracerCall l.
Proof.
  unfold processResults. rewrite bind_eq.
  destruct (processLoop_spec cur rs 0 (mkTally 0 0 0 None []) s) as (vs & l & E & F).
  rewrite E. cbn [fst snd bad good infra trep verdicts]. clear E.
  rewrite !Z.add_0_l, app_nil_l.
  replace (from_option Some None (last (crashReports rs))) with (last (crashReports rs))
    by (by destruct (last (crashReports rs))).
  rewrite bind_eq. cbn [verdicts]. destruct (decide _).
  - exec. exists vs, (CLog "all runs: %v" [vs !!! 0%nat] :: l). split; [done|].
    constructor; done.
  - destruct (logRuns_spec vs 0 (set_calls (l ++ calls s) s)) as (l2 & E2 & F2).
    rewrite E2. exec. exists vs, (l2 ++ l). split.
    + by rewrite <- app_assoc.
    + by apply Forall_app.
Qed.

(** *** Stability *)

#[local] Instance flakyKept_preorder : PreOrder (@flakyKept W).
Proof. split; unfold flakyKept; [intros s; auto | intros s1 s2 s3; auto]. Qed.

#[local] Instance sessionKept_preorder : PreOrder (@sessionKept W).
Proof.
  split; unfold sessionKept.
  - intros s. tauto.
  - intros s1 s2 s3 ? ?. intuition congruence.
Qed.

#[local] Instance cfgKept_preorder : PreOrder (@cfgKept W).
Proof. split; unfold cfgKept; [intros s; done | intros s1 s2 s3 ? ?; congruence]. Qed.

#[local] Instance heapGrows_preorder : PreOrder (@heapGrows W).
Proof.
  split; unfold heapGrows; [intros s; done | intros s1 s2 s3 ? ?; by etransitivity].
Qed.

Lemma countTests_app l1 l2 : countTests (l1 ++ l2) = (countTests l1 + countTests l2)%nat.
Proof. unfold countTests. by rewrite List.filter_app, length_app. Qed.

#[local] Instance testsCounted_preorder : PreOrder (@testsCounted W).
Proof.
  split; unfold testsCounted.
  - intros s. by exists [].
  - intros s1 s2 s3 (l1 & E1 & N1) (l2 & E2 & N2). exists (l2 ++ l1). split.
    + by rewrite E2, E1, app_assoc.
    + rewrite N2, N1, countTests_app. by rewrite Nat.iter_add.
Qed.

#[local] Instance buildFrame_preorder : PreOrder (@buildFrame W).
Proof.
  split; unfold buildFrame.
  - intros s. tauto.
  - intros s1 s2 s3 ? ?. intuition congruence.
Qed.

Lemma stable_weaken (R R' : relation state) {A} (m : M A) :
  (forall s s', R s s' -> R' s s') -> stable R m -> stable R' m.
Proof. unfold stable. auto. Qed.

Section Stable.

Context (R : relation (@state W)) `{!PreOrder R}.

Lemma stable_ret {A} (a : A) : stable R (ret a).
Proof. intros s. reflexivity. Qed.

Lemma stable_get {A} (f : state -> A) : stable R (get f).
Proof. intros s. reflexivity. Qed.

Lemma stable_bind {A B} (m : M A) (k : A -> M B) :
  stable R m -> (forall a, stable R (k a)) -> stable R (bind m k).
Proof.
  intros Hm Hk s. rewrite bind_eq. etransitivity; [apply Hm|apply Hk].
Qed.

Lemma stable_modify f : (forall s, R s (f s)) -> stable R (modify f).
Proof. intros Hf s. apply Hf. Qed.

Lemma stable_call {A} c (f : W -> A * W) :
  (forall s w, R s (set_calls (c :: calls s) (set_world w s))) -> stable R (call c f).
Proof. intros Hf s. apply Hf. Qed.

Lemma stable_alloc r : (forall s, R s (set_heap (heap s ++ [r]) s)) -> stable R (alloc r).
Proof. intros Hf s. apply Hf. Qed.

Lemma stable_runStrategy {Q X} (p : Q -> M (BisectResult * option error))
    (st : Strategy W Q X) :
  (forall s w, R s (set_world w s)) -> (forall q, stable R (p q)) ->
  stable R (runStrategy p st).
Proof.
  intros Hw Hp. induction st as [w r|w q k IH]; cbn [runStrategy].
  - apply stable_bind; [by apply stable_modify|intros _; apply stable_ret].
  - apply stable_bind; [by apply stable_modify|intros _].
    apply stable_bind; [apply Hp|intros a].
    apply stable_bind; [apply stable_get|intros w']. apply IH.
Qed.

End Stable.

Create HintDb stable discriminated.

(** The steps of a stability proof: the structure of the code, then the
    primitive updates of the state. *)
Ltac prim :=
  intros;
  unfold holds, sessionKept, flakyKept, buildFrame, cfgKept, heapGrows, testsCounted; cbn;
  first [ tauto | reflexivity | by eexists
        | by (exists []) | by (eexists [_]) ].

Ltac stab :=
  repeat match goal with
  | |- stable ?R (bind _ _) => apply (stable_bind R); [|intros ?]
  | |- stable ?R (ret _) => apply (stable_ret R)
  | |- stable ?R (get _) => apply (stable_get R)
  | |- stable ?R (modify _) => apply (stable_modify R); prim
  | |- stable ?R (call _ _) => apply (stable_call R); prim
  | |- stable ?R (alloc _) => apply (stable_alloc R); prim
  | |- stable _ (log _ _) => unfold log
  | |- stable _ (saveDebugFile _ _ _) => unfold saveDebugFile
  | |- stable _ now => unfold now
  | |- stable _ (since _) => unfold since
  | |- stable _ (load _) => unfold load
  | |- stable _ (store_rep _ _) => unfold store_rep
  | |- stable _ (store_verdict _ _) => unfold store_verdict
  | |- stable _ (match ?x with _ => _ end) => destruct x
  | |- stable _ (let _ := _ in _) => cbv zeta
  | H : stable ?R ?m |- stable ?R ?m => exact H
  | |- stable _ _ => solve [eauto with stable]
  end.

Lemma stable_processResults (R : relation state) cur rs :
  (forall s l, R s (set_calls l s)) -> stable R (processResults cur rs).
Proof.
  intros HR s. destruct (processResults_spec cur rs s) as (vs & l & E & _).
  rewrite E. apply HR.
Qed.

Lemma build_frame : stable (@buildFrame W) build.
Proof. unfold build. stab. Qed.

Lemma build_kept : stable (@sessionKept W) build.
Proof. unfold build. stab. Qed.

#[local] Hint Resolve build_kept : stable.

Lemma processResults_kept cur rs : stable (@sessionKept W) (processResults cur rs).
Proof. apply stable_processResults. prim. Qed.

#[local] Hint Resolve processResults_kept : stable.

Lemma test_kept : stable (@sessionKept W) test.
Proof. unfold test. stab. Qed.

#[local] Hint Resolve test_kept : stable.

Lemma pred_kept q : stable (@sessionKept W) (pred q).
Proof. unfold pred. stab. Qed.

#[local] Hint Resolve pred_kept : stable.

Lemma Bisect_kept b g : stable (@sessionKept W) (Bisect b g).
Proof.
  unfold Bisect. stab. apply stable_runStrategy; [typeclasses eauto|prim|apply pred_kept].
Qed.

Lemma commitRangeForFix_kept : stable (@sessionKept W) commitRangeForFix.
Proof. unfold commitRangeForFix. stab. Qed.

Lemma causeLoop_kept tags : forall lastBad rs, stable (@sessionKept W) (causeLoop tags lastBad rs).
Proof. induction tags as [|tag tags IH]; intros lastBad rs; cbn [causeLoop]; stab. Qed.

#[local] Hint Resolve Bisect_kept commitRangeForFix_kept causeLoop_kept : stable.

Lemma commitRangeForCause_kept : stable (@sessionKept W) commitRangeForCause.
Proof. unfold commitRangeForCause. stab. Qed.

Lemma validateCommitRange_kept b g rs : stable (@sessionKept W) (validateCommitRange b g rs).
Proof. unfold validateCommitRange. stab. Qed.

#[local] Hint Resolve commitRangeForCause_kept validateCommitRange_kept : stable.

Lemma commitRange_kept : stable (@sessionKept W) commitRange.
Proof. unfold commitRange. stab. Qed.

Lemma storeResults_kept rs : stable (@sessionKept W) (storeResults rs).
Proof. induction rs as [|r rs IH]; cbn [storeResults]; stab. Qed.

Lemma detectNoopChange_kept c : stable (@sessionKept W) (detectNoopChange c).
Proof. unfold detectNoopChange. stab. Qed.

#[local] Hint Resolve commitRange_kept storeResults_kept detectNoopChange_kept : stable.

Lemma classify_kept cs : stable (@sessionKept W) (classify cs).
Proof. unfold classify. stab. Qed.

#[local] Hint Resolve classify_kept : stable.

Lemma bisectSearch_kept p : stable (@sessionKept W) (bisectSearch p).
Proof. unfold bisectSearch. stab. Qed.

(** *** env.test when it runs the trials *)

Lemma alter_last {A} (f : A -> A) (h : list A) (r : A) :
  alter f (length h) (h ++ [r]) = h ++ [f r].
Proof.
  rewrite (alter_app_r_alt f h [r] (length h)) by lia.
  by rewrite Nat.sub_diag.
Qed.

Lemma trialCount_code (fl : bool) (nt : Z) :
  (if fl || (nt =? 0) then Z.quot MaxNumTests 2 * 2 else Z.quot MaxNumTests 2)
  = trialCount fl nt.
Proof. unfold trialCount. by destruct (fl || (nt =? 0)). Qed.

Lemma countIf_pos f rs : (0 <? countIf f rs) = negb (countIf f rs =? 0).
Proof. pose proof (countIf_nonneg f rs). destruct (countIf f rs =? 0) eqn:E; lia. Qed.

Lemma tooMany_spec (i n : Z) :
  0 <= n -> (i >? Z.quot n 2) = true <-> n < 2 * i.
Proof.
  intros Hn. rewrite Z.quot_div_nonneg by lia. rewrite Z.gtb_ltb, Z.ltb_lt.
  Z.div_mod_to_equations. lia.
Qed.

Lemma test_trials s cur sign s1 rs w2 :
  timedOut s = false ->
  build s = ((Some cur, sign, None), s1) ->
  inst_Test (trialCount (flaky s) (numTests s)) (rSyz (Repro (cfg s)))
    (rOpts (Repro (cfg s))) (rC (Repro (cfg s))) (world s1) = (Ok rs, w2) ->
  let s' := snd (test s) in
  let tooMany := countIf isInfra rs >? Z.quot (Z.of_nat (length rs)) 2 in
  fst (test s) =
    (if tooMany
     then Err (InfraError "more than 50% of runs failed with an infra error")
     else Ok (length (heap s)))
  /\ heap s' =
       heap s ++ [mkTestResult (if tooMany then BisectSkip else specVerdict rs) (Some cur)
                    (if tooMany then last (crashReports rs) else specRep cur rs) sign]
  /\ flaky s' =
       flaky s || (negb tooMany && (0 <? countIf isCrash rs)
                   && (countIf isCrash rs <? countIf isClean rs))
  /\ numTests s' = wrap_int (numTests s + 1)
  /\ exists l,
       calls s' = l ++ CTest (trialCount (flaky s) (numTests s)) (rSyz (Repro (cfg s)))
                         (rOpts (Repro (cfg s))) (rC (Repro (cfg s))) :: calls s1
       /\ Forall tracerCall l.
Proof.
  intros Ht Hb Hr s' tooMany. subst s'.
  pose proof (build_frame s) as Hf. rewrite Hb in Hf. cbn [snd] in Hf.
  destruct Hf as (Hcfg & _ & _ & _ & Hnt & _ & _ & Hfl & _ & _ & Hheap).
  unfold test. exec. unfold timedOut in Ht. rewrite Ht. rewrite Hb. exec.
  rewrite Hfl, Hnt, trialCount_code, Hr. exec.
  match goal with |- context [processResults cur rs ?s0] =>
    destruct (processResults_spec cur rs s0) as (vs & l & E & F); rewrite E; clear E
  end.
  exec. fold tooMany. rewrite Hheap.
  cbn [bad good infra trep verdicts]. fold tooMany.
  unfold specVerdict, specRep. rewrite !countIf_pos.
  assert (Hcalls : forall l' (x : Call) (k : list Call),
             Forall tracerCall l' ->
             exists l0, l' ++ x :: k = l0 ++ x :: k /\ Forall tracerCall l0)
    by (intros l' x k ?; by exists l').
  destruct tooMany.
  { exec. rewrite !alter_last. cbn [negb andb orb verdict com rep kernelSign].
    rewrite orb_false_r. repeat split; auto. }
  destruct (countIf isCrash rs =? 0); cbn [negb andb orb].
  - destruct (countIf isClean rs =? 0); cbn [negb andb orb];
      exec; rewrite !alter_last; cbn [negb andb orb verdict com rep kernelSign];
      rewrite orb_false_r; repeat split; auto.
  - exec. rewrite Hfl.
    destruct (flaky s), (countIf isCrash rs <? countIf isClean rs); cbn [negb andb orb];
      exec; rewrite !alter_last; cbn [negb andb orb verdict com rep kernelSign];
      repeat split; auto.
    apply (Hcalls (_ :: l)). by constructor.
Qed.

(** What [runsTrials] gives to [test_trials]. *)
Lemma runsTrials_inv s cur rs :
  runsTrials s cur rs ->
  timedOut s = false /\
  exists sign s1 w2,
    build s = ((Some cur, sign, None), s1) /\
    inst_Test (trialCount (flaky s) (numTests s)) (rSyz (Repro (cfg s)))
      (rOpts (Repro (cfg s))) (rC (Repro (cfg s))) (world s1) = (Ok rs, w2).
Proof.
  intros (Ht & sign & s1 & Hb & Hr). split; [done|].
  destruct (inst_Test _ _ _ _ _) as [r w2] eqn:E. cbn in Hr. subst r. eauto.
Qed.

Lemma bisect_gate s0 s :
  bisectSetup s0 = (None, s) ->
  bisect s0 =
    match fst (test s) with
    | Err err => ((None, Some err), snd (test s))
    | Ok testRes =>
        if bool_decide (verdict (heap (snd (test s)) !!! testRes) ≠ BisectBad)
        then ((None, Some (Errorf "the crash wasn't reproduced on the original commit")),
              snd (test s))
        else bisectAfterGate testRes (snd (test s))
    end.
Proof.
  intros Hs. unfold bisect. rewrite bind_eq, Hs. cbn [fst snd]. rewrite bind_eq.
  destruct (fst (test s)); [|reflexivity]. exec. by destruct (bool_decide _).
Qed.

(** An error of env.bisect is the error of the session. *)
Lemma runImplBody_error hd s err :
  fst (bisect (sessionStart hd s)) = (None, Some err) ->
  fst (runImplBody hd s) = (None, Some err).
Proof.
  intros Hb. unfold runImplBody. exec.
  assert (Hs : forall (b : bool) (x y : string) (a : list string) (s' : state),
             (if b then (fun s0 => (tt, set_calls (CLog x a :: calls s0) s0))
              else (fun s0 => (tt, set_calls (CLog y a :: calls s0) s0))) s'
             = (tt, set_calls (CLog (if b then x else y) a :: calls s') s'))
    by (by intros []).
  rewrite Hs. exec.
  repeat match goal with
         | |- context [bisect ?sb] =>
             lazymatch sb with
             | sessionStart hd s => fail
             | _ => change sb with (sessionStart hd s)
             end
         end.
  destruct (bisect (sessionStart hd s)) as [[res e] s1]. cbn [fst snd] in *.
  injection Hb as -> ->. exec.
  destruct (flaky s1); exec; reflexivity.
Qed.


Lemma test_calls s cur sign s1 :
  timedOut s = false ->
  build s = ((Some cur, sign, None), s1) ->
  exists l,
    calls (snd (test s)) =
      l ++ CTest (trialCount (flaky s) (numTests s)) (rSyz (Repro (cfg s)))
             (rOpts (Repro (cfg s))) (rC (Repro (cfg s))) :: calls s1
    /\ Forall tracerCall l
    /\ numTests (snd (test s)) = wrap_int (numTests s + 1).
Proof.
  intros Ht Hb.
  destruct (inst_Test (trialCount (flaky s) (numTests s)) (rSyz (Repro (cfg s)))
              (rOpts (Repro (cfg s))) (rC (Repro (cfg s))) (world s1))
    as [[rs|err] w2] eqn:Hr.
  - destruct (test_trials s cur sign s1 rs w2 Ht Hb Hr) as (_ & _ & _ & Hn & l & Hl & F).
    eauto.
  - pose proof (build_frame s) as Hf. rewrite Hb in Hf. cbn [snd] in Hf.
    destruct Hf as (Hcfg & _ & _ & _ & Hnt & _ & _ & Hfl & _).
    unfold test. exec. unfold timedOut in Ht. rewrite Ht. rewrite Hb. exec.
    rewrite Hfl, Hnt, trialCount_code, Hr. exec.
    eexists [_]. split; [reflexivity|]. split; [by repeat constructor|done].
Qed.

Lemma test_ok_shape s p :
  fst (test s) = Ok p ->
  p = length (heap s) /\
  exists v cur rp sign,
    heap (snd (test s)) = heap s ++ [mkTestResult v (Some cur) rp sign].
Proof.
  destruct (timedOut s) eqn:Ht.
  { unfold test. exec. unfold timedOut in Ht. rewrite Ht. exec. discriminate. }
  destruct (build s) as [[[cur sign] err] s1] eqn:Hb.
  pose proof (build_frame s) as Hf. rewrite Hb in Hf. cbn [snd] in Hf.
  destruct Hf as (Hcfg & _ & _ & _ & Hnt & _ & _ & Hfl & _ & _ & Hheap).
  destruct cur as [cur|]; [|unfold test; exec; unfold timedOut in Ht; rewrite Ht, Hb; exec;
                             discriminate].
  destruct err as [err|].
  - unfold test. exec. unfold timedOut in Ht. rewrite Ht, Hb. exec.
    destruct err; exec; rewrite Hheap, alter_last; intros [= <-]; eauto 10.
  - destruct (inst_Test (trialCount (flaky s) (numTests s)) (rSyz (Repro (cfg s)))
                (rOpts (Repro (cfg s))) (rC (Repro (cfg s))) (world s1))
      as [[rs|e] w2] eqn:Hr.
    + destruct (test_trials s cur sign s1 rs w2 Ht Hb Hr) as (Hfst & Hh & _).
      rewrite Hfst, Hh. destruct (_ >? _); [discriminate|]. intros [= <-]. eauto 10.
    + unfold test. exec. unfold timedOut in Ht. rewrite Ht, Hb. exec.
      rewrite Hfl, Hnt, trialCount_code, Hr. exec. discriminate.
Qed.

(** *** The invariants of env.bisect *)

#[local] Instance holds_preorder k : PreOrder (@holds W k).
Proof. destruct k; cbn; typeclasses eauto. Qed.

Lemma countTests_tracer l : Forall tracerCall l -> countTests l = 0%nat.
Proof.
  induction 1 as [|c l Hc _ IH]; [reflexivity|].
  change (c :: l) with ([c] ++ l). rewrite countTests_app, IH.
  by destruct c.
Qed.

Lemma test_heap : stable (@heapGrows W) test.
Proof.
  intros s. unfold heapGrows.
  destruct (timedOut s) eqn:Ht.
  { unfold test. exec. unfold timedOut in Ht. rewrite Ht. exec. done. }
  destruct (build s) as [[[cur sign] err] s1] eqn:Hb.
  pose proof (build_frame s) as Hf. rewrite Hb in Hf. cbn [snd] in Hf.
  destruct Hf as (Hcfg & _ & _ & _ & Hnt & _ & _ & Hfl & _ & _ & Hheap).
  destruct cur as [cur|].
  2:{ unfold test. exec. unfold timedOut in Ht. rewrite Ht, Hb. exec.
      rewrite Hheap. by eexists. }
  destruct err as [err|].
  - unfold test. exec. unfold timedOut in Ht. rewrite Ht, Hb. exec.
    destruct err; exec; rewrite Hheap, alter_last; by eexists.
  - destruct (inst_Test (trialCount (flaky s) (numTests s)) (rSyz (Repro (cfg s)))
                (rOpts (Repro (cfg s))) (rC (Repro (cfg s))) (world s1))
      as [[rs|e] w2] eqn:Hr.
    + destruct (test_trials s cur sign s1 rs w2 Ht Hb Hr) as (_ & Hh & _).
      rewrite Hh. by eexists.
    + unfold test. exec. unfold timedOut in Ht. rewrite Ht, Hb. exec.
      rewrite Hfl, Hnt, trialCount_code, Hr. exec. rewrite Hheap. by eexists.
Qed.

Lemma pred_heap q : stable (@heapGrows W) (pred q).
Proof.
  intros s. unfold heapGrows, pred. exec.
  pose proof (test_heap s) as Hp. unfold heapGrows in Hp.
  destruct (fst (test s)) as [p|e] eqn:Ht; [|exact Hp]. exec.
  destruct (test_ok_shape s p Ht) as (-> & v & cur & rp & sign & Hh).
  destruct (Fix (cfg (snd (test s)))); [destruct v|];
    repeat (exec; rewrite ?Hh, ?alter_last, ?list_lookup_total_middle by done;
            cbn [verdict com];
            rewrite ?bool_decide_eq_true_2, ?bool_decide_eq_false_2 by done);
    by eexists.
Qed.

Lemma build_counted : stable (@testsCounted W) build.
Proof. unfold build. stab. Qed.

Lemma test_counted : stable (@testsCounted W) test.
Proof.
  intros s.
  destruct (timedOut s) eqn:Ht.
  { unfold test. exec. unfold timedOut in Ht. rewrite Ht. exec. reflexivity. }
  transitivity (snd (build s)); [apply build_counted|].
  destruct (build s) as [[[cur sign] err] s1] eqn:Hb.
  pose proof (build_frame s) as Hf. rewrite Hb in Hf. cbn [snd] in *.
  destruct Hf as (Hcfg & _ & _ & _ & Hnt & _ & _ & Hfl & _).
  destruct cur as [cur|].
  2:{ unfold test. exec. unfold timedOut in Ht. rewrite Ht, Hb. exec. by exists []. }
  destruct err as [err|].
  - unfold test. exec. unfold timedOut in Ht. rewrite Ht, Hb. exec.
    destruct err; exec; by eexists [_; _].
  - destruct (test_calls s cur sign s1 Ht Hb) as (l & Hl & F & Hn).
    exists (l ++ [CTest (trialCount (flaky s) (numTests s)) (rSyz (Repro (cfg s)))
                    (rOpts (Repro (cfg s))) (rC (Repro (cfg s)))]).
    split; [by rewrite <- app_assoc|].
    rewrite countTests_app, (countTests_tracer l F), Hn, Hnt. reflexivity.
Qed.

Lemma processResults_inv k cur rs : stable (@holds W k) (processResults cur rs).
Proof.
  intros s. destruct (processResults_spec cur rs s) as (vs & l & E & F). rewrite E.
  destruct k; cbn [holds]; [prim|prim|].
  exists l. split; [done|]. by rewrite (countTests_tracer l F).
Qed.

Lemma build_inv k : stable (@holds W k) build.
Proof. unfold build. destruct k; stab. Qed.

#[local] Hint Resolve processResults_inv build_inv : stable.

Lemma test_inv k : stable (@holds W k) test.
Proof. destruct k; [|apply test_heap|apply test_counted]. unfold test. stab. Qed.

#[local] Hint Resolve test_inv : stable.

Lemma pred_inv k q : stable (@holds W k) (pred q).
Proof. destruct k; [|apply pred_heap|]; unfold pred; stab. Qed.

#[local] Hint Resolve pred_inv : stable.

Lemma runStrategy_inv k {Q X} (p : Q -> M (BisectResult * option error))
    (st : Strategy W Q X) :
  (forall q, stable (@holds W k) (p q)) -> stable (@holds W k) (runStrategy p st).
Proof.
  intros Hp. apply stable_runStrategy; [typeclasses eauto| |exact Hp]. destruct k; prim.
Qed.

Lemma Bisect_inv k b g : stable (@holds W k) (Bisect b g).
Proof.
  unfold Bisect. apply (stable_bind (@holds W k)).
  - destruct k; stab.
  - intros st. apply runStrategy_inv. apply pred_inv.
Qed.

Lemma commitRangeForFix_inv k : stable (@holds W k) commitRangeForFix.
Proof. unfold commitRangeForFix. destruct k; stab. Qed.

Lemma causeLoop_inv k tags :
  forall lastBad rs, stable (@holds W k) (causeLoop tags lastBad rs).
Proof.
  induction tags as [|tag tags IH]; intros lastBad rs; cbn [causeLoop]; destruct k; stab.
Qed.

#[local] Hint Resolve Bisect_inv commitRangeForFix_inv causeLoop_inv : stable.

Lemma commitRangeForCause_inv k : stable (@holds W k) commitRangeForCause.
Proof. unfold commitRangeForCause. destruct k; stab. Qed.

Lemma validateCommitRange_inv k b g rs : stable (@holds W k) (validateCommitRange b g rs).
Proof. unfold validateCommitRange. destruct k; stab. Qed.

#[local] Hint Resolve commitRangeForCause_inv validateCommitRange_inv : stable.

Lemma commitRange_inv k : stable (@holds W k) commitRange.
Proof. unfold commitRange. destruct k; stab. Qed.

Lemma storeResults_inv k rs : stable (@holds W k) (storeResults rs).
Proof. induction rs as [|r rs IH]; cbn [storeResults]; destruct k; stab. Qed.

Lemma detectNoopChange_inv k c : stable (@holds W k) (detectNoopChange c).
Proof. unfold detectNoopChange. destruct k; stab. Qed.

#[local] Hint Resolve commitRange_inv storeResults_inv detectNoopChange_inv : stable.

Lemma classify_inv k cs : stable (@holds W k) (classify cs).
Proof. unfold classify. destruct k; stab. Qed.

#[local] Hint Resolve classify_inv : stable.

Lemma bisectSearch_inv k p : stable (@holds W k) (bisectSearch p).
Proof. unfold bisectSearch. destruct k; stab. Qed.

Lemma predMinimize_inv k c : stable (@holds W k) (predMinimize c).
Proof. unfold predMinimize. destruct k; stab. Qed.

Lemma Minimize_inv k : stable (@holds W k) Minimize.
Proof.
  unfold Minimize.
  apply (stable_bind (@holds W k)); [apply (stable_get (@holds W k))|intros c].
  apply (stable_bind (@holds W k)).
  - destruct k; stab.
  - intros st. apply runStrategy_inv. apply predMinimize_inv.
Qed.

#[local] Hint Resolve bisectSearch_inv Minimize_inv : stable.

Lemma minimizeConfig_inv k : stable (@holds W k) minimizeConfig.
Proof. unfold minimizeConfig. destruct k; stab. Qed.

Lemma identifyRewrittenCommit_inv k : stable (@holds W k) identifyRewrittenCommit.
Proof. unfold identifyRewrittenCommit. destruct k; stab. Qed.

#[local] Hint Resolve minimizeConfig_inv identifyRewrittenCommit_inv : stable.

Lemma bisectAfterGate_inv k p : stable (@holds W k) (bisectAfterGate p).
Proof. unfold bisectAfterGate. destruct k; stab. Qed.

Lemma bisectSetup_inv k : stable (@holds W k) bisectSetup.
Proof. unfold bisectSetup. destruct k; stab. Qed.

#[local] Hint Resolve bisectAfterGate_inv bisectSetup_inv : stable.

Lemma bisect_inv k : stable (@holds W k) bisect.
Proof. unfold bisect. destruct k; stab. Qed.

Lemma iter_wrap (k : nat) :
  Z.of_nat k < 2 ^ 63 -> Nat.iter k (fun n => wrap_int (n + 1)) 0 = Z.of_nat k.
Proof.
  induction k as [|k IH]; [reflexivity|]. intros Hk. rewrite Nat.iter_succ.
  rewrite IH by lia. unfold wrap_int. rewrite Z.mod_small; lia.
Qed.

(** C6. A test invocation that reaches the trials (the budget is not
    exhausted and the build succeeds) calls the test runner once, with
    MaxNumTests/2 trials, doubled exactly when the flaky flag is set or
    numTests is zero: 20 trials then, 10 otherwise; and it increments
    numTests.  env.test and the whole of env.bisect increment numTests once
    for each call of the test runner and not otherwise, so that, counted
    from a state in which numTests is zero (runImpl creates the session
    with zero), numTests is zero exactly when the test runner has not been
    called yet: for the first test of the session. *)
Theorem C6_trial_count s cur sign s1 :
  timedOut s = false ->
  build s = ((Some cur, sign, None), s1) ->
  (exists n l,
    calls (snd (test s)) =
      l ++ CTest n (rSyz (Repro (cfg s))) (rOpts (Repro (cfg s))) (rC (Repro (cfg s)))
        :: calls s1
    /\ Forall tracerCall l
    /\ MaxNumTests = 20
    /\ n = MaxNumTests / 2 * (if flaky s || (numTests s =? 0) then 2 else 1)
    /\ (flaky s = true \/ numTests s = 0 -> n = 20)
    /\ (flaky s = false /\ numTests s <> 0 -> n = 10)
    /\ numTests (snd (test s)) = wrap_int (numTests s + 1))
  /\ (forall s0, testsCounted s0 (snd (test s0)) /\ testsCounted s0 (snd (bisect s0)))
  /\ (forall t s0, numTests (newEnv t s0) = 0)
  /\ (forall s0, numTests s0 = 0 -> testsCounted s0 s ->
        exists l, calls s = l ++ calls s0
                  /\ (Z.of_nat (countTests l) < 2 ^ 63 ->
                      (numTests s = 0 <-> countTests l = 0%nat))).
Proof.
  intros Ht Hb. split; [|split; [|split]].
  - destruct (test_calls s cur sign s1 Ht Hb) as (l & Hl & F & Hn).
    exists (trialCount (flaky s) (numTests s)), l.
    split; [done|]. split; [done|]. split; [done|]. unfold trialCount.
    split; [by destruct (flaky s || (numTests s =? 0))|].
    split; [|split; [|done]].
    + intros [->| ->]; [done|]. by rewrite orb_true_r.
    + intros [-> Hz]. apply Z.eqb_neq in Hz. by rewrite Hz.
  - intros s0. split; [apply (test_inv TestsCounted)|apply (bisect_inv TestsCounted)].
  - reflexivity.
  - intros s0 H0 (l & Hl & Hn). exists l. split; [done|]. intros Hk.
    rewrite Hn, H0, iter_wrap by done. lia.
Qed.

(** C8, amended.  A test invocation that reaches the tally with the trials
    [rs], not more than half of them infra failures: if a trial crashed, the
    verdict is bad and the report of the last crash is remembered; the flaky
    flag is set afterwards exactly when it was set before or a trial crashed
    and the crashes are fewer than the clean runs; and a flag that is set
    stays set through env.test and through the whole of env.bisect. *)
Theorem C8_crash_and_flaky s cur rs :
  runsTrials s cur rs ->
  2 * countIf isInfra rs <= Z.of_nat (length rs) ->
  (0 < countIf isCrash rs ->
     exists p rp,
       fst (test s) = Ok p /\ verdict (heap (snd (test s)) !!! p) = BisectBad
       /\ rep (heap (snd (test s)) !!! p) = Some rp /\ last (crashReports rs) = Some rp)
  /\ (flaky (snd (test s)) = true <->
      flaky s = true \/ (0 < countIf isCrash rs /\ countIf isCrash rs < countIf isClean rs))
  /\ (forall s0, flaky s0 = true ->
        flaky (snd (test s0)) = true /\ flaky (snd (bisect s0)) = true).
Proof.
  intros Hr Hle. apply runsTrials_inv in Hr as (Ht & sign & s1 & w2 & Hb & Hr).
  destruct (test_trials s cur sign s1 rs w2 Ht Hb Hr) as (Hfst & Hheap & Hfl & _).
  pose proof (tooMany_spec (countIf isInfra rs) (Z.of_nat (length rs))) as Hm.
  destruct (countIf isInfra rs >? _).
  { exfalso. assert (Z.of_nat (length rs) < 2 * countIf isInfra rs); [|lia].
    apply Hm; [lia|done]. }
  clear Hm. split; [|split].
  - intros Hc. destruct (crashReports_last rs Hc) as [rp Hrp].
    exists (length (heap s)), rp. split; [done|].
    rewrite Hheap, list_lookup_total_middle by done. cbn [verdict rep].
    unfold specVerdict, specRep. apply Z.ltb_lt in Hc. rewrite Hc. cbn [orb]. done.
  - rewrite Hfl. cbn [negb andb]. rewrite orb_true_iff, andb_true_iff, !Z.ltb_lt. tauto.
  - intros s0 H0. split; [by apply (test_inv FlakyKept)|by apply (bisect_inv FlakyKept)].
Qed.

(** *** The reproducibility gate *)

(** C3. After the setup of env.bisect, when the test at the starting commit
    returns a result: with any verdict other than bad, env.bisect stops
    there with the error that the crash was not reproduced and no Result,
    and the session that called it returns this error and no Result; with
    the verdict bad it goes on (to the minimization and the search); so a
    Result is returned only after a bad verdict. *)
Theorem C3_reproducibility_gate s0 s p :
  bisectSetup s0 = (None, s) ->
  fst (test s) = Ok p ->
  (verdict (heap (snd (test s)) !!! p) ≠ BisectBad ->
     bisect s0 =
       ((None, Some (Errorf "the crash wasn't reproduced on the original commit")),
        snd (test s))
     /\ forall hd s00, s0 = sessionStart hd s00 ->
          fst (runImplBody hd s00) =
            (None, Some (Errorf "the crash wasn't reproduced on the original commit")))
  /\ (verdict (heap (snd (test s)) !!! p) = BisectBad ->
        bisect s0 = bisectAfterGate p (snd (test s)))
  /\ (forall res, fst (fst (bisect s0)) = Some res ->
        verdict (heap (snd (test s)) !!! p) = BisectBad).
Proof.
  intros Hs Ht. pose proof (bisect_gate s0 s Hs) as Hg. rewrite Ht in Hg.
  destruct (decide (verdict (heap (snd (test s)) !!! p) = BisectBad)) as [Hv|Hv].
  - rewrite bool_decide_eq_false_2 in Hg by (intros Hn; by apply Hn).
    repeat split; done.
  - rewrite bool_decide_eq_true_2 in Hg by done. rewrite Hg.
    split; [intros _; split; [done|]|split; [done|]].
    + intros hd s00 ->. apply runImplBody_error. by rewrite Hg.
    + intros res [=].
Qed.

(** *** The terminus of the range finder *)

Lemma bisectSearch_terminal testRes s r s1 :
  (if Fix (cfg s) then commitRangeForFix else commitRangeForCause) s = (r, s1) ->
  rgErr r = None ->
  forall v, validateCommitRange (rgBad r) (rgGood r) (rgResults r) s1 = v ->
  (fst (fst v) ≠ None \/ snd (fst v) ≠ None) ->
  bisectSearch testRes s = v.
Proof.
  intros Hr He v Hv Hset. unfold bisectSearch, commitRange.
  exec. rewrite Hr. exec. rewrite He. exec. rewrite Hv. cbn [rgErr].
  destruct v as [[[res|] [err|]] s2]; cbn [fst snd] in *; try reflexivity.
  destruct Hset; done.
Qed.

(** C7. When the last result of the range finder has the verdict skip: in
    fix mode validateCommitRange returns, without an error, a Result with
    no commits, the bad endpoint as Commit and the report of that result,
    and env.bisect's search returns it; in cause mode validateCommitRange
    returns the error that the oldest tested release had kernel build, boot
    or test errors, and the search returns this error and no Result. *)
Theorem C7_skip_at_terminus s bad' good' rs p :
  last rs = Some p ->
  verdict (heap s !!! p) = BisectSkip ->
  (Fix (cfg s) = true ->
     fst (validateCommitRange bad' good' rs s) =
       (Some (mkResult [] (rep (heap s !!! p)) bad' (kernelConfig s) false false), None)
     /\ forall testRes s0 r,
          (if Fix (cfg s0) then commitRangeForFix else commitRangeForCause) s0 = (r, s) ->
          rgErr r = None -> rgBad r = bad' -> rgGood r = good' -> rgResults r = rs ->
          fst (bisectSearch testRes s0) =
            (Some (mkResult [] (rep (heap s !!! p)) bad' (kernelConfig s) false false), None))
  /\ (Fix (cfg s) = false ->
     fst (validateCommitRange bad' good' rs s) =
       (None, Some (Errorf "oldest tested release had kernel build, boot or test errors"))
     /\ forall testRes s0 r,
          (if Fix (cfg s0) then commitRangeForFix else commitRangeForCause) s0 = (r, s) ->
          rgErr r = None -> rgBad r = bad' -> rgGood r = good' -> rgResults r = rs ->
          fst (bisectSearch testRes s0) =
            (None,
             Some (Errorf "oldest tested release had kernel build, boot or test errors"))).
Proof.
  intros Hl Hv.
  assert (Hval : fst (validateCommitRange bad' good' rs s) =
            if Fix (cfg s)
            then (Some (mkResult [] (rep (heap s !!! p)) bad' (kernelConfig s) false false),
                  None)
            else (None, Some (Errorf
                    "oldest tested release had kernel build, boot or test errors"))).
  { unfold validateCommitRange. rewrite Hl. exec. rewrite Hv.
    rewrite bool_decide_eq_false_2 by done. rewrite bool_decide_eq_true_2 by done.
    exec. by destruct (Fix (cfg s)). }
  split; intros Hfix; rewrite Hfix in Hval; (split; [exact Hval|]);
    intros testRes s0 r Hr He <- <- <-;
    rewrite (bisectSearch_terminal testRes s0 r s Hr He _ eq_refl); rewrite ?Hval;
    first [reflexivity | right; done | left; done].
Qed.

(** *** Commit resolution *)

(** C9. When the checkout of the branch succeeds and the stored hash is
    reachable, identifyRewrittenCommit returns the stored hash and no
    error, whatever the commit title is, and it has made two calls:
    CheckoutBranch and Contains (GetCommitByTitle is not called). *)
Theorem C9_reachable_hash_unchanged s c0 w1 w2 :
  repo_CheckoutBranch (kRepo (Kernel (cfg s))) (kBranch (Kernel (cfg s))) (world s)
    = (Ok c0, w1) ->
  repo_Contains (kCommit (Kernel (cfg s))) w1 = (Ok true, w2) ->
  identifyRewrittenCommit s =
    ((kCommit (Kernel (cfg s)), None),
     set_calls (CContains (kCommit (Kernel (cfg s)))
                :: CCheckoutBranch (kRepo (Kernel (cfg s))) (kBranch (Kernel (cfg s)))
                :: calls s)
       (set_world w2 s)).
Proof.
  intros Hc Hr. unfold identifyRewrittenCommit. exec. rewrite Hc. exec.
  rewrite Hr. exec. reflexivity.
Qed.

(** *** Run *)

Lemma checkConfig_state s : snd (checkConfig s) = s.
Proof.
  unfold checkConfig. exec.
  repeat match goal with |- context [if ?b then _ else _] => destruct b end; reflexivity.
Qed.

Lemma checkConfig_error s e : fst (checkConfig s) = Some e -> exists msg, e = Errorf msg.
Proof.
  unfold checkConfig. exec.
  repeat match goal with |- context [if ?b then _ else _] => destruct b end;
    cbn [fst]; intros [= <-]; eauto.
Qed.

(** C10. Run returns the error of checkConfig (built with fmt.Errorf), of
    vcs.NewRepo and of instance.NewEnv as it is; the error of the following
    CheckoutBranch is returned as an InfraError that carries its text. *)
Theorem C10_checkout_failure_is_infra s :
  let mgr := Manager (set_cover false (cfg s)) in
  let k := Kernel (cfg s) in
  (forall e, fst (checkConfig s) = Some e ->
     fst (Run s) = (None, Some e) /\ exists msg, e = Errorf msg)
  /\ (forall e w1,
        fst (checkConfig s) = None ->
        vcs_NewRepo (TargetOS mgr) (mType mgr) (KernelSrc mgr) (world s) = (Some e, w1) ->
        fst (Run s) = (None, Some e))
  /\ (forall e w1 w2,
        fst (checkConfig s) = None ->
        vcs_NewRepo (TargetOS mgr) (mType mgr) (KernelSrc mgr) (world s) = (None, w1) ->
        instance_NewEnv mgr w1 = (Some e, w2) ->
        fst (Run s) = (None, Some e))
  /\ (forall err w1 w2 w3,
        fst (checkConfig s) = None ->
        vcs_NewRepo (TargetOS mgr) (mType mgr) (KernelSrc mgr) (world s) = (None, w1) ->
        instance_NewEnv mgr w1 = (None, w2) ->
        repo_CheckoutBranch (kRepo k) (kBranch k) w2 = (Err err, w3) ->
        fst (Run s) = (None, Some (InfraError (Error err)))).
Proof.
  intros mgr k. subst mgr k. split; [|split; [|split]].
  - intros e He. split; [|by apply (checkConfig_error s)].
    unfold Run. rewrite bind_eq, He. reflexivity.
  - intros e w1 Hc Hn. unfold Run. rewrite bind_eq, Hc, checkConfig_state. exec.
    cbn [set_cover Manager] in *. rewrite Hn. reflexivity.
  - intros e w1 w2 Hc Hn He. unfold Run. rewrite bind_eq, Hc, checkConfig_state. exec.
    cbn [set_cover Manager] in *. rewrite Hn. exec. rewrite He. reflexivity.
  - intros err w1 w2 w3 Hc Hn He Hb. unfold Run. rewrite bind_eq, Hc, checkConfig_state.
    exec. cbn [set_cover Manager Kernel] in *. rewrite Hn. exec. rewrite He. exec.
    rewrite Hb. exec. by rewrite Sprintf_v.
Qed.

(** *** The range finder in cause mode *)

Lemma lastBadRevision_cons start c v outs :
  lastBadRevision start ((c, v) :: outs)
  = lastBadRevision (if bool_decide (v = BisectBad) then Some c else start) outs.
Proof.
  unfold lastBadRevision. rewrite filter_cons. cbn [snd].
  destruct (decide (v = BisectBad)) as [->|Hv].
  - rewrite bool_decide_eq_true_2 by done. rewrite last_cons.
    by destruct (last (filter _ outs)).
  - by rewrite bool_decide_eq_false_2 by done.
Qed.

Lemma firstGoodTag_none outs : Forall notGood outs -> firstGoodTag outs = None.
Proof.
  intros Hf. unfold firstGoodTag.
  assert (Hn : list_find (fun o => snd o = BisectGood) outs = None)
    by (by apply list_find_None).
  by rewrite Hn.
Qed.

Lemma firstGoodTag_last pre c :
  Forall notGood pre -> firstGoodTag (pre ++ [(c, BisectGood)]) = Some c.
Proof.
  intros Hf. unfold firstGoodTag. rewrite list_find_app_r by (by apply list_find_None).
  cbn. rewrite decide_True by done. reflexivity.
Qed.

Lemma causeLoop_step tag rest lb acc s c p s1 :
  probe tag s = (Ok (c, p), s1) ->
  causeLoop (tag :: rest) lb acc s =
    if bool_decide (verdict (heap s1 !!! p) = BisectGood)
    then (mkRange lb (Some c) (acc ++ [p]) None, s1)
    else causeLoop rest
           (if bool_decide (verdict (heap s1 !!! p) = BisectBad) then Some c else lb)
           (acc ++ [p]) s1.
Proof.
  unfold probe. cbn [causeLoop]. exec.
  destruct (repo_SwitchCommit tag (world s)) as [[c'|e] w'] eqn:Hsw; exec; [|done].
  match goal with |- context [test ?s0] => destruct (test s0) as [[p'|e] s'] eqn:Ht end;
    exec; [|done].
  intros [= -> -> ->]. by destruct (bool_decide _).
Qed.

Lemma causeLoop_walk s tested outs ps s2 :
  walked s tested outs ps s2 ->
  forall rest lb acc,
    (Forall notGood outs ->
       causeLoop (tested ++ rest) lb acc s
       = causeLoop rest (lastBadRevision lb outs) (acc ++ ps) s2)
    /\ (forall pre c, outs = pre ++ [(c, BisectGood)] -> Forall notGood pre ->
          causeLoop (tested ++ rest) lb acc s
          = (mkRange (lastBadRevision lb outs) (Some c) (acc ++ ps) None, s2)).
Proof.
  induction 1 as [s|s tag tags c p s1 outs ps s2 Hp Hw IH]; intros rest lb acc.
  - split.
    + intros _. by rewrite app_nil_r.
    + intros [|? ?] c [=].
  - cbn [app]. rewrite (causeLoop_step tag _ lb acc s c p s1 Hp).
    rewrite lastBadRevision_cons.
    replace (acc ++ p :: ps) with ((acc ++ [p]) ++ ps) by (by rewrite <- app_assoc).
    split.
    + intros Hf. inversion Hf as [|? ? Hn Hf']; subst.
      rewrite bool_decide_eq_false_2 by exact Hn. by apply IH.
    + intros pre c' Ho Hf. destruct pre as [|[c1 v1] pre].
      * cbn in Ho. injection Ho as Hc Hv Ho'. subst c' outs.
        inversion Hw; subst. rewrite Hv.
        rewrite bool_decide_eq_true_2 by done. by rewrite app_nil_r.
      * cbn in Ho. injection Ho as Hc Hv Ho'. subst c1 v1 outs.
        inversion Hf as [|? ? Hn Hf']; subst. cbn in Hn. unfold notGood in Hn. cbn in Hn.
        rewrite bool_decide_eq_false_2 by exact Hn. by eapply IH.
Qed.

Lemma walked_run s tag tags c p v outs ps s2 :
  fst (probe tag s) = Ok (c, p) ->
  verdict (heap (snd (probe tag s)) !!! p) = v ->
  walked (snd (probe tag s)) tags outs ps s2 ->
  walked s (tag :: tags) ((c, v) :: outs) (p :: ps) s2.
Proof.
  intros H1 <- H3. eapply walked_cons; [|exact H3].
  destruct (probe tag s); cbn in *; congruence.
Qed.


(** *** The predicate of the bisecter *)


(** *** The active kernel config *)

Lemma identifyRewrittenCommit_cfg : stable (@cfgKept W) identifyRewrittenCommit.
Proof. unfold identifyRewrittenCommit. stab. Qed.

Lemma bisectSetup_config s0 s :
  bisectSetup s0 = (None, s) ->
  kernelConfig s = kConfig (Kernel (cfg s0))
  /\ kConfig (Kernel (cfg s)) = kConfig (Kernel (cfg s0))
  /\ kBaselineConfig (Kernel (cfg s)) = kBaselineConfig (Kernel (cfg s0)).
Proof.
  unfold bisectSetup. exec.
  destruct (bisecter_PrepareBisect (world s0)) as [[e|] w1]; exec; [discriminate|].
  destruct (build_Clean _ _ _ _ w1) as [[e|] w2]; exec; [discriminate|].
  destruct (inst_BuildSyzkaller _ _ w2) as [[x|e] w3]; exec; [|discriminate].
  match goal with |- context [identifyRewrittenCommit ?s3] =>
    pose proof (identifyRewrittenCommit_cfg s3) as Hc;
    destruct (identifyRewrittenCommit s3) as [[h [e|]] s4]
  end; exec; [discriminate|].
  unfold cfgKept in Hc. cbn [snd cfg] in Hc.
  destruct (repo_SwitchCommit _ (world s4)) as [[c|e] w5]; exec; [|discriminate].
  intros [= <-]. cbn. rewrite Hc. done.
Qed.

Lemma minimizeConfig_adopts s minConfig s1 :
  Minimize (set_testResults ∅ s) = (Ok minConfig, s1) ->
  minimizeConfig s =
    (Ok (testResults s1 !! hash_Hash minConfig), set_kernelConfig minConfig s1).
Proof.
  intros Hm. unfold minimizeConfig. exec.
  change (mkState (world s) (cfg s) (commit s) (head s) (kernelConfig s) (numTests s)
            (startTime s) (buildTime s) (testTime s) (flaky s) (results s) ∅ (heap s)
            (calls s)) with (set_testResults ∅ s).
  rewrite Hm. exec. reflexivity.
Qed.

(** The Result of the search carries the active kernel config. *)
Lemma validateCommitRange_config b g rs s res :
  fst (fst (validateCommitRange b g rs s)) = Some res -> resConfig res = kernelConfig s.
Proof.
  unfold validateCommitRange. destruct (last rs) as [p|]; exec; [|discriminate].
  destruct (bool_decide (verdict (heap s !!! p) = BisectBad)); exec.
  { by intros [= <-]. }
  destruct (bool_decide (verdict (heap s !!! p) = BisectSkip)); exec; [|discriminate].
  destruct (Fix (cfg s)); exec; [|discriminate]. by intros [= <-].
Qed.

Lemma classify_config cs s res :
  fst (fst (classify cs s)) = Some res -> resConfig res = kernelConfig s.
Proof.
  unfold classify. exec. destruct cs as [|c [|c' cs]]; exec; try (by intros [= <-]).
  destruct (results s !! Hash c); exec; [|intros [=]]. by intros [= <-].
Qed.

Lemma bisectSearch_config p s res :
  fst (fst (bisectSearch p s)) = Some res ->
  resConfig res = kernelConfig (snd (bisectSearch p s)).
Proof.
  pose proof (bisectSearch_kept p s) as (_ & -> & _).
  unfold bisectSearch, commitRange. exec.
  pose proof ((if Fix (cfg s) as b
               return stable (@sessionKept W)
                        (if b then commitRangeForFix else commitRangeForCause)
               then commitRangeForFix_kept else commitRangeForCause_kept) s)
    as (_ & Hk1 & _).
  destruct ((if Fix (cfg s) then commitRangeForFix else commitRangeForCause) s)
    as [r s1]. cbn [fst snd] in *.
  destruct (rgErr r) as [e|] eqn:He; exec; cbn [rgErr]; rewrite ?He; [discriminate|].
  pose proof (validateCommitRange_config (rgBad r) (rgGood r) (rgResults r) s1) as Hv.
  pose proof (validateCommitRange_kept (rgBad r) (rgGood r) (rgResults r) s1)
    as (_ & Hk2 & _).
  destruct (validateCommitRange (rgBad r) (rgGood r) (rgResults r) s1) as [[fr fe] s2].
  cbn [fst snd] in *.
  destruct fr as [fr|]; [intros [= <-]; rewrite (Hv fr eq_refl); done|].
  destruct fe as [fe|]; [discriminate|]. exec. cbn [rgBad rgGood rgResults rgErr].
  match goal with |- context [storeResults ?l ?s3] =>
    pose proof (storeResults_kept l s3) as (_ & Hk3 & _);
    destruct (storeResults l s3) as [[e|] s4]
  end; cbn [fst snd] in *; [discriminate|].
  destruct (rgBad r) as [bd|], (rgGood r) as [gd|]; exec; try discriminate.
  pose proof (Bisect_kept (Hash bd) (Hash gd) s4) as (_ & Hk4 & _).
  destruct (Bisect (Hash bd) (Hash gd) s4) as [[cs|e] s5]; cbn [fst snd] in *; exec;
    [|discriminate].
  intros Hc. rewrite (classify_config cs s5 res Hc). cbn in Hk3. congruence.
Qed.

Lemma bisectAfterGate_config p s res :
  fst (fst (bisectAfterGate p s)) = Some res ->
  resConfig res = kernelConfig (snd (bisectAfterGate p s)).
Proof.
  unfold bisectAfterGate. exec. destruct (decide _); [apply bisectSearch_config|].
  destruct (minimizeConfig s) as [[[q|]|e] s1]; exec;
    first [apply bisectSearch_config | discriminate].
Qed.


(** ** Further properties of the driver *)

(** *** One step of the monad at a time *)

Lemma bind_ret {A B} (a : A) (k : A -> M B) s : bind (ret a) k s = k a s.
Proof. reflexivity. Qed.

Lemma bind_get {A B} (f : state -> A) (k : A -> M B) s : bind (get f) k s = k (f s) s.
Proof. reflexivity. Qed.

Lemma bind_modify {B} (f : state -> state) (k : unit -> M B) s :
  bind (modify f) k s = k tt (f s).
Proof. reflexivity. Qed.

Lemma bind_call {A B} c (f : W -> A * W) (k : A -> M B) s :
  bind (call c f) k s =
    k (fst (f (world s))) (set_calls (c :: calls s) (set_world (snd (f (world s))) s)).
Proof. reflexivity. Qed.

Lemma bind_log {B} fm a (k : unit -> M B) s :
  bind (log fm a) k s = k tt (set_calls (CLog fm a :: calls s) s).
Proof. reflexivity. Qed.

Lemma bind_now {B} (k : Z -> M B) s : bind now k s = k (time_Now (world s)) s.
Proof. reflexivity. Qed.

Lemma bind_since {B} t (k : Z -> M B) s : bind (since t) k s = k (time_Now (world s) - t) s.
Proof. reflexivity. Qed.

(** The projections of an updated state. *)
Ltac proj :=
  cbn [fst snd world cfg commit head kernelConfig numTests startTime buildTime testTime
       flaky results testResults heap calls
       set_world set_cfg set_commit set_head set_kernelConfig set_numTests set_buildTime
       set_testTime set_flaky set_results set_testResults set_heap set_calls].

(** Symbolic execution by rewriting, one primitive step at a time. *)
Ltac step :=
  first [ rewrite bind_ret | rewrite bind_get | rewrite bind_modify | rewrite bind_call
        | rewrite bind_log | rewrite bind_now | rewrite bind_since ]; cbv zeta; proj.

Ltac steps := repeat step.

(** *** The tally of env.processResults *)

Lemma countIf_classes rs :
  countIf isCrash rs + countIf isClean rs + countIf isInfra rs + countIf isKernelFailure rs
  = Z.of_nat (length rs).
Proof.
  induction rs as [|r rs IH]; [reflexivity|].
  rewrite (countIf_cons isCrash r rs), (countIf_cons isClean r rs),
    (countIf_cons isInfra r rs), (countIf_cons isKernelFailure r rs).
  cbn [length]. rewrite Nat2Z.inj_succ.
  assert (countIf isCrash [r] + countIf isClean [r] + countIf isInfra [r]
          + countIf isKernelFailure [r] = 1); [|unfold countIf in *; lia].
  by destruct r as [|[] ? ? ? ?| |].
Qed.

Lemma crashReports_none rs : countIf isCrash rs = 0 -> crashReports rs = [].
Proof.
  induction rs as [|r rs IH]; [done|]. rewrite (countIf_cons isCrash r rs).
  pose proof (countIf_nonneg isCrash rs). intros Hz.
  destruct r; unfold crashReports; cbn;
    first [ apply IH; change (0 + countIf isCrash rs = 0) in Hz; lia
          | change (1 + countIf isCrash rs = 0) in Hz; lia ].
Qed.

(** X1. env.processResults counts every trial in at most one class: a
    crash as bad, a nil error as good, a test error flagged infra or an error
    of another type as infra, a boot or basic test failure in none; the
    representative report is the report of the last crash; and it calls
    nothing but the tracer. *)
Theorem X1_processResults_tally cur rs s :
  let t := fst (processResults cur rs s) in
  bad t = countIf isCrash rs /\ good t = countIf isClean rs /\ infra t = countIf isInfra rs
  /\ bad t + good t + infra t = Z.of_nat (length rs) - countIf isKernelFailure rs
  /\ trep t = last (crashReports rs)
  /\ (bad t = 0 <-> trep t = None)
  /\ exists l, snd (processResults cur rs s) = set_calls (l ++ calls s) s
               /\ Forall tracerCall l.
Proof.
  destruct (processResults_spec cur rs s) as (vs & l & E & F). rewrite E.
  cbn [fst snd bad good infra trep]. pose proof (countIf_classes rs).
  repeat split; try lia; eauto.
  - intros Hz. by rewrite crashReports_none.
  - intros Hn. pose proof (countIf_nonneg isCrash rs).
    destruct (decide (countIf isCrash rs = 0)) as [|Hp]; [done|].
    destruct (crashReports_last rs) as [rp Hrp]; [lia|congruence].
Qed.

Lemma processLoop_saves cur rs : forall i t s,
  List.filter isSaveFile (calls (snd (processLoop cur i rs t s)))
  = rev (debugFiles (Hash cur) i rs) ++ List.filter isSaveFile (calls s).
Proof.
  induction rs as [|r rs IH]; intros i t s; [reflexivity|].
  cbn [processLoop debugFiles]. rewrite bind_eq, IH, rev_app_distr, <- app_assoc. f_equal.
  destruct r as [|inf boot out [rp|] txt|rp txt|txt]; reflexivity.
Qed.

Lemma logRuns_saves vs : forall i s,
  List.filter isSaveFile (calls (snd (logRuns i vs s))) = List.filter isSaveFile (calls s).
Proof.
  induction vs as [|v vs IH]; intros i s; [reflexivity|].
  cbn [logRuns]. rewrite bind_eq, IH. reflexivity.
Qed.

(** X2. env.processResults saves one debug file for each trial that ended
    in a test error or in a crash, in the order of the trials, and none for
    a clean trial or an error of another type.  The file is named by the
    hash of the revision and the index of the trial; it holds the report of
    the crash, or the raw output when the report is empty, and for a test
    error the raw output of its report, or its own output when it has no
    report. *)
Theorem X2_processResults_debug_files cur rs s :
  List.filter isSaveFile (calls (snd (processResults cur rs s)))
  = rev (debugFiles (Hash cur) 0 rs) ++ List.filter isSaveFile (calls s).
Proof.
  unfold processResults. rewrite bind_eq, bind_eq. cbn [snd ret].
  rewrite <- processLoop_saves with (t := mkTally 0 0 0 None []).
  destruct (decide _); [reflexivity|apply logRuns_saves].
Qed.

(** *** env.test on its other paths *)

Lemma timedOut_true s :
  Timeout (cfg s) <> 0 -> Timeout (cfg s) < time_Now (world s) - startTime s ->
  timedOut s = true.
Proof.
  intros Hz Hlt. unfold timedOut. apply andb_true_iff. split.
  - apply negb_true_iff. by apply Z.eqb_neq.
  - rewrite Z.gtb_ltb. by apply Z.ltb_lt.
Qed.

(** X3. When a time budget is set (Timeout is not zero) and more time than
    the budget has passed since the start of the session, env.test returns
    the error that the bisection is taking too long and does nothing else:
    no build, no test, no call; the predicate of the bisecter hands the
    error on and records nothing.  With Timeout zero there is no budget. *)
Theorem X3_test_timeout s :
  Timeout (cfg s) <> 0 ->
  Timeout (cfg s) < time_Now (world s) - startTime s ->
  let e := Errorf (Sprintf "bisection is taking too long (>%v), aborting"
                     [fmt_Duration (Timeout (cfg s))]) in
  test s = (Err e, s)
  /\ pred tt s = ((BisectBad, Some e), s)
  /\ forall s0, Timeout (cfg s0) = 0 -> timedOut s0 = false.
Proof.
  intros Hz Hlt e. pose proof (timedOut_true s Hz Hlt) as Ht.
  assert (Hte : test s = (Err e, s)).
  { unfold test. exec. unfold timedOut in Ht. rewrite Ht. reflexivity. }
  split; [exact Hte|]. split.
  - unfold pred. rewrite bind_eq, Hte. reflexivity.
  - intros s0 H0. unfold timedOut. by rewrite H0.
Qed.

(** X4. A failed build is recoverable: when the build of the revision
    [cur] fails, env.test returns, without an error, a result for [cur]
    with the verdict skip and a report whose title begins with
    failed building and the hash and ends with the title of a verbose
    error, the report of a kernel error, or the text of any other error.
    After the build only the tracer is called (the test runner is not), and
    numTests and the flaky flag are unchanged. *)
Theorem X4_test_build_failure s cur sign err s1 :
  timedOut s = false ->
  build s = ((Some cur, sign, Some err), s1) ->
  let detail := match err with
                | VerboseError title _ _ => title
                | KernelError report _ _ => string_of_bytes report
                | _ => Error err
                end in
  let title := Sprintf "failed building %v: " [Hash cur] +:+ detail in
  fst (test s) = Ok (length (heap s))
  /\ heap (snd (test s)) =
       heap s ++ [mkTestResult BisectSkip (Some cur) (Some (mkReport title [] [])) sign]
  /\ numTests (snd (test s)) = numTests s
  /\ flaky (snd (test s)) = flaky s
  /\ exists l, calls (snd (test s)) = l ++ calls s1 /\ Forall tracerCall l.
Proof.
  intros Ht Hb detail title. subst detail title.
  pose proof (build_frame s) as Hf. rewrite Hb in Hf. cbn [snd] in Hf.
  destruct Hf as (Hcfg & _ & _ & _ & Hnt & _ & _ & Hfl & _ & _ & Hheap).
  unfold test. exec. unfold timedOut in Ht. rewrite Ht, Hb. exec.
  destruct err; exec; rewrite Hheap, alter_last; cbn [verdict com rep kernelSign];
    (split; [done|]; split; [done|]; split; [done|]; split; [done|]);
    (eexists [_; _]; split; [reflexivity|by repeat constructor]).
Qed.

(** X5. When the head of the repository cannot be read, env.build returns
    no commit, and env.test returns an error (there is no revision to
    skip): the error couldn't get repo HEAD with the text of the error of
    HeadCommit.  Nothing is built or tested. *)
Theorem X5_test_no_head s err w1 :
  timedOut s = false ->
  repo_HeadCommit (world s) = (Err err, w1) ->
  fst (build s) = (None, "", Some err)
  /\ fst (test s) = Err (Errorf (Sprintf "couldn't get repo HEAD: %v" [Error err]))
  /\ numTests (snd (test s)) = numTests s
  /\ calls (snd (test s)) = CHeadCommit :: calls s.
Proof.
  intros Ht Hh.
  assert (Hb : build s = ((None, "", Some err), set_calls (CHeadCommit :: calls s)
                                                   (set_world w1 s))).
  { unfold build. exec. rewrite Hh. reflexivity. }
  split; [by rewrite Hb|].
  unfold test. exec. unfold timedOut in Ht. rewrite Ht, Hb. exec. done.
Qed.

(** X6. When the build succeeds and the test runner itself fails, env.test
    returns an InfraError whose title is repro testing failure and the text
    of the error; the invocation is counted in numTests, the message is
    logged (as the format of the log call), and the flaky flag is
    unchanged. *)
Theorem X6_test_runner_failure s cur sign s1 err w2 :
  timedOut s = false ->
  build s = ((Some cur, sign, None), s1) ->
  inst_Test (trialCount (flaky s) (numTests s)) (rSyz (Repro (cfg s)))
    (rOpts (Repro (cfg s))) (rC (Repro (cfg s))) (world s1) = (Err err, w2) ->
  let problem := Sprintf "repro testing failure: %v" [Error err] in
  fst (test s) = Err (InfraError problem)
  /\ numTests (snd (test s)) = wrap_int (numTests s + 1)
  /\ flaky (snd (test s)) = flaky s
  /\ calls (snd (test s)) =
       CLog problem []
       :: CTest (trialCount (flaky s) (numTests s)) (rSyz (Repro (cfg s)))
            (rOpts (Repro (cfg s))) (rC (Repro (cfg s)))
       :: calls s1.
Proof.
  intros Ht Hb Hr problem. subst problem.
  pose proof (build_frame s) as Hf. rewrite Hb in Hf. cbn [snd] in Hf.
  destruct Hf as (Hcfg & _ & _ & _ & Hnt & _ & _ & Hfl & _).
  unfold test. exec. unfold timedOut in Ht. rewrite Ht, Hb. exec.
  rewrite Hfl, Hnt, trialCount_code, Hr. exec. done.
Qed.

(** X7. A test invocation that reaches the tally with no crash among the
    trials and not more than half of them infra failures: with a clean
    trial the verdict is good and the result carries no report; with none
    (every trial failed to boot, failed the basic test or failed with an
    infra error) the verdict is skip and the report is the synthetic
    failed testing reproducer on the hash.  The flaky flag is unchanged. *)
Theorem X7_test_no_crash s cur rs :
  runsTrials s cur rs ->
  2 * countIf isInfra rs <= Z.of_nat (length rs) ->
  countIf isCrash rs = 0 ->
  let r := heap (snd (test s)) !!! length (heap s) in
  fst (test s) = Ok (length (heap s))
  /\ com r = Some cur
  /\ (0 < countIf isClean rs -> verdict r = BisectGood /\ rep r = None)
  /\ (countIf isClean rs = 0 ->
        verdict r = BisectSkip
        /\ rep r = Some (mkReport (Sprintf "failed testing reproducer on %v" [Hash cur])
                           [] []))
  /\ flaky (snd (test s)) = flaky s.
Proof.
  intros Hr Hle Hc r. subst r.
  apply runsTrials_inv in Hr as (Ht & sign & s1 & w2 & Hb & Hr).
  destruct (test_trials s cur sign s1 rs w2 Ht Hb Hr) as (Hfst & Hheap & Hfl & _).
  pose proof (tooMany_spec (countIf isInfra rs) (Z.of_nat (length rs))) as Hm.
  destruct (countIf isInfra rs >? _).
  { exfalso. assert (Z.of_nat (length rs) < 2 * countIf isInfra rs); [|lia].
    apply Hm; [lia|done]. }
  rewrite Hheap, list_lookup_total_middle by done. cbn [verdict com rep].
  unfold specVerdict, specRep. rewrite Hc, (crashReports_none rs Hc). cbn [Z.ltb Z.compare orb].
  split; [done|]. split; [done|]. split; [|split].
  - intros Hg. apply Z.ltb_lt in Hg. by rewrite Hg.
  - intros ->. done.
  - rewrite Hfl, Hc. cbn. by destruct (flaky s).
Qed.

(** *** The calls that a function makes *)

#[local] Instance footprint_preorder a : PreOrder (@footprint W a).
Proof.
  split.
  - intros s. exists []. split; [reflexivity|constructor].
  - intros s1 s2 s3 (l1 & E1 & F1) (l2 & E2 & F2). exists (l2 ++ l1). split.
    + by rewrite E2, E1, app_assoc.
    + by apply Forall_app.
Qed.

Lemma footprint_weaken (a b : Call -> bool) {A} (m : M A) :
  (forall c, a c = true -> b c = true) ->
  stable (@footprint W a) m -> stable (@footprint W b) m.
Proof.
  intros Hab Hm s. destruct (Hm s) as (l & E & F). exists l. split; [done|].
  eapply Forall_impl; eauto.
Qed.

Lemma processResults_footprint a cur rs :
  (forall c, tracerCall c -> a c = true) ->
  stable (@footprint W a) (processResults cur rs).
Proof.
  intros Ha s. destruct (processResults_spec cur rs s) as (vs & l & E & F). rewrite E.
  exists l. split; [done|]. eapply Forall_impl; eauto.
Qed.

Ltac primf :=
  intros; unfold footprint; cbn;
  first [ exists []; split; [reflexivity|constructor]
        | eexists [_]; split; [reflexivity|by repeat constructor] ].

(** The steps of [stab], with the primitive updates left to [tac]. *)
Ltac stab_with tac :=
  repeat match goal with
  | |- stable ?R (bind _ _) => apply (stable_bind R); [|intros ?]
  | |- stable ?R (ret _) => apply (stable_ret R)
  | |- stable ?R (get _) => apply (stable_get R)
  | |- stable ?R (modify _) => apply (stable_modify R); tac
  | |- stable ?R (call _ _) => apply (stable_call R); tac
  | |- stable ?R (alloc _) => apply (stable_alloc R); tac
  | |- stable _ (log _ _) => unfold log
  | |- stable _ (saveDebugFile _ _ _) => unfold saveDebugFile
  | |- stable _ now => unfold now
  | |- stable _ (since _) => unfold since
  | |- stable _ (load _) => unfold load
  | |- stable _ (store_rep _ _) => unfold store_rep
  | |- stable _ (store_verdict _ _) => unfold store_verdict
  | |- stable _ (match ?x with _ => _ end) => destruct x
  | |- stable _ (let _ := _ in _) => cbv zeta
  | H : stable ?R ?m |- stable ?R ?m => exact H
  | |- stable _ _ => solve [eauto with stable]
  end.

Ltac stabf := stab_with primf.

Lemma build_footprint : stable (@footprint W buildCall) build.
Proof. unfold build. stabf. Qed.

#[local] Hint Extern 1 (stable (footprint _) build) =>
  (apply (footprint_weaken buildCall); [by intros []|apply build_footprint]) : stable.
#[local] Hint Extern 1 (stable (footprint _) (processResults _ _)) =>
  (apply processResults_footprint; by intros []) : stable.

Lemma test_footprint : stable (@footprint W testCall) test.
Proof. unfold test. stabf. Qed.

#[local] Hint Extern 1 (stable (footprint _) test) =>
  (apply (footprint_weaken testCall); [by intros []|apply test_footprint]) : stable.

(** X8. env.test calls only HeadCommit, EnvForCommit, Clean, BuildKernel,
    the test runner and the tracer: it tests the revision that is checked
    out and never checks out another one.  It leaves the configuration, the
    active kernel config, the starting commit, the head and the start time
    unchanged. *)
Theorem X8_test_calls_and_frame s :
  footprint testCall s (snd (test s)) /\ sessionKept s (snd (test s)).
Proof.
  assert (Hf : stable (@footprint W testCall) test) by (unfold test; stabf).
  assert (Hk : stable (@sessionKept W) test) by (unfold test; stab).
  split; [apply Hf|apply Hk].
Qed.

(** *** env.build *)

Lemma build_success s cur w1 be w2 w3 img e w4 :
  let c := cfg s in
  let mgr := Manager c in
  let bk := mkBuildKernelConfig (Compiler be) (Linker c) (Ccache c) (kUserspace (Kernel c))
              (kCmdline (Kernel c)) (kSysctl (Kernel c)) (beKernelConfig be) in
  repo_HeadCommit (world s) = (Ok cur, w1) ->
  bisecter_EnvForCommit (DefaultCompiler c) (CompilerType c) (BinDir c) (Hash cur)
    (kernelConfig s) w1 = (Ok be, w2) ->
  build_Clean (TargetOS mgr) (TargetVMArch mgr) (mType mgr) (KernelSrc mgr) w2 = (None, w3) ->
  inst_BuildKernel bk w3 = ((img, e), w4) ->
  exists l,
    build s =
      ((Some cur, Signature img, e),
       set_buildTime (buildTime s + (time_Now w4 - time_Now w2))
         (set_calls (l ++ [CBuildKernel bk;
                           CClean (TargetOS mgr) (TargetVMArch mgr) (mType mgr) (KernelSrc mgr);
                           CLog "testing commit %v %v" [Hash cur; CompilerType c];
                           CEnvForCommit (DefaultCompiler c) (CompilerType c) (BinDir c)
                             (Hash cur) (kernelConfig s);
                           CHeadCommit] ++ calls s)
            (set_world w4 s)))
    /\ Forall tracerCall l.
Proof.
  intros c mgr bk Hh He Hc Hb. subst c mgr bk.
  unfold build. step. rewrite Hh. proj. steps. rewrite He. proj. steps. rewrite Hc. proj.
  step. rewrite Hb. proj.
  destruct (decide (CompilerID img = "")), (decide (Signature img = "")); steps.
  - exists []. split; [reflexivity|constructor].
  - eexists [_]. split; [reflexivity|by repeat constructor].
  - eexists [_]. split; [reflexivity|by repeat constructor].
  - eexists [_; _]. split; [reflexivity|by repeat constructor].
Qed.


(** *** The range finder *)

Lemma commitRangeForFix_run s hd c w1 :
  head s = Some hd ->
  repo_SwitchCommit (Hash hd) (world s) = (Ok c, w1) ->
  let s1 := set_calls (CSwitchCommit (Hash hd) :: CLog "testing current HEAD %v" [Hash hd]
                       :: calls s) (set_world w1 s) in
  (forall p, fst (test s1) = Ok p ->
     commitRangeForFix s =
       (mkRange (Some hd)
          (if bool_decide (verdict (heap (snd (test s1)) !!! p) = BisectGood)
           then commit s else None) [p] None,
        snd (test s1)))
  /\ (forall e, fst (test s1) = Err e ->
        commitRangeForFix s = (mkRange None None [] (Some e), snd (test s1))).
Proof.
  intros Hh Hs s1. pose proof (test_kept s1) as (_ & _ & Hc & _).
  split; [intros p Ht|intros e Ht]; unfold commitRangeForFix; exec; rewrite Hh; exec;
    rewrite Hs; exec;
    repeat match goal with
           | |- context [test ?sb] =>
               lazymatch sb with
               | s1 => fail
               | _ => change sb with s1
               end
           end;
    rewrite Ht; exec; [|done].
  rewrite Hc. change (commit s1) with (commit s).
  destruct (decide (verdict (heap (snd (test s1)) !!! p) = BisectGood)) as [Hv|Hv].
  - rewrite bool_decide_eq_false_2 by (intros Hn; by apply Hn).
    by rewrite bool_decide_eq_true_2.
  - rewrite bool_decide_eq_true_2 by done. by rewrite bool_decide_eq_false_2.
Qed.

(** X10. In fix mode the range finder checks out the head and tests it.
    The bad endpoint is the head; the good endpoint is the starting commit
    when the head has the verdict good, and there is none otherwise; the
    one result is that of the head.  An error of the test is returned with
    no endpoint and no result. *)
Theorem X10_commitRangeForFix_range s hd c w1 :
  head s = Some hd ->
  repo_SwitchCommit (Hash hd) (world s) = (Ok c, w1) ->
  let s1 := set_calls (CSwitchCommit (Hash hd) :: CLog "testing current HEAD %v" [Hash hd]
                       :: calls s) (set_world w1 s) in
  (forall p, fst (test s1) = Ok p ->
     commitRangeForFix s =
       (mkRange (Some hd)
          (if bool_decide (verdict (heap (snd (test s1)) !!! p) = BisectGood)
           then commit s else None) [p] None,
        snd (test s1)))
  /\ (forall e, fst (test s1) = Err e ->
        commitRangeForFix s = (mkRange None None [] (Some e), snd (test s1))).
Proof.
  intros Hh Hs s1. pose proof (test_kept s1) as (_ & _ & Hc & _).
  split; [intros p Ht|intros e Ht]; unfold commitRangeForFix; exec; rewrite Hh; exec;
    rewrite Hs; exec;
    repeat match goal with
           | |- context [test ?sb] =>
               lazymatch sb with
               | s1 => fail
               | _ => change sb with s1
               end
           end;
    rewrite Ht; exec; [|done].
  rewrite Hc. change (commit s1) with (commit s).
  destruct (decide (verdict (heap (snd (test s1)) !!! p) = BisectGood)) as [Hv|Hv].
  - rewrite bool_decide_eq_false_2 by (intros Hn; by apply Hn).
    by rewrite bool_decide_eq_true_2.
  - rewrite bool_decide_eq_true_2 by done. by rewrite bool_decide_eq_false_2.
Qed.

Lemma validateCommitRange_cases s bad' good' rs :
  (fst (validateCommitRange bad' good' rs s) = (None, None) <->
   exists p, last rs = Some p /\ verdict (heap s !!! p) = BisectGood)
  /\ (forall p, last rs = Some p -> verdict (heap s !!! p) = BisectBad ->
        fst (validateCommitRange bad' good' rs s) =
          (Some (mkResult [] (rep (heap s !!! p)) bad' (kernelConfig s) false false), None))
  /\ (rs = [] ->
        fst (validateCommitRange bad' good' rs s) =
          (None, Some (Errorf "commitRange returned no results")))
  /\ (fst (validateCommitRange bad' good' rs s) = (None, None)
      \/ exactlyOne (fst (validateCommitRange bad' good' rs s))).
Proof.
  unfold validateCommitRange. destruct (last rs) as [p|] eqn:Hl; exec.
  2:{ split; [split; [discriminate|by intros (p & [=] & _)]|].
      split; [by intros p [=]|]. split; [done|]. right. exact I. }
  assert (Hne : rs <> []) by (by intros ->).
  destruct (verdict (heap s !!! p)) eqn:Hv;
    rewrite ?bool_decide_eq_true_2, ?bool_decide_eq_false_2 by done; exec;
    rewrite ?bool_decide_eq_true_2, ?bool_decide_eq_false_2 by done; exec.
  - split; [split; [discriminate|intros (q & [= <-] & Hq); congruence]|].
    split; [by intros q [= <-] _|]. split; [done|]. right. exact I.
  - destruct (Fix (cfg s)); exec;
      (split; [split; [discriminate|intros (q & [= <-] & Hq); congruence]|]);
      (split; [intros q [= <-] Hq; congruence|]); (split; [done|]); right; exact I.
  - split; [split; [eauto|done]|].
    split; [intros q [= <-] Hq; congruence|]. split; [done|]. by left.
Qed.


(** X11. validateCommitRange lets the bisection go on (it returns neither
    a Result nor an error) exactly when there is a result and the last one
    has the verdict good.  When the last result has the verdict bad, it
    returns, in both modes, a Result with no commits, the bad endpoint as
    Commit, the report of that result and the active kernel config.  It
    never returns both a Result and an error, and with no result it returns
    an error. *)
Theorem X11_validateCommitRange_outcome s bad' good' rs :
  (fst (validateCommitRange bad' good' rs s) = (None, None) <->
   exists p, last rs = Some p /\ verdict (heap s !!! p) = BisectGood)
  /\ (forall p, last rs = Some p -> verdict (heap s !!! p) = BisectBad ->
        fst (validateCommitRange bad' good' rs s) =
          (Some (mkResult [] (rep (heap s !!! p)) bad' (kernelConfig s) false false), None))
  /\ (rs = [] ->
        fst (validateCommitRange bad' good' rs s) =
          (None, Some (Errorf "commitRange returned no results")))
  /\ (fst (validateCommitRange bad' good' rs s) = (None, None)
      \/ exactlyOne (fst (validateCommitRange bad' good' rs s))).
Proof.
  unfold validateCommitRange. destruct (last rs) as [p|] eqn:Hl; exec.
  2:{ split; [split; [discriminate|by intros (p & [=] & _)]|].
      split; [by intros p [=]|]. split; [done|]. right. exact I. }
  assert (Hne : rs <> []) by (by intros ->).
  destruct (verdict (heap s !!! p)) eqn:Hv;
    rewrite ?bool_decide_eq_true_2, ?bool_decide_eq_false_2 by done; exec;
    rewrite ?bool_decide_eq_true_2, ?bool_decide_eq_false_2 by done; exec.
  - split; [split; [discriminate|intros (q & [= <-] & Hq); congruence]|].
    split; [by intros q [= <-] _|]. split; [done|]. right. exact I.
  - destruct (Fix (cfg s)); exec;
      (split; [split; [discriminate|intros (q & [= <-] & Hq); congruence]|]);
      (split; [intros q [= <-] Hq; congruence|]); (split; [done|]); right; exact I.
  - split; [split; [eauto|done]|].
    split; [intros q [= <-] Hq; congruence|]. split; [done|]. by left.
Qed.

Lemma causeLoop_endpoints tags : forall lb acc s,
  (forall p, last acc = Some p -> verdict (heap s !!! p) <> BisectGood) ->
  rgErr (fst (causeLoop tags lb acc s)) = None ->
  (is_Some lb -> is_Some (rgBad (fst (causeLoop tags lb acc s))))
  /\ (is_Some (rgGood (fst (causeLoop tags lb acc s)))
      \/ forall p, last (rgResults (fst (causeLoop tags lb acc s))) = Some p ->
           verdict (heap (snd (causeLoop tags lb acc s)) !!! p) <> BisectGood).
Proof.
  induction tags as [|tag tags IH]; intros lb acc s Hacc; cbn [causeLoop]; exec.
  { intros _. split; [done|]. by right. }
  destruct (repo_SwitchCommit tag (world s)) as [[c|e] w1]; exec; [|discriminate].
  match goal with |- context [test ?s0] => destruct (test s0) as [[p|e] s1] end; exec;
    [|discriminate].
  destruct (decide (verdict (heap s1 !!! p) = BisectGood)) as [Hv|Hv].
  - rewrite bool_decide_eq_true_2 by done. cbn. intros _. split; [done|]. left. eauto.
  - rewrite bool_decide_eq_false_2 by done. intros He.
    match goal with |- context [causeLoop tags ?lb' ?acc' s1] =>
      destruct (IH lb' acc' s1) as (Hb & Hg); [|exact He|] end.
    + intros q. rewrite last_snoc. by intros [= <-].
    + split; [|exact Hg]. intros Hlb. apply Hb. destruct (bool_decide _); eauto.
Qed.

(** X12. When the range finder returns without an error and without a
    fatal Result, in a session whose starting commit is set, both endpoints
    of the range are set and the last result has the verdict good: the
    hashes of the endpoints that env.bisect hands to Bisect exist. *)
Theorem X12_commitRange_endpoints s :
  commit s <> None ->
  snd (fst (commitRange s)) = None ->
  rgErr (fst (fst (commitRange s))) = None ->
  let r := fst (fst (commitRange s)) in
  is_Some (rgBad r) /\ is_Some (rgGood r)
  /\ exists p, last (rgResults r) = Some p
               /\ verdict (heap (snd (commitRange s)) !!! p) = BisectGood.
Proof.
  intros Hc. unfold commitRange. exec.
  assert (Hr : let out := (if Fix (cfg s) then commitRangeForFix else commitRangeForCause) s
               in rgErr (fst out) = None ->
                  is_Some (rgBad (fst out))
                  /\ (is_Some (rgGood (fst out))
                      \/ forall p, last (rgResults (fst out)) = Some p ->
                           verdict (heap (snd out) !!! p) <> BisectGood)).
  { destruct (Fix (cfg s)); cbv zeta.
    - unfold commitRangeForFix. exec. destruct (head s) as [hd|]; exec; [|discriminate].
      destruct (repo_SwitchCommit (Hash hd) (world s)) as [[c|e] w1]; exec; [|discriminate].
      match goal with |- context [test ?s0] =>
        pose proof (test_kept s0) as (_ & _ & Hk & _);
        destruct (test s0) as [[p|e] s1] end; exec; [|discriminate].
      cbn [snd commit] in Hk.
      destruct (decide (verdict (heap s1 !!! p) = BisectGood)) as [Hv|Hv].
      + rewrite bool_decide_eq_false_2 by (intros Hn; by apply Hn). cbn. intros _.
        split; [by eexists|]. left. rewrite Hk. cbn. destruct (commit s); [by eexists|done].
      + rewrite bool_decide_eq_true_2 by done. cbn. intros _. split; [by eexists|]. right.
        by intros q [= <-].
    - unfold commitRangeForCause. exec.
      destruct (bisecter_PreviousReleaseTags _ _ (world s)) as [[tags|e] w1]; exec;
        [|discriminate].
      destruct (decide (length tags = 0%nat)); exec; [discriminate|].
      intros He. edestruct (causeLoop_endpoints tags) as (Hb & Hg); [|exact He|].
      + by intros p [=].
      + split; [|exact Hg]. apply Hb. destruct (commit s); [by eexists|done]. }
  cbv zeta in Hr.
  destruct ((if Fix (cfg s) then commitRangeForFix else commitRangeForCause) s) as [r s1].
  cbn [fst snd] in *. destruct (rgErr r) as [e|] eqn:He; exec; cbn [rgErr];
    [by rewrite He|].
  destruct (Hr eq_refl) as (Hb & Hg). cbn [rgBad rgGood rgResults].
  pose proof (validateCommitRange_cases s1 (rgBad r) (rgGood r) (rgResults r))
    as (Hv & _).
  pose proof (validateCommitRange_kept (rgBad r) (rgGood r) (rgResults r) s1) as Hk.
  assert (Hh : heap (snd (validateCommitRange (rgBad r) (rgGood r) (rgResults r) s1))
               = heap s1).
  { clear. unfold validateCommitRange. destruct (last (rgResults r)); exec; [|done].
    repeat (match goal with |- context [if ?b then _ else _] => destruct b end; exec);
      done. }
  destruct (validateCommitRange (rgBad r) (rgGood r) (rgResults r) s1) as [[fr fe] s2].
  cbn [fst snd] in *. intros -> ->.
  destruct (proj1 Hv eq_refl) as (p & Hl & Hp).
  split; [done|]. split; [|exists p; by rewrite Hh].
  destruct Hg as [Hg|Hg]; [done|]. by specialize (Hg p Hl).
Qed.

(** X13. In fix mode, when the head still has the verdict bad, the range
    finder returns a fatal Result and no error (the bisection can be
    retried later): the Result has no commits, the head as its Commit, the
    report of the test of the head and the active kernel config, and the
    search of env.bisect returns this Result and no error. *)
Theorem X13_commitRange_fix_not_fixed s hd c w1 p :
  Fix (cfg s) = true ->
  head s = Some hd ->
  repo_SwitchCommit (Hash hd) (world s) = (Ok c, w1) ->
  let s1 := set_calls (CSwitchCommit (Hash hd) :: CLog "testing current HEAD %v" [Hash hd]
                       :: calls s) (set_world w1 s) in
  fst (test s1) = Ok p ->
  verdict (heap (snd (test s1)) !!! p) = BisectBad ->
  let res := mkResult [] (rep (heap (snd (test s1)) !!! p)) (Some hd) (kernelConfig s)
               false false in
  fst (commitRange s) = (mkRange (Some hd) None [p] None, Some res)
  /\ forall testRes, fst (bisectSearch testRes s) = (Some res, None).
Proof.
  intros Hfix Hh Hs s1 Ht Hv res.
  pose proof (proj1 (commitRangeForFix_run s hd c w1 Hh Hs) p Ht) as Hr.
  fold s1 in Hr. rewrite Hv in Hr. rewrite bool_decide_eq_false_2 in Hr by done.
  pose proof (test_kept s1) as (_ & Hk & _). change (kernelConfig s1) with (kernelConfig s) in Hk.
  pose proof (proj1 (proj2 (validateCommitRange_cases (snd (test s1)) (Some hd) None [p]))
                p eq_refl Hv) as Hval.
  rewrite Hk in Hval. fold res in Hval. split.
  - unfold commitRange. step. rewrite Hfix, bind_eq, Hr. cbn [fst snd rgErr rgBad rgGood rgResults].
    rewrite bind_eq, Hval. reflexivity.
  - intros testRes.
    assert (Hr' : (if Fix (cfg s) then commitRangeForFix else commitRangeForCause) s
                  = (mkRange (Some hd) None [p] None, snd (test s1)))
      by (rewrite Hfix; exact Hr).
    rewrite (bisectSearch_terminal testRes s _ _ Hr' eq_refl _ eq_refl);
      cbn [rgErr rgBad rgGood rgResults]; rewrite Hval; [done|by left].
Qed.

Lemma causeLoop_step_err tag rest lb acc s e s1 :
  probe tag s = (Err e, s1) ->
  causeLoop (tag :: rest) lb acc s = (mkRange None None [] (Some e), s1).
Proof.
  unfold probe. cbn [causeLoop]. exec.
  destruct (repo_SwitchCommit tag (world s)) as [[c'|e'] w'] eqn:Hsw; exec.
  - match goal with |- context [test ?s0] => destruct (test s0) as [[p'|e'] s'] eqn:Ht end;
      exec; [done|]. by intros [= -> ->].
  - by intros [= -> ->].
Qed.

(** X14. In cause mode, when the tags are tested in order and, after tags
    none of which has the verdict good, the checkout or the test of the
    next tag fails, commitRangeForCause returns that error with no endpoint
    and with no result: the results of the tags tested before are dropped. *)
Theorem X14_commitRangeForCause_abort s tested tag rest w1 outs ps s2 e s3 :
  bisecter_PreviousReleaseTags (kCommit (Kernel (cfg s))) (CompilerType (cfg s)) (world s)
    = (Ok (tested ++ tag :: rest), w1) ->
  walked (set_calls (CPreviousReleaseTags (kCommit (Kernel (cfg s))) (CompilerType (cfg s))
                     :: calls s) (set_world w1 s))
    tested outs ps s2 ->
  Forall notGood outs ->
  probe tag s2 = (Err e, s3) ->
  commitRangeForCause s = (mkRange None None [] (Some e), s3).
Proof.
  intros Htags Hw Hf Hp. unfold commitRangeForCause. exec. rewrite Htags. exec.
  destruct (decide _) as [Hz|_].
  { rewrite length_app in Hz. cbn in Hz. lia. }
  exec. rewrite (proj1 (causeLoop_walk _ _ _ _ _ Hw (tag :: rest) (commit s) []) Hf).
  by apply causeLoop_step_err.
Qed.

(** *** Commit resolution *)

(** X15. identifyRewrittenCommit returns the stored hash on every path but
    one: the hash differs only when the function succeeds after
    GetCommitByTitle, asked for the stored title (which is not empty),
    found a commit, whose hash it returns.  In particular every error
    comes with the stored hash.  The configuration is not changed. *)
Theorem X15_identifyRewrittenCommit_hash s :
  let out := identifyRewrittenCommit s in
  let k := Kernel (cfg s) in
  cfg (snd out) = cfg s
  /\ (fst (fst out) = kCommit k
      \/ (snd (fst out) = None /\ kCommitTitle k <> ""
          /\ exists w c' w',
               repo_GetCommitByTitle (kCommitTitle k) w = (Ok (Some c'), w')
               /\ fst (fst out) = Hash c'
               /\ In (CGetCommitByTitle (kCommitTitle k)) (calls (snd out)))).
Proof.
  cbv zeta. split; [apply identifyRewrittenCommit_cfg|].
  unfold identifyRewrittenCommit. exec.
  destruct (repo_CheckoutBranch _ _ (world s)) as [[c0|e] w1]; exec; [|by left].
  destruct (repo_Contains _ w1) as [[[]|e] w2]; exec; try by left.
  destruct (decide (kCommitTitle (Kernel (cfg s)) = "")) as [Ht|Ht]; exec; [by left|].
  destruct (repo_GetCommitByTitle _ w2) as [[[c'|]|e] w3] eqn:Hg; exec; try by left.
  right. split; [done|]. split; [done|]. exists w2, c', w3. split; [done|].
  split; [done|]. cbn. tauto.
Qed.

(** X16. When the checkout of the branch succeeds and the stored hash is
    not reachable: with an empty commit title identifyRewrittenCommit
    returns an error and does not call GetCommitByTitle; with a title for
    which GetCommitByTitle finds a commit, it returns the hash of that
    commit and no error, and logs the reidentification; with a title for
    which no commit is found, it returns an error. *)
Theorem X16_identifyRewrittenCommit_unreachable s c0 w1 w2 :
  let k := Kernel (cfg s) in
  repo_CheckoutBranch (kRepo k) (kBranch k) (world s) = (Ok c0, w1) ->
  repo_Contains (kCommit k) w1 = (Ok false, w2) ->
  (kCommitTitle k = "" ->
     identifyRewrittenCommit s =
       ((kCommit k,
         Some (Errorf (Sprintf
           "commit %v not reachable in branch '%v' and no commit title available"
           [kCommit k; kBranch k]))),
        set_calls (CContains (kCommit k) :: CCheckoutBranch (kRepo k) (kBranch k) :: calls s)
          (set_world w2 s)))
  /\ (kCommitTitle k <> "" ->
      forall c' w3, repo_GetCommitByTitle (kCommitTitle k) w2 = (Ok (Some c'), w3) ->
        identifyRewrittenCommit s =
          ((Hash c', None),
           set_calls (CLog ("rewritten commit %v reidentified by title '%v'" +:+ nl)
                        [Hash c'; kCommitTitle k]
                      :: CGetCommitByTitle (kCommitTitle k)
                      :: CContains (kCommit k)
                      :: CCheckoutBranch (kRepo k) (kBranch k) :: calls s)
             (set_world w3 s)))
  /\ (kCommitTitle k <> "" ->
      forall w3, repo_GetCommitByTitle (kCommitTitle k) w2 = (Ok None, w3) ->
        fst (identifyRewrittenCommit s) =
          (kCommit k,
           Some (Errorf (Sprintf "commit %v not reachable in branch '%v'"
                           [kCommit k; kBranch k])))).
Proof.
  intros k Hc Hr. subst k. split; [|split].
  - intros Ht. unfold identifyRewrittenCommit. exec. rewrite Hc. exec. rewrite Hr. exec.
    rewrite decide_True by done. reflexivity.
  - intros Ht c' w3 Hg. unfold identifyRewrittenCommit. exec. rewrite Hc. exec.
    rewrite Hr. exec. rewrite decide_False by done. exec. rewrite Hg. reflexivity.
  - intros Ht w3 Hg. unfold identifyRewrittenCommit. exec. rewrite Hc. exec.
    rewrite Hr. exec. rewrite decide_False by done. exec. rewrite Hg. reflexivity.
Qed.

(** *** runImpl and Run *)

Lemma logCommits_inv k l : stable (@holds W k) (logCommits l).
Proof. induction l as [|c l IH]; cbn [logCommits]; destruct k; stab. Qed.

#[local] Hint Resolve logCommits_inv bisect_inv : stable.

Lemma runImplBody_inv k hd : stable (@holds W k) (runImplBody hd).
Proof. unfold runImplBody. destruct k; stab. Qed.

(** What runImpl does once the two capabilities are there. *)
Lemma runImpl_session s :
  repo_isBisecter (world s) = true ->
  (repo_isConfigMinimizer (world s) = true \/ kBaselineConfig (Kernel (cfg s)) = []) ->
  let s0 := set_calls (CHeadCommit :: calls s)
              (set_world (snd (repo_HeadCommit (world s))) (newEnv (time_Now (world s)) s)) in
  runImpl s =
    match fst (repo_HeadCommit (world s)) with
    | Err err => ((None, Some err), s0)
    | Ok hd =>
        (fst (runImplBody hd s0),
         set_calls (CSwitchCommit (Hash hd) :: calls (snd (runImplBody hd s0)))
           (set_world (snd (repo_SwitchCommit (Hash hd) (world (snd (runImplBody hd s0)))))
              (snd (runImplBody hd s0))))
    end.
Proof.
  intros Hb Hm s0. unfold runImpl. exec. rewrite Hb. cbn [negb].
  replace (negb (repo_isConfigMinimizer (world s))
           && negb (length (kBaselineConfig (Kernel (cfg s))) =? 0)%nat) with false
    by (destruct Hm as [->| ->]; [done|by rewrite andb_false_r]).
  exec. change (world (newEnv (time_Now (world s)) s)) with (world s).
  subst s0. destruct (repo_HeadCommit (world s)) as [[hd|e] w1]; exec; reflexivity.
Qed.

(** X17. runImpl refuses a repository that is not a Bisecter, and one that
    is not a ConfigMinimizer when a baseline config is given, with an error
    that names the target OS, before it reads the head or calls anything;
    without a baseline config a repository that is no ConfigMinimizer is
    accepted. *)
Theorem X17_runImpl_capabilities s :
  (repo_isBisecter (world s) = false ->
     runImpl s =
       ((None, Some (Errorf (Sprintf "bisection is not implemented for %v"
                               [TargetOS (Manager (cfg s))]))), s))
  /\ (repo_isBisecter (world s) = true -> repo_isConfigMinimizer (world s) = false ->
      kBaselineConfig (Kernel (cfg s)) <> [] ->
      runImpl s =
        ((None, Some (Errorf (Sprintf "config minimization is not implemented for %v"
                                [TargetOS (Manager (cfg s))]))), s))
  /\ (repo_isBisecter (world s) = true -> kBaselineConfig (Kernel (cfg s)) = [] ->
      In CHeadCommit (calls (snd (runImpl s)))).
Proof.
  split; [|split].
  - intros Hb. unfold runImpl. exec. by rewrite Hb.
  - intros Hb Hm Hne. unfold runImpl. exec. rewrite Hb, Hm.
    destruct (kBaselineConfig (Kernel (cfg s))); done.
  - intros Hb He. rewrite (runImpl_session s Hb (or_intror He)).
    destruct (repo_HeadCommit (world s)) as [[hd|e] w1]; cbn [fst snd]; [|by left].
    right. match goal with |- context [runImplBody hd ?s0] =>
      destruct (runImplBody_inv TestsCounted hd s0) as (l & -> & _) end.
    apply in_or_app. right. by left.
Qed.

(** X18. Once runImpl has read the head of the repository, it checks the
    head out again when it returns, whatever env.bisect returned: the last
    call of runImpl is SwitchCommit with the hash of the head, after the
    calls of the session, and the outcome of that call does not change what
    runImpl returns. *)
Theorem X18_runImpl_restores_head s hd w1 :
  repo_isBisecter (world s) = true ->
  (repo_isConfigMinimizer (world s) = true \/ kBaselineConfig (Kernel (cfg s)) = []) ->
  repo_HeadCommit (world s) = (Ok hd, w1) ->
  let s0 := set_calls (CHeadCommit :: calls s)
              (set_world w1 (newEnv (time_Now (world s)) s)) in
  fst (runImpl s) = fst (runImplBody hd s0)
  /\ exists l, calls (snd (runImpl s)) = CSwitchCommit (Hash hd) :: l ++ CHeadCommit :: calls s.
Proof.
  intros Hb Hm Hh s0. rewrite (runImpl_session s Hb Hm), Hh. cbn [fst snd]. fold s0.
  split; [done|].
  destruct (runImplBody_inv TestsCounted hd s0) as (l & -> & _). by exists l.
Qed.

(** X19. checkConfig accepts a configuration exactly when the bin dir
    exists and each of the userspace dir, the sysctl file and the cmdline
    file is either not given (empty) or exists; it changes nothing and
    calls nothing. *)
Theorem X19_checkConfig_accepts s :
  let c := cfg s in
  let ok p := p = "" \/ osutil_IsExist p (world s) = true in
  (fst (checkConfig s) = None <->
   osutil_IsExist (BinDir c) (world s) = true
   /\ ok (kUserspace (Kernel c)) /\ ok (kSysctl (Kernel c)) /\ ok (kCmdline (Kernel c)))
  /\ snd (checkConfig s) = s.
Proof.
  cbv zeta. split; [|apply checkConfig_state].
  unfold checkConfig. exec.
  destruct (osutil_IsExist (BinDir (cfg s)) (world s)); cbn [negb fst];
    [|split; [discriminate|by intros ([=] & _)]].
  assert (Hp : forall p : string,
             negb (bool_decide (p = "")) && negb (osutil_IsExist p (world s)) = false
             <-> p = "" \/ osutil_IsExist p (world s) = true).
  { intros p. destruct (decide (p = "")) as [->|Hn].
    - rewrite bool_decide_eq_true_2 by done. cbn. tauto.
    - rewrite bool_decide_eq_false_2 by done. cbn.
      destruct (osutil_IsExist p (world s)); cbn; intuition congruence. }
  rewrite <- !Hp.
  destruct (negb (bool_decide (kUserspace _ = "")) && _); cbn [fst];
    [split; [discriminate|by intros (_ & [=] & _)]|].
  destruct (negb (bool_decide (kSysctl _ = "")) && _); cbn [fst];
    [split; [discriminate|by intros (_ & _ & [=] & _)]|].
  destruct (negb (bool_decide (kCmdline _ = "")) && _); cbn [fst];
    [split; [discriminate|by intros (_ & _ & _ & [=])]|].
  done.
Qed.

(** *** What the driver changes in the configuration *)

Lemma set_kernelCommit_id (c : Config) : c = set_kernelCommit (kCommit (Kernel c)) c.
Proof. by destruct c as [? ? ? ? ? ? ? [] ? ? ?]. Qed.

#[local] Instance configTouched_preorder : PreOrder (@configTouched W).
Proof.
  split; unfold configTouched.
  - intros s. eexists. apply set_kernelCommit_id.
  - intros s1 s2 s3 [h1 E1] [h2 E2]. exists h2. by rewrite E2, E1.
Qed.

Lemma sessionKept_touched s s' : sessionKept s s' -> configTouched s s'.
Proof.
  intros (E & _). unfold configTouched. rewrite E. eexists. apply set_kernelCommit_id.
Qed.

Ltac primc :=
  intros; unfold configTouched; cbn;
  first [ by eexists | eexists; apply set_kernelCommit_id ].

Ltac stabc := stab_with primc.

Lemma test_touched : stable (@configTouched W) test.
Proof. apply (stable_weaken sessionKept); [apply sessionKept_touched|apply test_kept]. Qed.

Lemma bisectSearch_touched p : stable (@configTouched W) (bisectSearch p).
Proof.
  apply (stable_weaken sessionKept); [apply sessionKept_touched|apply bisectSearch_kept].
Qed.

Lemma identifyRewrittenCommit_touched : stable (@configTouched W) identifyRewrittenCommit.
Proof.
  apply (stable_weaken cfgKept); [|apply identifyRewrittenCommit_cfg].
  intros s s'. unfold cfgKept, configTouched. intros ->. eexists.
  apply set_kernelCommit_id.
Qed.

#[local] Hint Resolve test_touched bisectSearch_touched identifyRewrittenCommit_touched
  : stable.

Lemma minimizeConfig_touched : stable (@configTouched W) minimizeConfig.
Proof.
  unfold minimizeConfig, Minimize. stabc.
  apply stable_runStrategy; [typeclasses eauto|primc|].
  intros q. unfold predMinimize. stabc.
Qed.

#[local] Hint Resolve minimizeConfig_touched : stable.

Lemma bisect_touched : stable (@configTouched W) bisect.
Proof. unfold bisect, bisectSetup, bisectAfterGate. stabc. Qed.

#[local] Hint Resolve bisect_touched : stable.

Lemma logCommits_touched l : stable (@configTouched W) (logCommits l).
Proof. induction l as [|c l IH]; cbn [logCommits]; stabc. Qed.

#[local] Hint Resolve logCommits_touched : stable.

Lemma runImpl_touched : stable (@configTouched W) runImpl.
Proof. unfold runImpl, runImplBody. stabc. Qed.

(** X20. Run changes the configuration of its caller in two places only:
    it clears Manager.Cover, and it may assign Kernel.Commit (the hash that
    identifyRewrittenCommit found); when checkConfig rejects the
    configuration nothing is changed. *)
Theorem X20_Run_config_changes s :
  (fst (checkConfig s) <> None /\ snd (Run s) = s)
  \/ (fst (checkConfig s) = None
      /\ exists h, cfg (snd (Run s)) = set_kernelCommit h (set_cover false (cfg s))).
Proof.
  unfold Run. rewrite bind_eq, checkConfig_state.
  destruct (fst (checkConfig s)) as [e|]; [by left|right]. split; [done|].
  steps. destruct (vcs_NewRepo _ _ _ (world s)) as [[e|] w1]; proj.
  { eexists. apply set_kernelCommit_id. }
  step. destruct (instance_NewEnv _ w1) as [[e|] w2]; proj.
  { eexists. apply set_kernelCommit_id. }
  step. destruct (repo_CheckoutBranch _ _ w2) as [[c|e] w3]; proj.
  2:{ eexists. apply set_kernelCommit_id. }
  match goal with |- context [runImpl ?s0] => destruct (runImpl_touched s0) as [h Hh] end.
  exists h. exact Hh.
Qed.

(** *** The noop detection *)

(** X21. env.detectNoopChange, for a culprit whose result is recorded:
    when the result has no kernel signature, or the culprit does not have
    exactly one parent, the change is not a noop and nothing is called;
    when the result of the one parent is recorded, the change is a noop
    exactly when the two recorded signatures are equal, and nothing is
    built; when it is not recorded, the parent is checked out and built,
    and the signature of that build is compared. *)
Theorem X21_detectNoopChange_cases s c p :
  results s !! Hash c = Some p ->
  let sign := kernelSign (heap s !!! p) in
  (sign = "" \/ length (Parents c) <> 1%nat -> detectNoopChange c s = ((false, None), s))
  /\ (forall parent q,
        sign <> "" -> Parents c = [parent] -> results s !! parent = Some q ->
        detectNoopChange c s =
          ((bool_decide (sign = kernelSign (heap s !!! q)), None),
           set_calls (CLog "parent  signature: %v" [kernelSign (heap s !!! q)]
                      :: CLog "culprit signature: %v" [sign] :: calls s) s))
  /\ (forall parent cm w1 cur psign s2,
        sign <> "" -> Parents c = [parent] -> results s !! parent = None ->
        repo_SwitchCommit parent (world s) = (Ok cm, w1) ->
        build (set_calls (CSwitchCommit parent
                          :: CLog "parent commit %v wasn't tested" [parent] :: calls s)
                 (set_world w1 s)) = ((cur, psign, None), s2) ->
        fst (detectNoopChange c s) = (bool_decide (sign = psign), None)).
Proof.
  intros Hp sign. subst sign. split; [|split].
  - intros Hc. unfold detectNoopChange. exec. rewrite Hp. exec.
    destruct Hc as [Hc|Hc].
    + by rewrite bool_decide_eq_true_2.
    + apply Nat.eqb_neq in Hc. rewrite Hc. cbn [negb]. by rewrite orb_true_r.
  - intros parent q Hs Hpar Hq. unfold detectNoopChange. exec. rewrite Hp. exec.
    rewrite bool_decide_eq_false_2 by done. rewrite Hpar. cbn [length Nat.eqb negb orb].
    change ([parent] !!! 0%nat) with parent. rewrite Hq. exec. reflexivity.
  - intros parent cm w1 cur psign s2 Hs Hpar Hq Hsw Hb. unfold detectNoopChange. exec.
    rewrite Hp. exec. rewrite bool_decide_eq_false_2 by done. rewrite Hpar.
    cbn [length Nat.eqb negb orb]. change ([parent] !!! 0%nat) with parent. rewrite Hq.
    exec. rewrite Hsw. exec.
    match type of Hb with build ?s1 = _ =>
      match goal with |- context [build ?sb] => change sb with s1 end
    end.
    rewrite Hb. exec. by rewrite list_lookup_total_middle.
Qed.

Lemma detectNoopChange_footprint c : stable (@footprint W noopCall) (detectNoopChange c).
Proof. unfold detectNoopChange. stabf. Qed.

#[local] Hint Extern 1 (stable (footprint _) (detectNoopChange _)) =>
  (apply (footprint_weaken noopCall); [by intros []|apply detectNoopChange_footprint])
  : stable.

(** Calls that do not include the test runner leave numTests unchanged. *)
Lemma footprint_numTests (a : Call -> bool) s s' :
  (forall n x y z, a (CTest n x y z) = false) ->
  footprint a s s' -> testsCounted s s' -> numTests s' = numTests s.
Proof.
  intros Ha (l & E & F) (l' & E' & N). rewrite E in E'. apply app_inv_tail in E'.
  subst l'. rewrite N. replace (countTests l) with 0%nat; [done|].
  clear - Ha F. induction F as [|c l Hc _ IH]; [done|].
  change (c :: l) with ([c] ++ l). rewrite countTests_app, <- IH.
  destruct c; try done. by rewrite Ha in Hc.
Qed.

(** X22. env.detectNoopChange calls only the tracer, SwitchCommit and the
    calls of a build: it never runs the reproducer, and numTests is
    unchanged.  The results that are on the heap are unchanged, and so are
    the configuration and the active kernel config. *)
Theorem X22_detectNoopChange_builds_only c s :
  footprint noopCall s (snd (detectNoopChange c s))
  /\ numTests (snd (detectNoopChange c s)) = numTests s
  /\ heap s `prefix_of` heap (snd (detectNoopChange c s))
  /\ sessionKept s (snd (detectNoopChange c s)).
Proof.
  split; [apply detectNoopChange_footprint|]. split; [|split].
  - apply (footprint_numTests noopCall); [done|apply detectNoopChange_footprint|].
    apply (detectNoopChange_inv TestsCounted).
  - apply (detectNoopChange_inv HeapGrows).
  - apply detectNoopChange_kept.
Qed.

(** *** The Result of env.bisect *)

(** X23. The end of env.bisect, for the commits that Bisect returned.
    For a single culprit whose result is recorded it always returns a
    Result and no error: the Result has the culprit as its only commit, the
    report of the recorded result, no Commit, the active kernel config and
    the release flag that IsRelease returned; an error of IsRelease or of
    the noop detection is logged and dropped.  For a single culprit with no
    recorded result it returns the error no result for culprit commit.
    For no commit or more than one it returns a Result with these commits,
    no report, no Commit and both flags unset, and calls nothing. *)
Theorem X23_classify_outcome s cs :
  (forall c p, cs = [c] -> results s !! Hash c = Some p ->
     exists noop,
       fst (classify cs s) =
         (Some (mkResult [c] (rep (heap s !!! p)) None (kernelConfig s) noop
                  (fst (fst (bisecter_IsRelease (Hash c) (world s))))), None))
  /\ (forall c, cs = [c] -> results s !! Hash c = None ->
        classify cs s = ((None, Some (Errorf "no result for culprit commit")), s))
  /\ (length cs <> 1%nat ->
        classify cs s =
          ((Some (mkResult cs None None (kernelConfig s) false false), None), s)).
Proof.
  split; [|split].
  - intros c p -> Hp. unfold classify. exec. rewrite Hp. exec.
    destruct (bisecter_IsRelease (Hash c) (world s)) as [[ir [e|]] w1]; exec;
      match goal with |- context [detectNoopChange c ?s1] =>
        destruct (detectNoopChange c s1) as [[nc [e'|]] s2] end; exec; eauto.
  - intros c -> Hc. unfold classify. exec. by rewrite Hc.
  - intros Hl. unfold classify. exec. by destruct cs as [|c [|c' cs]].
Qed.

Lemma classify_exactlyOne cs s : exactlyOne (fst (classify cs s)).
Proof.
  unfold classify. exec. destruct cs as [|c [|c' cs]]; exec; try exact I.
  destruct (results s !! Hash c); exec; [|exact I].
  destruct (bisecter_IsRelease (Hash c) (world s)) as [[ir [e|]] w1]; exec;
    match goal with |- context [detectNoopChange c ?s1] =>
      destruct (detectNoopChange c s1) as [[nc [e'|]] s2] end; exec; exact I.
Qed.

Lemma bisectSearch_exactlyOne p s : exactlyOne (fst (bisectSearch p s)).
Proof.
  unfold bisectSearch, commitRange. exec.
  destruct ((if Fix (cfg s) then commitRangeForFix else commitRangeForCause) s) as [r s1].
  cbn [fst snd]. destruct (rgErr r) as [e|] eqn:He; exec; cbn [rgErr]; rewrite ?He;
    [exact I|].
  pose proof (validateCommitRange_cases s1 (rgBad r) (rgGood r) (rgResults r))
    as (_ & _ & _ & Hv).
  destruct (validateCommitRange (rgBad r) (rgGood r) (rgResults r) s1) as [[fr fe] s2].
  cbn [fst snd] in *. destruct fr as [fr|], fe as [fe|]; try exact I.
  { destruct Hv as [Hv|Hv]; [discriminate|done]. }
  exec. cbn [rgBad rgGood rgResults rgErr].
  match goal with |- context [storeResults ?l ?s3] =>
    destruct (storeResults l s3) as [[e|] s4] end; cbn [fst snd]; [exact I|].
  destruct (rgBad r) as [bd|], (rgGood r) as [gd|]; exec; try exact I.
  destruct (Bisect (Hash bd) (Hash gd) s4) as [[cs|e] s5]; cbn [fst snd]; [|exact I].
  apply classify_exactlyOne.
Qed.

Lemma bisect_exactlyOne s : exactlyOne (fst (bisect s)).
Proof.
  unfold bisect. exec. destruct (bisectSetup s) as [[e|] s1]; exec; [exact I|].
  destruct (test s1) as [[p|e] s2]; exec; [|exact I].
  destruct (bool_decide _); exec; [exact I|].
  unfold bisectAfterGate. exec. destruct (decide _); [apply bisectSearch_exactlyOne|].
  destruct (minimizeConfig s2) as [[[q|]|e] s3]; exec;
    first [apply bisectSearch_exactlyOne | exact I].
Qed.

Lemma runImplBody_exactlyOne hd s : exactlyOne (fst (runImplBody hd s)).
Proof.
  unfold runImplBody. exec.
  match goal with |- context [bisect ?s0] =>
    destruct (bisect s0) as [[res err] s1] end. exec.
  destruct err as [err|]; [destruct (Fix (cfg s)), (flaky s1); exec; exact I|].
  destruct res as [res|]; [|destruct (Fix (cfg s)), (flaky s1); exec; exact I].
  destruct (Commits res) as [|c [|c' cs]]; [destruct (resCommit res)|..];
    destruct (Fix (cfg s)), (flaky s1), (resReport res); exec; try exact I.
  all: match goal with |- context [logCommits ?l ?s2] => destruct (logCommits l s2) end;
    exact I.
Qed.


(** runImplBody from the outcome of env.bisect. *)
Lemma runImplBody_outcome hd s :
  fst (runImplBody hd s) =
    match fst (bisect (sessionStart hd s)) with
    | (_, Some err) => (None, Some err)
    | (None, None) => (None, Some NilDeref)
    | (Some res, None) =>
        match Commits res, resCommit res with
        | [], None => (None, Some NilDeref)
        | _, _ => (Some res, None)
        end
    end.
Proof.
  unfold runImplBody. exec.
  assert (Hs : forall (b : bool) (x y : string) (a : list string) (s' : state),
             (if b then (fun s0 => (tt, set_calls (CLog x a :: calls s0) s0))
              else (fun s0 => (tt, set_calls (CLog y a :: calls s0) s0))) s'
             = (tt, set_calls (CLog (if b then x else y) a :: calls s') s'))
    by (by intros []).
  rewrite Hs. exec.
  repeat match goal with
         | |- context [bisect ?sb] =>
             lazymatch sb with
             | sessionStart hd s => fail
             | _ => change sb with (sessionStart hd s)
             end
         end.
  destruct (bisect (sessionStart hd s)) as [[res err] s1]. cbn [fst snd]. exec.
  destruct err as [err|]; [destruct res, (flaky s1); exec; reflexivity|].
  destruct res as [res|]; [|destruct (flaky s1); exec; reflexivity].
  destruct (Commits res) as [|c [|c' cs]]; [destruct (resCommit res)|..];
    destruct (Fix (cfg s)), (flaky s1), (resReport res); exec; try reflexivity.
  all: match goal with |- context [logCommits ?l ?s2] => destruct (logCommits l s2) end;
    reflexivity.
Qed.

(** X25. runImpl's body returns the Result of env.bisect as it is, in each
    of its three cases (no commit, one commit, several commits), provided
    that a Result with no commits carries a Commit. *)
Theorem X25_runImplBody_passes_result hd s res :
  fst (bisect (sessionStart hd s)) = (Some res, None) ->
  Commits res <> [] \/ resCommit res <> None ->
  fst (runImplBody hd s) = (Some res, None).
Proof.
  intros Hb Hc. rewrite runImplBody_outcome, Hb.
  destruct (Commits res), (resCommit res); try done. by destruct Hc.
Qed.

(** X26. When env.bisect returns a Result with no commits and without a
    Commit, runImpl dereferences the nil Commit to log its title, and the
    session ends in the run-time error of a nil dereference.  Bisect
    returning no commit leads there: the Result built at the end of
    env.bisect for an empty list of commits has no Commit. *)
Theorem X26_runImplBody_no_commit hd s res :
  fst (bisect (sessionStart hd s)) = (Some res, None) ->
  Commits res = [] -> resCommit res = None ->
  fst (runImplBody hd s) = (None, Some NilDeref)
  /\ forall s0, exists res0,
       fst (classify [] s0) = (Some res0, None)
       /\ Commits res0 = [] /\ resCommit res0 = None.
Proof.
  intros Hb Hc Hn. split.
  - by rewrite runImplBody_outcome, Hb, Hc, Hn.
  - intros s0. eexists. split; [reflexivity|done].
Qed.

(** *** The minimization of the kernel config *)

#[local] Instance mapsKept_preorder : PreOrder (@mapsKept W).
Proof.
  split; unfold mapsKept.
  - intros s. tauto.
  - intros s1 s2 s3 ? ?. intuition congruence.
Qed.

Ltac primm := intros; unfold mapsKept; cbn; tauto.

Lemma test_maps : stable (@mapsKept W) test.
Proof.
  unfold test, build. stab_with primm. apply stable_processResults. primm.
Qed.

(** X27. The predicate handed to Minimize makes the candidate the active
    kernel config and tests the revision that is checked out.  When the
    test returns a result, the predicate records it under the hash of the
    candidate and returns its verdict as the test gave it, in fix mode too;
    when the test fails, it returns the error and records nothing. *)
Theorem X27_predMinimize_records s cand :
  let s1 := set_kernelConfig cand s in
  (forall p, fst (test s1) = Ok p ->
     fst (predMinimize cand s) = (verdict (heap (snd (test s1)) !!! p), None)
     /\ testResults (snd (predMinimize cand s)) = <[hash_Hash cand := p]> (testResults s)
     /\ heap (snd (predMinimize cand s)) = heap (snd (test s1))
     /\ kernelConfig (snd (predMinimize cand s)) = cand)
  /\ (forall e, fst (test s1) = Err e ->
        predMinimize cand s = ((BisectBad, Some e), snd (test s1))
        /\ testResults (snd (test s1)) = testResults s).
Proof.
  intros s1. pose proof (test_kept s1) as (_ & Hk & _).
  assert (Htr : testResults (snd (test s1)) = testResults s).
  { by pose proof (test_maps s1) as (_ & Hm). }
  split; [intros p Ht|intros e Ht]; unfold predMinimize; exec;
    repeat match goal with
           | |- context [test ?sb] =>
               lazymatch sb with
               | s1 => fail
               | _ => change sb with s1
               end
           end; rewrite Ht; exec; [|done].
  rewrite Hk, Htr. done.
Qed.

(** X28. When the minimizer returns without calling its predicate:
    with a config, env.minimizeConfig makes it the active kernel config and
    returns no result (no test was recorded for it), and env.bisect goes on
    with the result of the starting test; with an error,
    env.minimizeConfig returns the error, and so does env.bisect.
    numTests is unchanged. *)
Theorem X28_minimizeConfig_untested s w r :
  let c := cfg s in
  minimizer_Minimize (SysTarget (Manager c)) (kConfig (Kernel c)) (kBaselineConfig (Kernel c))
    (world s) = Finish w r ->
  kBaselineConfig (Kernel c) <> [] ->
  numTests (snd (minimizeConfig s)) = numTests s
  /\ match r with
     | Ok minConfig =>
         fst (minimizeConfig s) = Ok None
         /\ kernelConfig (snd (minimizeConfig s)) = minConfig
         /\ forall p, bisectAfterGate p s = bisectSearch p (snd (minimizeConfig s))
     | Err e =>
         fst (minimizeConfig s) = Err e
         /\ forall p, fst (bisectAfterGate p s) = (None, Some e)
     end.
Proof.
  intros c Hm Hb. subst c.
  assert (Hmin : minimizeConfig s =
            match r with
            | Ok minConfig =>
                (Ok None,
                 set_kernelConfig minConfig
                   (set_calls (CMinimize (SysTarget (Manager (cfg s))) (kConfig (Kernel (cfg s)))
                                 (kBaselineConfig (Kernel (cfg s))) :: calls s)
                      (set_world w (set_testResults ∅ s))))
            | Err e =>
                (Err e,
                 set_calls (CMinimize (SysTarget (Manager (cfg s))) (kConfig (Kernel (cfg s)))
                              (kBaselineConfig (Kernel (cfg s))) :: calls s)
                   (set_world w (set_testResults ∅ s)))
            end).
  { unfold minimizeConfig, Minimize. exec. rewrite Hm. cbn [runStrategy]. exec.
    destruct r; exec; [|reflexivity]. by rewrite lookup_empty. }
  assert (Hgate : forall p, bisectAfterGate p s =
            match fst (minimizeConfig s) with
            | Err err => ((None, Some err), snd (minimizeConfig s))
            | Ok (Some q) => bisectSearch q (snd (minimizeConfig s))
            | Ok None => bisectSearch p (snd (minimizeConfig s))
            end).
  { intros p. unfold bisectAfterGate. exec. destruct (decide _) as [Hz|_].
    { destruct (kBaselineConfig (Kernel (cfg s))); [done|discriminate]. }
    by destruct (minimizeConfig s) as [[[q|]|e] s1]. }
  split; [rewrite Hmin; by destruct r|].
  destruct r as [minConfig|e].
  - split; [by rewrite Hmin|]. split; [by rewrite Hmin|].
    intros p. rewrite Hgate. by rewrite Hmin.
  - split; [by rewrite Hmin|]. intros p. rewrite Hgate. by rewrite Hmin.
Qed.

(** *** The setup of env.bisect *)

#[local] Instance untested_preorder : PreOrder (@untested W).
Proof.
  split; unfold untested.
  - intros s. tauto.
  - intros s1 s2 s3 ? ?. intuition congruence.
Qed.

Ltac primu := intros; unfold untested; cbn; tauto.

Lemma bisectSetup_untested : stable (@untested W) bisectSetup.
Proof. unfold bisectSetup, identifyRewrittenCommit. stab_with primu. Qed.

Lemma bisectSetup_footprint : stable (@footprint W setupCall) bisectSetup.
Proof. unfold bisectSetup, identifyRewrittenCommit. stabf. Qed.

(** X29. When the setup of env.bisect fails (PrepareBisect, Clean, the
    build of syzkaller, the resolution of the commit or its checkout),
    env.bisect returns that error and no Result without building or
    testing any revision: numTests, the flaky flag, the heap of results
    and the build and test times are unchanged, and only the calls of the
    setup were made. *)
Theorem X29_bisect_setup_failure s e :
  fst (bisectSetup s) = Some e ->
  bisect s = ((None, Some e), snd (bisectSetup s))
  /\ untested s (snd (bisect s))
  /\ footprint setupCall s (snd (bisect s)).
Proof.
  intros He.
  assert (Hb : bisect s = ((None, Some e), snd (bisectSetup s)))
    by (unfold bisect; rewrite bind_eq, He; reflexivity).
  rewrite Hb. cbn [snd].
  split; [done|]. split; [apply bisectSetup_untested|apply bisectSetup_footprint].
Qed.

(** *** The calls of the search *)

Lemma pred_footprint q : stable (@footprint W testCall) (pred q).
Proof. unfold pred. stabf. Qed.

Lemma Bisect_footprint b g : stable (@footprint W searchCall) (Bisect b g).
Proof.
  unfold Bisect. stabf. apply stable_runStrategy; [typeclasses eauto|primf|].
  intros q. apply (footprint_weaken testCall); [by intros []|apply pred_footprint].
Qed.

Lemma causeLoop_footprint tags :
  forall lastBad rs, stable (@footprint W searchCall) (causeLoop tags lastBad rs).
Proof. induction tags as [|tag tags IH]; intros lastBad rs; cbn [causeLoop]; stabf. Qed.

Lemma storeResults_footprint rs : stable (@footprint W searchCall) (storeResults rs).
Proof. induction rs as [|r rs IH]; cbn [storeResults]; stabf. Qed.

#[local] Hint Resolve Bisect_footprint causeLoop_footprint storeResults_footprint : stable.

Lemma bisectSearch_footprint p : stable (@footprint W searchCall) (bisectSearch p).
Proof.
  unfold bisectSearch, commitRange, commitRangeForFix, commitRangeForCause,
    validateCommitRange, classify.
  stabf.
Qed.

(** X30. The search of env.bisect (the range finder, Bisect with its
    predicate, the classification of the outcome) calls only SwitchCommit,
    PreviousReleaseTags, Bisect, IsRelease, the calls of env.test and the
    tracer.  Without a baseline config the whole of env.bisect never calls
    the minimizer: a repository that is no ConfigMinimizer is never asked
    to minimize. *)
Theorem X30_bisect_never_minimizes s :
  (forall p, footprint searchCall s (snd (bisectSearch p s)))
  /\ (kBaselineConfig (Kernel (cfg s)) = [] -> footprint bisectCall s (snd (bisect s))).
Proof.
  split; [intros p; apply bisectSearch_footprint|]. intros Hb.
  assert (Hsetup : footprint bisectCall s (snd (bisectSetup s))).
  { apply (footprint_weaken setupCall); [by intros []|apply bisectSetup_footprint]. }
  destruct (bisectSetup s) as [[e|] s1] eqn:Hs.
  { unfold bisect. rewrite bind_eq, Hs. exact Hsetup. }
  destruct (bisectSetup_config s s1 Hs) as (_ & _ & Hb1). rewrite Hb in Hb1.
  rewrite (bisect_gate s s1 Hs). cbn [snd] in Hsetup.
  assert (Htest : footprint bisectCall s (snd (test s1))).
  { etransitivity; [exact Hsetup|].
    apply (footprint_weaken testCall); [by intros []|apply test_footprint]. }
  pose proof (test_kept s1) as (Hcfg & _).
  destruct (fst (test s1)) as [p|e]; [|exact Htest].
  destruct (bool_decide _); [exact Htest|].
  unfold bisectAfterGate. exec. rewrite Hcfg, Hb1. cbn [length].
  rewrite decide_True by done. etransitivity; [exact Htest|].
  apply (footprint_weaken searchCall); [by intros []|apply bisectSearch_footprint].
Qed.

End Properties.

(** ** The properties on concrete inputs *)

Section Examples.

Import Script Inputs.

(** [runsTrials] in the scripted world, by evaluation. *)
Ltac runs_trials :=
  split; [reflexivity|]; eexists _, _; split; vm_compute; reflexivity.


(** C6 on the first test of a session: 20 trials. *)
Lemma C6_witness :
  exists n l,
    calls (snd (test causeState)) = l ++ CTest n [] [] [] :: calls (snd (build causeState))
    /\ n = 20.
Proof.
  destruct (C6_trial_count causeState (commitOf "r3") "sig-r3" (snd (build causeState)))
    as ((n & l & Hc & _ & _ & _ & H20 & _) & _).
  - reflexivity.
  - vm_compute. reflexivity.
  - exists n, l. split; [exact Hc|]. apply H20. right. reflexivity.
Defined.

(** C8 on one crash and two clean runs: the verdict is bad, the crash
    report is kept and the flaky flag is set. *)
Lemma C8_witness :
  (exists p rp,
     fst (test causeState) = Ok p
     /\ verdict (heap (snd (test causeState)) !!! p) = BisectBad
     /\ rep (heap (snd (test causeState)) !!! p) = Some rp
     /\ last (crashReports flakyTrials) = Some rp)
  /\ flaky (snd (test causeState)) = true.
Proof.
  destruct (C8_crash_and_flaky causeState (commitOf "r3") flakyTrials) as (Hv & Hf & _).
  - runs_trials.
  - vm_compute. discriminate.
  - split.
    + apply Hv. vm_compute. reflexivity.
    + apply Hf. right. split; vm_compute; reflexivity.
Defined.

(** C8 as stated fails: with two clean runs and no crash the bad count (0)
    is below the good count (2), and the flaky flag is not set; and with a
    crash among three trials of which two are infra failures, env.test
    returns an InfraError and the result keeps the verdict skip. *)
Lemma C8_counterexample :
  (countIf isCrash cleanTrials = 0
   /\ countIf isCrash cleanTrials < countIf isClean cleanTrials
   /\ fst (test cleanState) = Ok 0%nat
   /\ flaky (snd (test cleanState)) = false)
  /\ (0 < countIf isCrash infraTrials
      /\ fst (test infraState)
         = Err (InfraError "more than 50% of runs failed with an infra error")
      /\ verdict (heap (snd (test infraState)) !!! 0%nat) = BisectSkip).
Proof. vm_compute. repeat split. Qed.

(** C3 when the crash does not reproduce at the starting commit. *)
Lemma C3_witness :
  fst (bisect cleanState)
  = (None, Some (Errorf "the crash wasn't reproduced on the original commit")).
Proof.
  pose proof (C3_reproducibility_gate cleanState (snd (bisectSetup cleanState)) 0%nat)
    as H.
  destruct H as (H & _).
  - vm_compute. reflexivity.
  - vm_compute. reflexivity.
  - destruct H as (H & _); [vm_compute; discriminate|]. rewrite H. reflexivity.
Defined.

(** C7 in fix mode and in cause mode. *)
Lemma C7_witness :
  fst (validateCommitRange (Some (commitOf "r5")) None [0%nat] (skipState fixConfig))
  = (Some (mkResult [] (Some buildReport) (Some (commitOf "r5")) [Byte.x01; Byte.x02]
             false false), None)
  /\ fst (validateCommitRange (Some (commitOf "r3")) None [0%nat] (skipState causeConfig))
     = (None, Some (Errorf "oldest tested release had kernel build, boot or test errors")).
Proof.
  split.
  - refine (proj1 (proj1 (C7_skip_at_terminus (skipState fixConfig) (Some (commitOf "r5"))
                            None [0%nat] 0%nat _ _) _)); reflexivity.
  - refine (proj1 (proj2 (C7_skip_at_terminus (skipState causeConfig)
                            (Some (commitOf "r3")) None [0%nat] 0%nat _ _) _)); reflexivity.
Defined.

(** C9 with a commit title: the hash is returned, the title is not used. *)
Lemma C9_witness :
  fst (identifyRewrittenCommit titledState) = ("r3", None)
  /\ calls (snd (identifyRewrittenCommit titledState))
     = [CContains "r3"; CCheckoutBranch "repo" "master"].
Proof.
  rewrite (C9_reachable_hash_unchanged titledState (commitOf "r5")
             (set_wHead "r5" (world titledState)) (set_wHead "r5" (world titledState)));
    [split; reflexivity | reflexivity | reflexivity].
Defined.

(** C10 when the checkout of the branch fails. *)
Lemma C10_witness :
  fst (Run brokenBranchState) = (None, Some (InfraError "fetch failed")).
Proof.
  refine (proj2 (proj2 (proj2 (C10_checkout_failure_is_infra brokenBranchState)))
            (OtherError "fetch failed") (world brokenBranchState) (world brokenBranchState)
            (world brokenBranchState) _ _ _ _); reflexivity.
Defined.







Import Faulty.

(** *** Further properties on concrete inputs *)

(** X3 at time 10 of a session with a budget of 5. *)
Lemma X3_witness :
  test lateState = (Err (Errorf "bisection is taking too long (>5), aborting"), lateState).
Proof.
  refine (proj1 (X3_test_timeout lateState _ _)).
  - vm_compute. discriminate.
  - vm_compute. reflexivity.
Defined.

(** X4 on a kernel error with the report ld. *)
Lemma X4_witness :
  fst (test brokenBuildState) = Ok 0%nat
  /\ heap (snd (test brokenBuildState)) =
       [mkTestResult BisectSkip (Some (commitOf "r3"))
          (Some (mkReport "failed building r3: ld" [] [])) "sig-r3"]
  /\ numTests (snd (test brokenBuildState)) = 0.
Proof.
  destruct (X4_test_build_failure brokenBuildState (commitOf "r3") "sig-r3" linkError
              (snd (build brokenBuildState))) as (H1 & H2 & H3 & _).
  - reflexivity.
  - vm_compute. reflexivity.
  - split; [exact H1|]. split; [exact H2|exact H3].
Defined.

(** X5 in a world in which HeadCommit fails. *)
Lemma X5_witness :
  fst (test headlessState) = Err (Errorf "couldn't get repo HEAD: not a git repository").
Proof.
  refine (proj1 (proj2 (X5_test_no_head headlessState (OtherError "not a git repository")
                          (world headlessState) _ _))); reflexivity.
Defined.

(** X6 when the test runner has no VMs. *)
Lemma X6_witness :
  fst (test brokenRunnerState) = Err (InfraError "repro testing failure: no VMs")
  /\ numTests (snd (test brokenRunnerState)) = 1.
Proof.
  destruct (X6_test_runner_failure brokenRunnerState (commitOf "r3") "sig-r3"
              (snd (build brokenRunnerState)) noVMs
              (world (snd (build brokenRunnerState)))) as (H1 & H2 & _).
  - reflexivity.
  - vm_compute. reflexivity.
  - vm_compute. reflexivity.
  - split; [exact H1|exact H2].
Defined.

(** X7 on two clean runs: the verdict is good, and there is no report. *)
Lemma X7_witness :
  fst (test cleanState) = Ok 0%nat
  /\ verdict (heap (snd (test cleanState)) !!! 0%nat) = BisectGood
  /\ rep (heap (snd (test cleanState)) !!! 0%nat) = None.
Proof.
  destruct (X7_test_no_crash cleanState (commitOf "r3") cleanTrials) as (H1 & _ & H2 & _).
  - runs_trials.
  - vm_compute. discriminate.
  - reflexivity.
  - split; [exact H1|]. apply H2. vm_compute. reflexivity.
Defined.


(** X10 when the head r5 tests good: the range from r5 to r3. *)
Lemma X10_witness :
  fst (commitRangeForFix fixRangeState)
  = mkRange (Some (commitOf "r5")) (Some (commitOf "r3")) [0%nat] None.
Proof.
  destruct (X10_commitRangeForFix_range fixRangeState (commitOf "r5") (commitOf "r5")
              (set_wHead "r5" (world fixRangeState))) as (H & _).
  - reflexivity.
  - reflexivity.
  - rewrite (H 0%nat); vm_compute; reflexivity.
Defined.

(** X12 on the tags t2 (bad) and t1 (good). *)
Lemma X12_witness :
  is_Some (rgBad (fst (fst (commitRange rangeState))))
  /\ is_Some (rgGood (fst (fst (commitRange rangeState)))).
Proof.
  destruct (X12_commitRange_endpoints rangeState) as (H1 & H2 & _).
  - discriminate.
  - vm_compute. reflexivity.
  - vm_compute. reflexivity.
  - split; [exact H1|exact H2].
Defined.

(** X13 when the head r5 still crashes. *)
Lemma X13_witness :
  fst (bisectSearch 0%nat fixBadState)
  = (Some (mkResult [] (Some (mkReport "KASAN: use-after-free" [] []))
             (Some (commitOf "r5")) [] false false), None).
Proof.
  destruct (X13_commitRange_fix_not_fixed fixBadState (commitOf "r5") (commitOf "r5")
              (set_wHead "r5" (world fixBadState)) 0%nat) as (_ & H).
  - reflexivity.
  - reflexivity.
  - reflexivity.
  - vm_compute. reflexivity.
  - vm_compute. reflexivity.
  - rewrite H. vm_compute. reflexivity.
Defined.

(** X14 when the test runner fails at the second tag. *)
Lemma X14_witness :
  fst (commitRangeForCause abortState)
  = mkRange None None [] (Some (InfraError "repro testing failure: no VMs")).
Proof.
  pose (s1 := set_calls [CPreviousReleaseTags "r3" "gcc"] abortState).
  rewrite (X14_commitRangeForCause_abort abortState ["t2"] "t1" [] (world abortState)
             [(commitOf "t2", BisectBad)] [0%nat] (snd (probe "t2" s1))
             (InfraError "repro testing failure: no VMs")
             (snd (probe "t1" (snd (probe "t2" s1))))).
  - reflexivity.
  - reflexivity.
  - apply walked_run; [vm_compute; reflexivity..|]. apply walked_nil.
  - repeat constructor. discriminate.
  - vm_compute. reflexivity.
Defined.

(** X16 with and without a commit title. *)
Lemma X16_witness :
  fst (identifyRewrittenCommit rebasedState) = ("r7", None)
  /\ calls (snd (identifyRewrittenCommit untitledState))
     = [CContains "r3"; CCheckoutBranch "repo" "master"].
Proof.
  split.
  - destruct (X16_identifyRewrittenCommit_unreachable rebasedState (commitOf "r5")
                (set_wHead "r5" rebasedWorld) (set_wHead "r5" rebasedWorld))
      as (_ & H & _); [reflexivity..|].
    rewrite (H ltac:(discriminate) (commitOf "r7") (set_wHead "r5" rebasedWorld));
      reflexivity.
  - destruct (X16_identifyRewrittenCommit_unreachable untitledState (commitOf "r5")
                (set_wHead "r5" rebasedWorld) (set_wHead "r5" rebasedWorld))
      as (H & _); [reflexivity..|].
    rewrite H; reflexivity.
Defined.

(** X17 on a repository that is not a Bisecter. *)
Lemma X17_witness :
  runImpl plainRepoState =
    ((None, Some (Errorf "bisection is not implemented for linux")), plainRepoState).
Proof.
  apply (X17_runImpl_capabilities plainRepoState). reflexivity.
Defined.

(** X18 on a cause bisection from r3. *)
Lemma X18_witness :
  exists l, calls (snd (runImpl causeState)) = CSwitchCommit "r3" :: l ++ [CHeadCommit].
Proof.
  destruct (X18_runImpl_restores_head causeState (commitOf "r3") (world causeState))
    as (_ & l & Hl).
  - reflexivity.
  - left. reflexivity.
  - reflexivity.
  - exists l. exact Hl.
Defined.

(** X21 for a culprit and its parent with the same signature: a noop. *)
Lemma X21_witness :
  fst (detectNoopChange culprit noopState) = (true, None).
Proof.
  destruct (X21_detectNoopChange_cases noopState culprit 0%nat) as (_ & H & _).
  - reflexivity.
  - rewrite (H "p1" 1%nat); [reflexivity|discriminate|reflexivity|reflexivity].
Defined.

(** X23 for the same culprit. *)
Lemma X23_witness :
  exists noop,
    fst (classify [culprit] noopState) =
      (Some (mkResult [culprit] (Some (mkReport "KASAN: use-after-free" [] [])) None
               [Byte.x01; Byte.x02] noop false), None).
Proof.
  destruct (proj1 (X23_classify_outcome noopState [culprit]) culprit 0%nat) as [noop H];
    [reflexivity..|].
  exists noop. etransitivity; [exact H|]. reflexivity.
Defined.

(** X25 on a cause bisection that finds r4. *)
Lemma X25_witness :
  fst (runImplBody (commitOf "r3") causeState) =
    (Some (mkResult [commitOf "r4"] (Some (mkReport "KASAN: use-after-free" [] [])) None
             [Byte.x01; Byte.x02] false false), None).
Proof.
  apply X25_runImplBody_passes_result.
  - vm_compute. reflexivity.
  - left. discriminate.
Defined.

(** X26 when Bisect returns no commit. *)
Lemma X26_witness :
  fst (runImplBody (commitOf "r3") noCulpritState) = (None, Some NilDeref).
Proof.
  refine (proj1 (X26_runImplBody_no_commit (commitOf "r3") noCulpritState
                   (mkResult [] None None [Byte.x01; Byte.x02] false false) _ _ _)).
  - vm_compute. reflexivity.
  - reflexivity.
  - reflexivity.
Defined.

(** X28 when Minimize tries no candidate. *)
Lemma X28_witness :
  fst (minimizeConfig untriedState) = Ok None
  /\ kernelConfig (snd (minimizeConfig untriedState)) = [Byte.x01].
Proof.
  destruct (X28_minimizeConfig_untested untriedState (world untriedState) (Ok [Byte.x01]))
    as (_ & H1 & H2 & _).
  - reflexivity.
  - discriminate.
  - split; [exact H1|exact H2].
Defined.

(** X29 when the checkout of the branch fails during the setup. *)
Lemma X29_witness :
  fst (bisect brokenBranchState) = (None, Some (OtherError "fetch failed"))
  /\ numTests (snd (bisect brokenBranchState)) = 0.
Proof.
  destruct (X29_bisect_setup_failure brokenBranchState (OtherError "fetch failed"))
    as (H1 & (H2 & _) & _).
  - vm_compute. reflexivity.
  - split; [by rewrite H1|exact H2].
Defined.

(** X27 for the candidate 01 at r3. *)
Lemma X27_witness :
  testResults (snd (predMinimize [Byte.x01] causeState)) !! hash_Hash [Byte.x01]
  = Some 0%nat.
Proof.
  destruct (proj1 (X27_predMinimize_records causeState [Byte.x01]) 0%nat) as (_ & H & _).
  - vm_compute. reflexivity.
  - rewrite H. apply lookup_insert_eq.
Defined.

(** X30 on a cause bisection without a baseline config. *)
Lemma X30_witness :
  footprint bisectCall causeState (snd (bisect causeState)).
Proof. apply (X30_bisect_never_minimizes causeState). reflexivity. Defined.

End Examples.
